(** * automations-renderer: a shallow embedding of [server.js]

    The development follows the layout of the source file:

    - [JS]         the fragment of the language runtime the code leans on
                   (values, numbers as IEEE-754 binary64, [Number],
                   [parseInt], [String], property access);
    - [Normalize]  [normalizeDpr], [normalizeInt], [normalizeFloat];
    - [Runner]     [run], the child-process wrapper, as an event-driven
                   state machine;
    - [Server]     [renderPngBuffer] and the two POST handlers, written in
                   a small exception-and-log monad;
    - [Sample]     concrete worlds and requests.

    The definitions come first; the facts proved about them follow. *)

From Stdlib Require Import ZArith List String Ascii Bool Lia.
From Stdlib Require Import Floats.SpecFloat.
Import ListNotations.

Set Warnings "-register-all".

Local Open Scope string_scope.
Local Open Scope Z_scope.

(* ===================================================================== *)
(** * The runtime fragment *)
(* ===================================================================== *)

Module JS.

(** ** Numbers

    A JavaScript Number is an IEEE-754 binary64 value.  [spec_float] is the
    Standard Library's executable specification of such values (no payload
    on NaN, which is all the language can observe). *)

Definition number := spec_float.

Definition prec : Z := 53.
Definition emax : Z := 1024.

Definition NaN : number := S754_nan.
Definition pos_zero : number := S754_zero false.

(** [F(z)]: the Number nearest to the integer [z], ties to even.  [negz]
    is the sign given to a zero result. *)
Definition of_Z_signed (z : Z) (negz : bool) : number :=
  binary_normalize prec emax z 0 negz.

Definition of_Z (z : Z) : number := of_Z_signed z false.

(** [Number.isFinite(n)] for an [n] that already is a Number. *)
Definition isFinite (n : number) : bool :=
  match n with
  | S754_zero _ | S754_finite _ _ _ => true
  | S754_infinity _ | S754_nan => false
  end.

(** [a < b] and [a <= b] on Numbers; both are false when an operand is NaN. *)
Definition num_lt (a b : number) : bool := SFltb a b.
Definition num_le (a b : number) : bool := SFleb a b.

(** Well-formed binary64: a finite value carries a canonical mantissa and
    exponent. *)
Definition wf_number (n : number) : bool := valid_binary prec emax n.

(** [Number.isInteger(x)]: a finite [m * 2^e] is an integer when [e >= 0]
    or [2^(-e)] divides [m]. *)
Definition isInteger (x : number) : bool :=
  match x with
  | S754_zero _ => true
  | S754_finite _ m e => (0 <=? e) || (Zpos m mod 2 ^ (- e) =? 0)
  | S754_infinity _ | S754_nan => false
  end.

(** [Math.trunc(x)] of a finite [x], as an integer: the fraction is dropped,
    towards zero. *)
Definition truncZ (x : number) : Z :=
  match x with
  | S754_finite s m e =>
      let a := if 0 <=? e then Zpos m * 2 ^ e else Zpos m / 2 ^ (- e) in
      if s then - a else a
  | _ => 0
  end.

(** The Number written [1e-6] (or [0.000001]): below it, Number::toString
    switches to exponent notation. *)
Definition one_millionth : number := S754_finite false 4722366482869645 (-72).

(** ** Decimal digits *)

Definition digit_char (d : Z) : ascii := ascii_of_nat (48 + Z.to_nat d).

(** [dec_fixed w z]: the [w] low decimal digits of [z], most significant
    first. *)
Fixpoint dec_fixed (w : nat) (z : Z) : string :=
  match w with
  | O => EmptyString
  | S w' => dec_fixed w' (z / 10) ++ String (digit_char (z mod 10)) EmptyString
  end.

(** Number of decimal digits of a non-negative integer (1 for 0). *)
Fixpoint ndigits_fuel (fuel : nat) (z : Z) : nat :=
  match fuel with
  | O => 1
  | S f => if z <? 10 then 1%nat else S (ndigits_fuel f (z / 10))
  end.

Definition ndigits (z : Z) : nat := ndigits_fuel (Z.to_nat (Z.log2 z)) z.

(** Decimal numeral of a non-negative integer. *)
Definition dec (z : Z) : string := dec_fixed (ndigits z) z.

Definition dec_signed (z : Z) : string :=
  if z <? 0 then "-" ++ dec (- z) else dec z.

Fixpoint zeros (n : nat) : string :=
  match n with
  | O => EmptyString
  | S n' => String "0" (zeros n')
  end.

(** ** Number::toString (radix 10)

    For a positive finite [x = m * 2^e] the language asks for integers
    [n], [k], [s] with [k >= 1], [10^(k-1) <= s < 10^k], [F(s * 10^(n-k))]
    equal to [x], and [k] as small as possible; among several [s] the one
    nearest to [x].

    [F(d) = x] holds exactly when [d] lies between the midpoints that
    separate [x] from its two neighbours, the midpoints themselves being
    included when the mantissa of [x] is even.  Everything is measured in
    units of [2^(e-2)], in which [x] is [4m]. *)

Definition lowM (m : positive) (e : Z) : Z :=
  if (Zpos m =? 2 ^ 52) && (-1074 <? e) then 4 * Zpos m - 1 else 4 * Zpos m - 2.

Definition highM (m : positive) : Z := 4 * Zpos m + 2.

(** [M * 2^(e-2) <= s * 10^p] iff [M * scaleA e p <= s * scaleB e p]. *)
Definition scaleA (e p : Z) : Z := 2 ^ Z.max (e - 2) 0 * 10 ^ Z.max (- p) 0.
Definition scaleB (e p : Z) : Z := 10 ^ Z.max p 0 * 2 ^ Z.max (2 - e) 0.

(** [rounds_to m e s p]: [s >= 1] and [F(s * 10^p)] is [m * 2^e]. *)
Definition rounds_to (m : positive) (e : Z) (s p : Z) : bool :=
  let A := scaleA e p in
  let B := scaleB e p in
  (1 <=? s) &&
  (if Z.even (Zpos m)
   then (lowM m e * A <=? s * B) && (s * B <=? highM m * A)
   else (lowM m e * A <? s * B) && (s * B <? highM m * A)).

(** The multiple of [10^p] that rounds to [x], nearest to [x] when there
    are two around it (the even one on a tie). *)
Definition candidate (m : positive) (e p : Z) : option Z :=
  let A := scaleA e p in
  let B := scaleB e p in
  let r := 4 * Zpos m * A in
  let f := r / B in
  let rem := r - f * B in
  let okf := rounds_to m e f p in
  let okg := rounds_to m e (f + 1) p in
  if okf && okg then
    if 2 * rem <? B then Some f
    else if B <? 2 * rem then Some (f + 1)
    else if Z.even f then Some f else Some (f + 1)
  else if okf then Some f
  else if okg then Some (f + 1)
  else None.

(** The exact decimal expansion of [m * 2^e]. *)
Definition exact_decimal (m : positive) (e : Z) : Z * Z :=
  if 0 <=? e then (Zpos m * 2 ^ e, 0) else (Zpos m * 5 ^ (- e), e).

(** Walk the decimal grids from coarse to fine; the first grid with a
    point that rounds to [x] gives the fewest digits. *)
Fixpoint shortest_from (fuel : nat) (m : positive) (e p : Z) : Z * Z :=
  match candidate m e p with
  | Some s => (s, p)
  | None =>
      match fuel with
      | O => exact_decimal m e
      | S f => shortest_from f m e (p - 1)
      end
  end.

(** An exponent [p] with [m * 2^e < 2^L <= 10^p], where [L] is the bit
    length of [m] plus [e]: no coarser grid can hold a point that rounds to
    [x], so the walk may start there.  (30103/100000 is just above and
    30102/100000 just below the decimal logarithm of 2.) *)
Definition start_exponent (m : positive) (e : Z) : Z :=
  let L := Zpos (digits2_pos m) + e in
  (if 0 <=? L then L * 30103 else L * 30102) / 100000 + 1.

Definition shortest (m : positive) (e : Z) : Z * Z :=
  let p0 := start_exponent m e in
  shortest_from (Z.to_nat (p0 - Z.min e 0)) m e p0.

(** Steps 6 to 10 of Number::toString: lay out the digits [s] (there are
    [k] of them) with the decimal point after the [n]-th. *)
Definition format_decimal (s p : Z) : string :=
  let kn := ndigits s in
  let k := Z.of_nat kn in
  let n := k + p in
  if (k <=? n) && (n <=? 21) then
    dec s ++ zeros (Z.to_nat (n - k))
  else if (0 <? n) && (n <=? 21) then
    dec (s / 10 ^ (k - n)) ++ "." ++
    dec_fixed (Z.to_nat (k - n)) (s mod 10 ^ (k - n))
  else if (-6 <? n) && (n <=? 0) then
    "0." ++ zeros (Z.to_nat (- n)) ++ dec s
  else
    let e := n - 1 in
    let sign := if 0 <=? e then "+" else "-" in
    if k =? 1 then
      dec s ++ "e" ++ sign ++ dec (Z.abs e)
    else
      dec (s / 10 ^ (k - 1)) ++ "." ++
      dec_fixed (Z.to_nat (k - 1)) (s mod 10 ^ (k - 1)) ++
      "e" ++ sign ++ dec (Z.abs e).

Definition NumberToString (x : number) : string :=
  match x with
  | S754_nan => "NaN"
  | S754_zero _ => "0"
  | S754_infinity false => "Infinity"
  | S754_infinity true => "-Infinity"
  | S754_finite sg m e =>
      let '(s, p) := shortest m e in
      (if sg then "-" else EmptyString) ++ format_decimal s p
  end.

(** ** Strings

    A string is a sequence of code units; this development keeps to code
    units below 256.  White space and line terminators in that range: TAB,
    LF, VT, FF, CR, SPACE and NO-BREAK SPACE. *)

Definition is_ws (c : ascii) : bool :=
  let n := nat_of_ascii c in
  ((9 <=? n) && (n <=? 13) || (n =? 32) || (n =? 160))%nat.

Fixpoint skip_ws (s : string) : string :=
  match s with
  | String c r => if is_ws c then skip_ws r else s
  | EmptyString => s
  end.

Fixpoint rev_string (acc s : string) : string :=
  match s with
  | EmptyString => acc
  | String c r => rev_string (String c acc) r
  end.

Definition trim (s : string) : string :=
  rev_string EmptyString (skip_ws (rev_string EmptyString (skip_ws s))).

(** Value of a digit character in a radix up to 16. *)
Definition digit_value (base : Z) (c : ascii) : option Z :=
  let n := Z.of_nat (nat_of_ascii c) in
  let v := if (48 <=? n) && (n <=? 57) then n - 48
           else if (97 <=? n) && (n <=? 102) then n - 87
           else if (65 <=? n) && (n <=? 70) then n - 55
           else 99 in
  if v <? base then Some v else None.

(** Longest prefix of digits: its value on top of [acc], how many digits
    were read, and what follows. *)
Fixpoint read_digits (base acc : Z) (cnt : nat) (s : string) : Z * nat * string :=
  match s with
  | String c r =>
      match digit_value base c with
      | Some d => read_digits base (acc * base + d) (S cnt) r
      | None => (acc, cnt, s)
      end
  | EmptyString => (acc, cnt, s)
  end.

(** ** parseInt(string, 10)

    Leading white space is dropped, a sign is read, then the longest
    prefix of decimal digits; no digit at all gives NaN.  With an explicit
    radix of 10 no [0x] prefix is recognised. *)
Definition parseInt_string (input : string) : number :=
  let s := skip_ws input in
  let '(neg, s) :=
    match s with
    | String "-" r => (true, r)
    | String "+" r => (false, r)
    | _ => (false, s)
    end in
  let '(z, cnt, _) := read_digits 10 0 0 s in
  match cnt with
  | O => NaN
  | _ => of_Z_signed (if neg then - z else z) neg
  end.

(** ** StringToNumber

    [F(M * 10^sc)] for a positive integer [M]: exact integer arithmetic,
    one rounding.  The two shortcuts are exact too: [M >= 1] and
    [sc > 310] is beyond the largest Number, and [M < 10^cnt] with
    [sc < -(cnt + 330)] is below half the smallest one. *)
Definition of_decimal (neg : bool) (M : Z) (cnt : nat) (sc : Z) : number :=
  match M with
  | Zpos mp =>
      if 310 <? sc then S754_infinity neg
      else if sc <? - (Z.of_nat cnt + 330) then S754_zero neg
      else if 0 <=? sc then of_Z_signed (if neg then - (M * 10 ^ sc) else M * 10 ^ sc) neg
      else SFdiv prec emax (S754_finite neg mp 0)
                           (S754_finite false (Z.to_pos (10 ^ (- sc))) 0)
  | _ => S754_zero neg
  end.

(** The exponent part [e|E [+|-] digits] of a decimal literal; [None] when
    the text is not one. *)
Definition read_exponent (s : string) : option Z :=
  match s with
  | EmptyString => Some 0
  | String c r =>
      if (Ascii.eqb c "e" || Ascii.eqb c "E")%bool then
        let '(eneg, r) :=
          match r with
          | String "-" r' => (true, r')
          | String "+" r' => (false, r')
          | _ => (false, r)
          end in
        match read_digits 10 0 0 r with
        | (_, O, _) => None
        | (z, _, EmptyString) => Some (if eneg then - z else z)
        | _ => None
        end
      else None
  end.

Definition unsigned_decimal (neg : bool) (s : string) : number :=
  if String.eqb s "Infinity" then S754_infinity neg
  else
    let '(i, ci, r) := read_digits 10 0 0 s in
    let '(M, cf, r, dot_ok) :=
      match r with
      | String "." r' =>
          let '(M, c, r'') := read_digits 10 i ci r' in
          (M, (c - ci)%nat, r'', negb (Nat.eqb c 0))
      | _ => (i, O, r, negb (Nat.eqb ci 0))
      end in
    if dot_ok then
      match read_exponent r with
      | Some ex => of_decimal neg M (ci + cf) (ex - Z.of_nat cf)
      | None => NaN
      end
    else NaN.

Definition radix_literal (base : Z) (s : string) : number :=
  match read_digits base 0 0 s with
  | (_, O, _) => NaN
  | (z, _, EmptyString) => of_Z z
  | _ => NaN
  end.

Definition StringToNumber (input : string) : number :=
  match trim input with
  | EmptyString => pos_zero
  | String "0" (String "x" r) | String "0" (String "X" r) => radix_literal 16 r
  | String "0" (String "o" r) | String "0" (String "O" r) => radix_literal 8 r
  | String "0" (String "b" r) | String "0" (String "B" r) => radix_literal 2 r
  | String "-" r => unsigned_decimal true r
  | String "+" r => unsigned_decimal false r
  | s => unsigned_decimal false s
  end.

(** ** Values

    The values that reach the server: what [JSON.parse] builds from a
    request body, plus [undefined] for an absent property.  An object is
    its list of own properties; none of them is ever callable. *)

Inductive value : Type :=
| Undefined
| Null
| Bool (b : bool)
| Num (n : number)
| Str (s : string)
| Arr (items : list value)
| Obj (props : list (string * value)).

(** Thrown values are Error objects: constructor name, [message], and the
    optional [code] property. *)
Record error : Type := mkError {
  err_name : string;
  err_message : string;
  err_code : option string
}.

Inductive completion (A : Type) : Type :=
| Normal (a : A)
| Throw (e : error).

Arguments Normal {A} a.
Arguments Throw {A} e.

Definition cbind {A B} (c : completion A) (k : A -> completion B) : completion B :=
  match c with
  | Normal a => k a
  | Throw e => Throw e
  end.

Definition TypeError (msg : string) : error := mkError "TypeError" msg None.
Definition Error (msg : string) : error := mkError "Error" msg None.

Fixpoint lookup (key : string) (props : list (string * value)) : option value :=
  match props with
  | [] => None
  | (k, v) :: rest => if String.eqb k key then Some v else lookup key rest
  end.

Definition has_own (key : string) (props : list (string * value)) : bool :=
  match lookup key props with Some _ => true | None => false end.

(** [v?.key] and the destructuring read [{key} = v], for the keys the
    server reads: none of them is [length], an index, or the name of a
    prototype method, so only an own property of an object can answer. *)
Definition get (v : value) (key : string) : value :=
  match v with
  | Obj props => match lookup key props with Some x => x | None => Undefined end
  | _ => Undefined
  end.

(** A destructuring default [key = d]. *)
Definition or_default (v d : value) : value :=
  match v with Undefined => d | _ => v end.

(** ToBoolean. *)
Definition truthy (v : value) : bool :=
  match v with
  | Undefined | Null => false
  | Bool b => b
  | Num (S754_zero _) | Num S754_nan => false
  | Num _ => true
  | Str EmptyString => false
  | Str _ => true
  | Arr _ | Obj _ => true
  end.

(** [v === true]. *)
Definition is_true (v : value) : bool :=
  match v with Bool true => true | _ => false end.

(** ToString.  An array goes through [Array.prototype.join]; an object
    through OrdinaryToPrimitive, where an own [toString] property (never
    callable) hides [Object.prototype.toString] and leaves no method that
    returns a primitive. *)
Fixpoint ToString (v : value) : completion string :=
  match v with
  | Undefined => Normal "undefined"
  | Null => Normal "null"
  | Bool true => Normal "true"
  | Bool false => Normal "false"
  | Num n => Normal (NumberToString n)
  | Str s => Normal s
  | Arr items =>
      let element x :=
        match x with
        | Undefined | Null => Normal EmptyString
        | _ => ToString x
        end in
      (fix join (l : list value) : completion string :=
         match l with
         | [] => Normal EmptyString
         | [x] => element x
         | x :: rest =>
             cbind (element x) (fun s =>
             cbind (join rest) (fun r => Normal (s ++ "," ++ r)))
         end) items
  | Obj props =>
      if has_own "toString" props
      then Throw (TypeError "Cannot convert object to primitive value")
      else Normal "[object Object]"
  end.

(** ToNumber, which is what [Number(v)] computes. *)
Definition ToNumber (v : value) : completion number :=
  match v with
  | Undefined => Normal NaN
  | Null => Normal pos_zero
  | Bool true => Normal (of_Z 1)
  | Bool false => Normal pos_zero
  | Num n => Normal n
  | Str s => Normal (StringToNumber s)
  | Arr _ | Obj _ => cbind (ToString v) (fun s => Normal (StringToNumber s))
  end.

(** [parseInt(v, 10)]. *)
Definition parseInt (v : value) : completion number :=
  cbind (ToString v) (fun s => Normal (parseInt_string s)).

(** [s.startsWith(p)]. *)
Definition startsWith (p s : string) : bool := String.prefix p s.

(** [s.replace(pat, by)] with a string pattern: the first occurrence. *)
Fixpoint replace_first (pat by_ s : string) : string :=
  if String.prefix pat s then by_ ++ substring (String.length pat) (String.length s) s
  else match s with
       | EmptyString => s
       | String c r => String c (replace_first pat by_ r)
       end.

(** Own enumerable properties, as the spread [{...v}] copies them. *)
Fixpoint indexed {A} (f : A -> value) (i : Z) (l : list A) : list (string * value) :=
  match l with
  | [] => []
  | x :: r => (dec i, f x) :: indexed f (i + 1) r
  end.

Definition own_props (v : value) : list (string * value) :=
  match v with
  | Obj props => props
  | Arr items => indexed (fun x => x) 0 items
  | Str s => indexed (fun c => Str (String c EmptyString)) 0 (list_ascii_of_string s)
  | _ => []
  end.

(** Define or overwrite a property; a new key goes last. *)
Fixpoint set_prop (key : string) (x : value) (props : list (string * value))
  : list (string * value) :=
  match props with
  | [] => [(key, x)]
  | (k, v) :: rest =>
      if String.eqb k key then (k, x) :: rest else (k, v) :: set_prop key x rest
  end.

End JS.

(* ===================================================================== *)
(** * Numeric normalizers (server.js, lines 33-47) *)
(* ===================================================================== *)

Module Normalize.
Import JS.

(** A value a caller can use: finite and strictly positive. *)
Definition usable (n : number) : bool := isFinite n && num_lt (of_Z 0) n.

(** [String(v)] returns, rather than throws. *)
Definition convertible (v : value) : bool :=
  match ToString v with Normal _ => true | Throw _ => false end.

(** [function normalizeDpr(v, fallback = 1)] *)
Definition normalizeDpr (v fallback : value) : completion value :=
  let fallback := or_default fallback (Num (of_Z 1)) in
  cbind (ToNumber v) (fun n =>
  if negb (isFinite n) || num_le n (of_Z 0) then Normal fallback
  else Normal (Num n)).

(** [function normalizeInt(v, fallback)] *)
Definition normalizeInt (v fallback : value) : completion value :=
  cbind (parseInt v) (fun n =>
  Normal (if isFinite n && num_lt (of_Z 0) n then Num n else fallback)).

(** [function normalizeFloat(v, fallback)] *)
Definition normalizeFloat (v fallback : value) : completion value :=
  cbind (ToNumber v) (fun n =>
  Normal (if isFinite n && num_lt (of_Z 0) n then Num n else fallback)).

End Normalize.

(* ===================================================================== *)
(** * The process runner (server.js, lines 49-74) *)
(* ===================================================================== *)

Module Runner.
Import JS.

(** What the event loop can deliver to the callbacks [run] installs. *)
Inductive proc_event : Type :=
| StdoutData (d : string)          (* p.stdout.on("data") *)
| StderrData (d : string)          (* p.stderr.on("data") *)
| ProcError (err : error)          (* p.on("error") *)
| Close (code : option Z)          (* p.on("close"); [None] is a null code *)
| TimerFires.                      (* the setTimeout callback *)

Inductive timer_state : Type := Armed | Cleared | Fired.

(** The promise [run] returns. *)
Inductive promise : Type :=
| Pending
| Resolved (stdout stderr : string)
| Rejected (e : error).

Record run_state : Type := mkRun {
  spawned : string * list string;  (* spawn(cmd, args) *)
  stdout : string;
  stderr : string;
  timer : timer_state;
  signals : list string;           (* p.kill(signal) calls *)
  settled : promise
}.

(** [resolve] and [reject] act on a pending promise only. *)
Definition settle (p new : promise) : promise :=
  match p with Pending => new | _ => p end.

(** [clearTimeout(timer)]: a timer that already fired stays fired. *)
Definition clearTimeout (t : timer_state) : timer_state :=
  match t with Armed => Cleared | _ => t end.

Definition default_timeoutMs : number := of_Z 120000.

Definition timeout_message (cmd : string) (timeoutMs : number) : string :=
  cmd ++ " timed out after " ++ NumberToString timeoutMs ++ "ms".

(** [`${code}`] *)
Definition code_string (code : option Z) : string :=
  match code with Some c => dec_signed c | None => "null" end.

(** [stderr || stdout] *)
Definition stderr_or_stdout (stderr stdout : string) : string :=
  match stderr with EmptyString => stdout | _ => stderr end.

Definition failure_message (cmd : string) (code : option Z) (stderr stdout : string) : string :=
  cmd ++ " failed (code " ++ code_string code ++ "). " ++ stderr_or_stdout stderr stdout.

Definition start (cmd : string) (args : list string) : run_state :=
  mkRun (cmd, args) EmptyString EmptyString Armed [] Pending.

Definition step (cmd : string) (timeoutMs : number) (st : run_state) (ev : proc_event)
  : run_state :=
  match ev with
  | TimerFires =>
      match timer st with
      | Armed =>
          mkRun (spawned st) (stdout st) (stderr st) Fired
                (signals st ++ ["SIGKILL"])
                (settle (settled st) (Rejected (Error (timeout_message cmd timeoutMs))))
      | _ => st
      end
  | StdoutData d =>
      mkRun (spawned st) (stdout st ++ d) (stderr st) (timer st) (signals st) (settled st)
  | StderrData d =>
      mkRun (spawned st) (stdout st) (stderr st ++ d) (timer st) (signals st) (settled st)
  | ProcError err =>
      mkRun (spawned st) (stdout st) (stderr st) (clearTimeout (timer st)) (signals st)
            (settle (settled st) (Rejected err))
  | Close code =>
      mkRun (spawned st) (stdout st) (stderr st) (clearTimeout (timer st)) (signals st)
            (settle (settled st)
               (match code with
                | Some 0 => Resolved (stdout st) (stderr st)
                | _ => Rejected (Error (failure_message cmd code (stderr st) (stdout st)))
                end))
  end.

(** [run(cmd, args, { timeoutMs = 120000 } = {})] driven by the events
    the loop delivers, in order. *)
Definition run (cmd : string) (args : list string) (timeoutMs : option number)
    (events : list proc_event) : run_state :=
  let ms := match timeoutMs with Some t => t | None => default_timeoutMs end in
  fold_left (step cmd ms) events (start cmd args).

(** [await run(...)]: the timer stays armed until something clears it, so
    a run that nothing else settles ends with the timer firing. *)
Definition await_run (cmd : string) (args : list string) (timeoutMs : option number)
    (events : list proc_event) : completion (string * string) :=
  match settled (run cmd args timeoutMs (events ++ [TimerFires])) with
  | Resolved out err => Normal (out, err)
  | Rejected e => Throw e
  | Pending => Throw (Error "unreachable: promise still pending")
  end.

(** The events before any exit, error or timer: output only. *)
Definition output_only (ev : proc_event) : bool :=
  match ev with StdoutData _ | StderrData _ => true | _ => false end.

(** What the two pipes delivered, concatenated in order. *)
Fixpoint collect_stdout (events : list proc_event) : string :=
  match events with
  | [] => EmptyString
  | StdoutData d :: r => d ++ collect_stdout r
  | _ :: r => collect_stdout r
  end.

Fixpoint collect_stderr (events : list proc_event) : string :=
  match events with
  | [] => EmptyString
  | StderrData d :: r => d ++ collect_stderr r
  | _ :: r => collect_stderr r
  end.

End Runner.

(* ===================================================================== *)
(** * The renderer and the request handlers (server.js, lines 76-282) *)
(* ===================================================================== *)

Module Server.
Import JS Normalize.

Definition buffer := list Byte.byte.

(** ** The outside world

    Every call that leaves the process is answered by the world: it
    succeeds with a value or throws (rejects).  A handler makes each of
    these calls at most once, so one answer per call describes any
    behaviour of the collaborators during a request.

    Three kinds of call are taken not to throw: [path.join] on strings,
    [crypto.randomBytes], and the methods of the Express response
    ([res.status], [res.json], [res.setHeader], [res.send]) together with
    [console.error]. *)
Record world : Type := mkWorld {
  DATA_ROOT : string;                       (* process.env.DATA_ROOT || "/data" *)
  tmpdir : string;                          (* os.tmpdir() *)
  path_join : string -> string -> string;   (* path.join on two strings *)
  existsSync : string -> bool;              (* fs.existsSync *)
  mkdtempSync : string -> completion string;
  randomHex : string;                       (* crypto.randomBytes(6).toString("hex") *)
  launch : completion unit;                 (* chromium.launch(...) *)
  newContext : completion unit;
  newPage : completion unit;
  addInitScript : completion unit;
  goto : completion unit;
  addStyleTag : completion unit;
  evaluate : completion unit;
  waitForFunction : completion unit;
  screenshot : completion buffer;
  page_close : completion unit;
  context_close : completion unit;
  writeFileSync : completion unit;
  ffmpeg : list Runner.proc_event;          (* what the child process does *)
  readFileSync : completion buffer;
  rmSync : completion unit
}.

(** Calls made to the collaborators, in order. *)
Inductive event : Type :=
| EMkdtemp (pfx : string)
| ELaunch
| ENewContext (width height : value) (deviceScaleFactor : value)
| ENewPage
| EAddInitScript (data assets options : value)
| EGoto (url : string) (waitUntil : string)
| EAddStyleTag (content : string)
| EEvaluateFontsReady
| EWaitForReady (timeout : Z)
| EScreenshot (type : string) (omitBackground : value)
| EPageClose
| EContextClose
| EConsoleError (e : error)
| EWriteFile (path : string) (data : buffer)
| ERun (cmd : string) (args : list string) (timeoutMs : number)
| EReadFile (path : string)
| ERm (path : string) (recursive force : bool).

Inductive payload : Type :=
| Json (v : value)
| Raw (b : buffer).

(** The response under construction: [res.status], [res.setHeader],
    [res.json] / [res.send]. *)
Record response : Type := mkResponse {
  status : Z;
  content_type : option string;
  body : option payload
}.

Definition fresh_response : response := mkResponse 200 None None.

Record state : Type := mkState {
  log : list event;
  browserPromise : option (completion unit);   (* [null] until first use *)
  res : response
}.

Definition initial : state := mkState [] None fresh_response.

(** ** Exceptions over state *)

Definition M (A : Type) : Type := state -> completion A * state.

Definition ret {A} (a : A) : M A := fun st => (Normal a, st).
Definition throw {A} (e : error) : M A := fun st => (Throw e, st).

Definition bind {A B} (m : M A) (k : A -> M B) : M B :=
  fun st =>
    match m st with
    | (Normal a, st') => k a st'
    | (Throw e, st') => (Throw e, st')
    end.

Notation "x <- m ;; k" := (bind m (fun x => k))
  (at level 61, m at next level, right associativity).
Notation "m ;;; k" := (bind m (fun _ => k))
  (at level 61, right associativity).

(** A pure computation that may throw. *)
Definition lift {A} (c : completion A) : M A := fun st => (c, st).

(** [try { m } catch (err) { h err }] *)
Definition try_catch {A} (m : M A) (h : error -> M A) : M A :=
  fun st =>
    match m st with
    | (Normal a, st') => (Normal a, st')
    | (Throw e, st') => h e st'
    end.

(** [try { m } finally { c }] *)
Definition try_finally {A} (m : M A) (c : M unit) : M A :=
  fun st =>
    let '(r, st1) := m st in
    match c st1 with
    | (Normal _, st2) => (r, st2)
    | (Throw e, st2) => (Throw e, st2)
    end.

(** [p.catch(() => {})] and [try { m } catch {}] *)
Definition swallow (m : M unit) : M unit :=
  try_catch m (fun _ => ret tt).

Definition emit (ev : event) : M unit :=
  fun st => (Normal tt, mkState (log st ++ [ev]) (browserPromise st) (res st)).

(** A call to a collaborator: it is made, then answered. *)
Definition call {A} (ev : event) (answer : completion A) : M A :=
  emit ev ;;; lift answer.

Definition set_res (r : response) : M unit :=
  fun st => (Normal tt, mkState (log st) (browserPromise st) r).

Definition get_res : M response := fun st => (Normal (res st), st).

(** [res.status(code).json(v)] *)
Definition res_status_json (code : Z) (v : value) : M unit :=
  set_res (mkResponse code (Some "application/json") (Some (Json v))).

(** [res.setHeader("Content-Type", t)] *)
Definition res_content_type (t : string) : M unit :=
  r <- get_res ;; set_res (mkResponse (status r) (Some t) (body r)).

(** [res.send(buf)] *)
Definition res_send (b : buffer) : M unit :=
  r <- get_res ;; set_res (mkResponse (status r) (content_type r) (Some (Raw b))).

Definition console_error (e : error) : M unit := emit (EConsoleError e).

(** ** getBrowser (lines 15-31) *)
Definition getBrowser (w : world) : M unit :=
  fun st =>
    match browserPromise st with
    | Some p => (p, st)
    | None =>
        (launch w, mkState (log st ++ [ELaunch]) (Some (launch w)) (res st))
    end.

(** ** renderPngBuffer (lines 76-149) *)

Record render_args : Type := mkArgs {
  template : value;
  width : value;
  height : value;
  transparent : value;
  data : value;
  assets : value;
  options : value;
  hideBg : bool
}.

Definition TEMPLATES_ROOT (w : world) : string := path_join w (DATA_ROOT w) "templates".

(** [path.join(root, x)] rejects an argument that is not a string. *)
Definition join_value (w : world) (root : string) (x : value) : completion string :=
  match x with
  | Str s => Normal (path_join w root s)
  | _ => Throw (mkError "TypeError"
                  "The path argument must be of type string."
                  (Some "ERR_INVALID_ARG_TYPE"))
  end.

Definition template_not_found (htmlPath : string) : error :=
  mkError "Error" ("Template not found at " ++ htmlPath) (Some "TEMPLATE_NOT_FOUND").

Definition nl : string := String (ascii_of_nat 10) EmptyString.

Definition hide_bg_css : string :=
  nl ++ "        .bg { display:none !important; }" ++ nl ++ "      ".

Definition renderPngBuffer (w : world) (a : render_args) : M buffer :=
  templateDir <- lift (join_value w (TEMPLATES_ROOT w) (template a)) ;;
  let htmlPath := path_join w templateDir "index.html" in
  if negb (existsSync w htmlPath) then throw (template_not_found htmlPath)
  else
    dpr <- lift (normalizeDpr (get (options a) "deviceScaleFactor") (Num (of_Z 1))) ;;
    getBrowser w ;;;
    call (ENewContext (width a) (height a) dpr) (newContext w) ;;;
    call ENewPage (newPage w) ;;;
    call (EAddInitScript (data a) (assets a) (options a)) (addInitScript w) ;;;
    call (EGoto ("file://" ++ htmlPath) "domcontentloaded") (goto w) ;;;
    (if hideBg a then call (EAddStyleTag hide_bg_css) (addStyleTag w) else ret tt) ;;;
    call EEvaluateFontsReady (evaluate w) ;;;
    call (EWaitForReady 20000) (waitForFunction w) ;;;
    png <- call (EScreenshot "png" (transparent a)) (screenshot w) ;;
    swallow (call EPageClose (page_close w)) ;;;
    swallow (call EContextClose (context_close w)) ;;;
    ret png.

(** ** POST /render/png (lines 155-190) *)

Definition error_body (code : string) (e : error) : value :=
  Obj [("error", Str code); ("message", Str (err_message e))].

Definition code_is (e : error) (c : string) : bool :=
  match err_code e with Some c' => String.eqb c' c | None => false end.

Definition post_render_png (w : world) (req_body : value) : M unit :=
  try_catch
    (let body := if truthy req_body then req_body else Obj [] in
     let template := get body "template" in
     let width := or_default (get body "width") (Num (of_Z 2160)) in
     let height := or_default (get body "height") (Num (of_Z 3840)) in
     let transparent := or_default (get body "transparent") (Bool false) in
     let data := or_default (get body "data") (Obj []) in
     let assets := or_default (get body "assets") (Obj []) in
     let options := or_default (get body "options") (Obj []) in
     if negb (truthy template)
     then res_status_json 400 (Obj [("error", Str "template is required")])
     else
       png <- renderPngBuffer w
                (mkArgs template width height transparent data assets options false) ;;
       res_content_type "image/png" ;;;
       res_send png)
    (fun err =>
       console_error err ;;;
       res_status_json (if code_is err "TEMPLATE_NOT_FOUND" then 404 else 500)
                       (error_body "RENDER_FAILED" err)).

(** ** POST /render/video (lines 192-282) *)

(** The filter graph (lines 245-249); [W] and [H] are [`${width}`] and
    [`${height}`]. *)
Definition video_filter (W H : string) : string :=
  "[0:v]scale=" ++ W ++ ":" ++ H ++ ":force_original_aspect_ratio=increase," ++
  "crop=" ++ W ++ ":" ++ H ++ ",setsar=1[bg]" ++
  ";" ++
  "[bg][1:v]overlay=0:0:format=auto[v]".

(** The argument vector (lines 251-265). *)
Definition ffmpegArgs (bgPath overlayPath duration fps filter : string)
    (includeAudio : bool) (outPath : string) : list string :=
  [ "-y";
    "-stream_loop"; "-1";
    "-i"; bgPath;
    "-i"; overlayPath;
    "-t"; duration;
    "-r"; fps;
    "-filter_complex"; filter;
    "-map"; "[v]" ] ++
  (if includeAudio then ["-map"; "0:a?"] else ["-an"]) ++
  [ "-c:v"; "libx264";
    "-pix_fmt"; "yuv420p";
    "-movflags"; "+faststart";
    outPath ].

Definition composition_timeoutMs : number := of_Z 180000.

(** [bgVideo.replace] with the pattern [file://] and the empty string as
    replacement: only a string has the method. *)
Definition bgVideo_path (bgVideo : value) : completion string :=
  match bgVideo with
  | Str s => Normal (replace_first "file://" EmptyString s)
  | _ => Throw (TypeError "bgVideo.replace is not a function")
  end.

(** The [try] block (lines 200-271). *)
Definition video_try (w : world) (req_body : value) (overlayPath outPath : string)
  : M unit :=
  let body := if truthy req_body then req_body else Obj [] in
  let template := get body "template" in
  let width := or_default (get body "width") (Num (of_Z 2160)) in
  let height := or_default (get body "height") (Num (of_Z 3840)) in
  let data := or_default (get body "data") (Obj []) in
  let assets := or_default (get body "assets") (Obj []) in
  let options := or_default (get body "options") (Obj []) in
  if negb (truthy template)
  then res_status_json 400 (Obj [("error", Str "template is required")])
  else
    let bgVideo := get assets "backgroundVideo" in
    if negb (truthy bgVideo)
    then res_status_json 400
           (Obj [("error", Str "assets.backgroundVideo is required for /render/video")])
    else
      bgString <- lift (ToString bgVideo) ;;
      if negb (startsWith "file://" bgString)
      then res_status_json 400
             (Obj [("error",
                    Str "assets.backgroundVideo must be a file:// URL for /render/video")])
      else
        fps <- lift (normalizeInt (get options "fps") (Num (of_Z 30))) ;;
        durationSec <- lift (normalizeFloat (get options "durationSec") (Num (of_Z 6))) ;;
        let includeAudio := is_true (get options "includeAudio") in
        dsf <- lift (normalizeDpr (get options "deviceScaleFactor") (Num (of_Z 1))) ;;
        overlayPng <- renderPngBuffer w
                        (mkArgs template width height (Bool true) data assets
                           (Obj (set_prop "deviceScaleFactor" dsf (own_props options)))
                           true) ;;
        call (EWriteFile overlayPath overlayPng) (writeFileSync w) ;;;
        bgPath <- lift (bgVideo_path bgVideo) ;;
        W <- lift (ToString width) ;;
        H <- lift (ToString height) ;;
        let filter := video_filter W H in
        duration <- lift (ToString durationSec) ;;
        rate <- lift (ToString fps) ;;
        let args := ffmpegArgs bgPath overlayPath duration rate filter includeAudio outPath in
        emit (ERun "ffmpeg" args composition_timeoutMs) ;;;
        lift (Runner.await_run "ffmpeg" args (Some composition_timeoutMs) (ffmpeg w)) ;;;
        mp4 <- call (EReadFile outPath) (readFileSync w) ;;
        res_content_type "video/mp4" ;;;
        res_send mp4.

Definition post_render_video (w : world) (req_body : value) : M unit :=
  tmpDir <- call (EMkdtemp (path_join w (tmpdir w) "render-"))
                 (mkdtempSync w (path_join w (tmpdir w) "render-")) ;;
  let id := randomHex w in
  let overlayPath := path_join w tmpDir ("overlay-" ++ id ++ ".png") in
  let outPath := path_join w tmpDir ("out-" ++ id ++ ".mp4") in
  try_finally
    (try_catch
       (video_try w req_body overlayPath outPath)
       (fun err =>
          console_error err ;;;
          res_status_json 500 (error_body "RENDER_VIDEO_FAILED" err)))
    (swallow (call (ERm tmpDir true true) (rmSync w))).

(** Everything the video handler does once the directory exists, short of
    the [finally] block: the [try] with its [catch]. *)
Definition video_guarded (w : world) (req_body : value) (tmpDir : string) : M unit :=
  let id := randomHex w in
  try_catch
    (video_try w req_body
       (path_join w tmpDir ("overlay-" ++ id ++ ".png"))
       (path_join w tmpDir ("out-" ++ id ++ ".mp4")))
    (fun err =>
       console_error err ;;;
       res_status_json 500 (error_body "RENDER_VIDEO_FAILED" err)).

(** ** Reading a finished run *)

(** [ensures (m st) Q]: the run of [m] from [st] ends in an outcome and a
    state that satisfy [Q]. *)
Definition ensures {A} (r : completion A * state)
    (Q : completion A -> state -> Prop) : Prop :=
  Q (fst r) (snd r).

Definition closes_page (ev : event) : bool :=
  match ev with EPageClose => true | _ => false end.

Definition closes_context (ev : event) : bool :=
  match ev with EContextClose => true | _ => false end.

Definition opens_context (ev : event) : bool :=
  match ev with ENewContext _ _ _ => true | _ => false end.

Definition opens_page (ev : event) : bool :=
  match ev with ENewPage => true | _ => false end.

Definition makes_tmpdir (ev : event) : bool :=
  match ev with EMkdtemp _ => true | _ => false end.

(** The [error] field of a JSON error body. *)
Definition error_code_of (r : response) : option value :=
  match body r with
  | Some (Json (Obj props)) => lookup "error" props
  | _ => None
  end.

End Server.

(* ===================================================================== *)
(** * Concrete worlds and requests *)
(* ===================================================================== *)

Module Sample.
Import JS Runner Server.

Definition png_bytes : buffer := [Byte.x89; Byte.x50; Byte.x4e; Byte.x47].
Definition mp4_bytes : buffer := [Byte.x00; Byte.x00; Byte.x00; Byte.x18].

Definition ready_timeout : error :=
  mkError "TimeoutError" "page.waitForFunction: Timeout 20000ms exceeded." None.

Definition nav_failure : error :=
  mkError "Error" "page.goto: net::ERR_FILE_NOT_FOUND" None.

Definition close_failure : error :=
  mkError "Error" "Target page, context or browser has been closed" None.

Definition rm_failure : error :=
  mkError "Error" "EBUSY: resource busy or locked, rm" (Some "EBUSY").

(** A world in which everything works unless a parameter says otherwise. *)
Definition world_with (have_template : bool) (goto_ wait_ close_ rm_ : completion unit)
    (ffmpeg_ : list proc_event) : world :=
  {| DATA_ROOT := "/data";
     tmpdir := "/tmp";
     path_join := fun a b => a ++ "/" ++ b;
     existsSync := fun _ => have_template;
     mkdtempSync := fun pfx => Normal (pfx ++ "Xy12Zw");
     randomHex := "0a1b2c3d4e5f";
     launch := Normal tt;
     newContext := Normal tt;
     newPage := Normal tt;
     addInitScript := Normal tt;
     goto := goto_;
     addStyleTag := Normal tt;
     evaluate := Normal tt;
     waitForFunction := wait_;
     screenshot := Normal png_bytes;
     page_close := close_;
     context_close := close_;
     writeFileSync := Normal tt;
     ffmpeg := ffmpeg_;
     readFileSync := Normal mp4_bytes;
     rmSync := rm_ |}.

Definition ffmpeg_ok : list proc_event :=
  [StderrData "frame=  144 fps= 48"; Close (Some 0)].

Definition calm : world :=
  world_with true (Normal tt) (Normal tt) (Normal tt) (Normal tt) ffmpeg_ok.

(** The template never raises the ready flag. *)
Definition never_ready : world :=
  world_with true (Normal tt) (Throw ready_timeout) (Normal tt) (Normal tt) ffmpeg_ok.

(** Closing the page and the context both fail. *)
Definition close_fails : world :=
  world_with true (Normal tt) (Normal tt) (Throw close_failure) (Normal tt) ffmpeg_ok.

(** No index.html anywhere. *)
Definition no_template : world :=
  world_with false (Normal tt) (Normal tt) (Normal tt) (Normal tt) ffmpeg_ok.

(** Navigation fails. *)
Definition nav_fails : world :=
  world_with true (Throw nav_failure) (Normal tt) (Normal tt) (Normal tt) ffmpeg_ok.

(** Removing the temporary directory fails. *)
Definition rm_fails : world :=
  world_with true (Normal tt) (Normal tt) (Normal tt) (Throw rm_failure) ffmpeg_ok.

Definition card_args : render_args :=
  mkArgs (Str "card") (Num (of_Z 400)) (Num (of_Z 300)) (Bool true)
         (Obj []) (Obj []) (Obj []) false.

(** [{template: "card"}] *)
Definition png_request : value := Obj [("template", Str "card")].

(** [{template: "card", assets: {backgroundVideo: "file:///bg.mp4"},
      options: {fps: 24, durationSec: 2}}] *)
Definition video_request : value :=
  Obj [("template", Str "card");
       ("assets", Obj [("backgroundVideo", Str "file:///bg.mp4")]);
       ("options", Obj [("fps", Num (of_Z 24)); ("durationSec", Num (of_Z 2))])].

(** [{template: "card"}]: no background video. *)
Definition video_request_no_bg : value := Obj [("template", Str "card")].

(** [{template: "card", assets: {backgroundVideo: "https://cdn.example/bg.mp4"}}] *)
Definition video_request_remote_bg : value :=
  Obj [("template", Str "card");
       ("assets", Obj [("backgroundVideo", Str "https://cdn.example/bg.mp4")])].

(** An object whose own [toString] property is not callable, as
    [JSON.parse] builds it from [{"toString": 1}]. *)
Definition hostile : value := Obj [("toString", Num (of_Z 1))].

(** [{template: 5}] *)
Definition png_request_numeric_template : value := Obj [("template", Num (of_Z 5))].

(** [{assets: {backgroundVideo: "file:///bg.mp4"}}]: no template. *)
Definition video_request_no_template : value :=
  Obj [("assets", Obj [("backgroundVideo", Str "file:///bg.mp4")])].

(** [{template: "card", assets: {backgroundVideo: ["file:///bg.mp4"]}}] *)
Definition video_request_array_bg : value :=
  Obj [("template", Str "card");
       ("assets", Obj [("backgroundVideo", Arr [Str "file:///bg.mp4"])])].

(** [{template: "card", width: 1080, height: 1920,
      assets: {backgroundVideo: "file:///bg.mp4"}}] *)
Definition video_request_sized : value :=
  Obj [("template", Str "card");
       ("width", Num (of_Z 1080));
       ("height", Num (of_Z 1920));
       ("assets", Obj [("backgroundVideo", Str "file:///bg.mp4")])].

Definition launch_failure : error :=
  mkError "Error" "browserType.launch: Failed to launch chromium" None.

(** Chromium cannot be started. *)
Definition no_browser : world :=
  {| DATA_ROOT := DATA_ROOT calm;
     tmpdir := tmpdir calm;
     path_join := path_join calm;
     existsSync := existsSync calm;
     mkdtempSync := mkdtempSync calm;
     randomHex := randomHex calm;
     launch := Throw launch_failure;
     newContext := newContext calm;
     newPage := newPage calm;
     addInitScript := addInitScript calm;
     goto := goto calm;
     addStyleTag := addStyleTag calm;
     evaluate := evaluate calm;
     waitForFunction := waitForFunction calm;
     screenshot := screenshot calm;
     page_close := page_close calm;
     context_close := context_close calm;
     writeFileSync := writeFileSync calm;
     ffmpeg := ffmpeg calm;
     readFileSync := readFileSync calm;
     rmSync := rmSync calm |}.

(** ffmpeg cannot open the background and exits with status 1. *)
Definition ffmpeg_exits_1 : world :=
  world_with true (Normal tt) (Normal tt) (Normal tt) (Normal tt)
    [StderrData "/bg.mp4: No such file or directory"; Close (Some 1)].

(** The Numbers written [2.7], [0.5] and [5e-7]. *)
Definition two_point_seven : number := S754_finite false 6079859496950170 (-51).
Definition one_half : number := S754_finite false 4503599627370496 (-53).
Definition five_e_minus_7 : number := S754_finite false 4722366482869645 (-73).

End Sample.

(* ===================================================================== *)
(** * Facts about the process runner *)
(* ===================================================================== *)

Import JS Normalize Runner Server Sample.

Lemma append_nil_r (s : string) : (s ++ EmptyString)%string = s.
Proof. induction s as [|c s IH]; simpl; [reflexivity | now rewrite IH]. Qed.

Lemma append_assoc (a b c : string) : ((a ++ b) ++ c)%string = (a ++ (b ++ c))%string.
Proof. induction a as [|x a IH]; simpl; [reflexivity | now rewrite IH]. Qed.

(** While only output arrives, [run] accumulates it and touches nothing
    else. *)
Lemma step_output_only (cmd : string) (ms : number) (pre : list proc_event) :
  forall st,
    forallb output_only pre = true ->
    fold_left (step cmd ms) pre st =
    mkRun (spawned st)
          (stdout st ++ collect_stdout pre) (stderr st ++ collect_stderr pre)
          (timer st) (signals st) (settled st).
Proof.
  induction pre as [|ev pre IH]; intros st Hpre.
  - simpl. rewrite !append_nil_r. now destruct st.
  - simpl in Hpre. apply andb_true_iff in Hpre as [Hev Hpre].
    destruct ev; try discriminate; simpl; rewrite (IH _ Hpre); simpl;
      now rewrite ?append_assoc.
Qed.

(** Once the promise is settled and the timer is no longer armed, no
    event changes the outcome, the timer, or the signals sent. *)
Lemma step_after_settled (cmd : string) (ms : number) (post : list proc_event) :
  forall st,
    settled st <> Pending ->
    timer st <> Armed ->
    settled (fold_left (step cmd ms) post st) = settled st /\
    timer (fold_left (step cmd ms) post st) = timer st /\
    signals (fold_left (step cmd ms) post st) = signals st.
Proof.
  induction post as [|ev post IH]; intros st Hs Ht; simpl.
  - auto.
  - assert (Hstep : settled (step cmd ms st ev) = settled st /\
                    timer (step cmd ms st ev) = timer st /\
                    signals (step cmd ms st ev) = signals st).
    { destruct ev; simpl; destruct (timer st) eqn:Et, (settled st) eqn:Es;
        simpl; try congruence; auto. }
    destruct Hstep as (E1 & E2 & E3).
    destruct (IH (step cmd ms st ev)) as (F1 & F2 & F3); try congruence.
    rewrite F1, F2, F3. auto.
Qed.

Lemma run_app (cmd : string) (args : list string) (t : option number)
    (a b : list proc_event) :
  run cmd args t (a ++ b) =
  fold_left (step cmd (match t with Some x => x | None => default_timeoutMs end))
            b (run cmd args t a).
Proof. unfold run. now rewrite fold_left_app. Qed.

(** A promise that has seen the timer fire is not pending. *)
Lemma run_settles (cmd : string) (args : list string) (t : option number)
    (events : list proc_event) :
  settled (run cmd args t (events ++ [TimerFires])) <> Pending.
Proof.
  rewrite run_app. simpl.
  set (ms := match t with Some x => x | None => default_timeoutMs end).
  assert (Inv : forall evs st,
             (timer st = Armed \/ settled st <> Pending) ->
             let st' := fold_left (step cmd ms) evs st in
             timer st' = Armed \/ settled st' <> Pending).
  { induction evs as [|ev evs IH]; intros st H; simpl; [exact H|].
    apply IH. destruct ev; simpl; destruct (timer st), (settled st);
      simpl; destruct H; try congruence; try (right; congruence); auto;
      try (destruct code as [[| |]|]; right; congruence). }
  specialize (Inv events (start cmd args) (or_introl eq_refl)).
  fold (run cmd args t events) in Inv. unfold run in *. fold ms.
  cbv zeta in Inv.
  destruct (timer (fold_left (step cmd ms) events (start cmd args))) eqn:Et;
    destruct (settled (fold_left (step cmd ms) events (start cmd args))) eqn:Es;
    simpl; destruct Inv; congruence.
Qed.

Lemma run_output_only (cmd : string) (args : list string) (t : option number)
    (pre : list proc_event) :
  forallb output_only pre = true ->
  run cmd args t pre =
  mkRun (cmd, args) (collect_stdout pre) (collect_stderr pre) Armed [] Pending.
Proof.
  intros Hpre. unfold run. now rewrite (step_output_only _ _ _ _ Hpre).
Qed.

(** The timer fires while the process is still running: SIGKILL is sent,
    and the promise rejects with the timeout error, whatever comes later. *)
Lemma run_timeout (cmd : string) (args : list string) (ms : number)
    (pre post : list proc_event) :
  forallb output_only pre = true ->
  let st := run cmd args (Some ms) (pre ++ TimerFires :: post) in
  settled st = Rejected (Error (timeout_message cmd ms)) /\
  signals st = ["SIGKILL"] /\
  timer st = Fired.
Proof.
  intros Hpre. cbv zeta. rewrite run_app, (run_output_only _ _ _ _ Hpre).
  simpl.
  match goal with |- context [fold_left _ post ?s] => set (s1 := s) end.
  assert (Hs : settled s1 <> Pending) by (subst s1; simpl; congruence).
  assert (Ht : timer s1 <> Armed) by (subst s1; simpl; congruence).
  destruct (step_after_settled cmd ms post s1 Hs Ht) as (E1 & E2 & E3).
  rewrite E1, E2, E3. subst s1. simpl. auto.
Qed.

(** The process closes while the promise is pending. *)
Lemma run_close (cmd : string) (args : list string) (t : option number)
    (pre post : list proc_event) (code : option Z) :
  forallb output_only pre = true ->
  let st := run cmd args t (pre ++ Close code :: post) in
  settled st =
    (match code with
     | Some 0 => Resolved (collect_stdout pre) (collect_stderr pre)
     | _ => Rejected (Error (failure_message cmd code (collect_stderr pre)
                                             (collect_stdout pre)))
     end) /\
  timer st = Cleared /\
  signals st = [].
Proof.
  intros Hpre. cbv zeta. rewrite run_app, (run_output_only _ _ _ _ Hpre).
  simpl.
  match goal with |- context [fold_left _ post ?s] => set (s1 := s) end.
  assert (Hs : settled s1 <> Pending)
    by (subst s1; simpl; destruct code as [[| |]|]; congruence).
  assert (Ht : timer s1 <> Armed) by (subst s1; simpl; congruence).
  destruct (step_after_settled
              cmd (match t with Some x => x | None => default_timeoutMs end)
              post s1 Hs Ht) as (E1 & E2 & E3).
  rewrite E1, E2, E3. subst s1. simpl. auto.
Qed.

(* ===================================================================== *)
(** * Facts about the renderer and the handlers *)
(* ===================================================================== *)


(** Unfold the monad, leaving the calls to the world and to the pure
    helpers in place. *)
Ltac unfold_monad :=
  cbv beta iota zeta delta
    [bind ret throw lift try_catch try_finally swallow emit call getBrowser negb
     set_res get_res res_status_json res_content_type res_send console_error];
  cbn [log browserPromise res status content_type body
       template width height transparent data assets options hideBg].

(** The answer the run is waiting for: the innermost scrutinee at the
    head of the term. *)
Ltac pending t :=
  lazymatch t with
  | match ?c with Normal _ => _ | Throw _ => _ end => pending c
  | (if ?b then _ else _) => pending b
  | match ?c with Some _ => _ | None => _ end => pending c
  | match ?c with (_, _) => _ end => pending c
  | (match ?c with Normal _ => _ | Throw _ => _ end) _ => pending c
  | (if ?b then _ else _) _ => pending b
  | _ => t
  end.

(** The run is waiting when its head is a case analysis. *)
Ltac is_waiting t :=
  lazymatch t with
  | match _ with Normal _ => _ | Throw _ => _ end => idtac
  | (if _ then _ else _) => idtac
  | match _ with Some _ => _ | None => _ end => idtac
  | match _ with (_, _) => _ end => idtac
  | (match _ with Normal _ => _ | Throw _ => _ end) _ => idtac
  | (if _ then _ else _) _ => idtac
  end.

(** Take one step: use a hypothesis about the pending answer when there
    is one, else consider both answers. *)
Ltac run_step :=
  lazymatch goal with
  | |- ensures ?t _ =>
      is_waiting t;
      let c := pending t in
      first
        [ match goal with H : c = _ |- _ => rewrite H end
        | let E := fresh "E" in destruct c eqn:E ];
      unfold_monad
  end.

(** Run to the end, on every path. *)
Ltac run_all :=
  unfold_monad; repeat run_step; unfold ensures;
  cbn [fst snd log browserPromise res status content_type body].



(** Bring a log built by successive calls into the form [log st ++ evs]. *)
Ltac flatten_log := rewrite <- ?app_assoc; cbn [app].

(** ** renderPngBuffer *)

(** What a call to [renderPngBuffer] leaves in the log.  When it returns,
    closing the page and closing the context are its last two calls, and
    their failures do not surface.  When it throws, it has closed nothing. *)
Lemma renderPngBuffer_outcomes (w : world) (a : render_args) (st : state) :
  ensures (renderPngBuffer w a st) (fun r st' =>
    exists evs, log st' = (log st ++ evs)%list /\
      match r with
      | Normal _ => exists pre, evs = (pre ++ [EPageClose; EContextClose])%list
      | Throw _ => existsb closes_page evs = false /\
                   existsb closes_context evs = false
      end).
Proof.
  unfold renderPngBuffer. run_all; flatten_log;
    (eexists; split; [try reflexivity; symmetry; apply app_nil_r |]);
    try (split; reflexivity);
    match goal with
    | |- exists pre, ?evs = (pre ++ _)%list =>
        exists (firstn (List.length evs - 2)%nat evs); reflexivity
    end.
Qed.

(** ** POST /render/video: the temporary directory *)

(** The [try]/[catch] pair never lets an exception through, and only adds
    to the log. *)
Lemma video_guarded_grows (w : world) (req_body : value) (tmpDir : string) (st : state) :
  ensures (video_guarded w req_body tmpDir st) (fun r st' =>
    r = Normal tt /\ exists evs, log st' = (log st ++ evs)%list).
Proof.
  unfold video_guarded, video_try, renderPngBuffer.
  run_all; flatten_log; (split; [reflexivity|]);
    eexists; try reflexivity; symmetry; apply app_nil_r.
Qed.

(** The shape of a video request once the directory exists: the guarded
    body, then the removal, whose own failure is dropped. *)
Lemma post_render_video_unfold (w : world) (req_body : value) (st : state) (tmpDir : string) :
  mkdtempSync w (path_join w (tmpdir w) "render-") = Normal tmpDir ->
  post_render_video w req_body st =
  let st0 := mkState (log st ++ [EMkdtemp (path_join w (tmpdir w) "render-")])
                     (browserPromise st) (res st) in
  let r := video_guarded w req_body tmpDir st0 in
  (fst r, mkState (log (snd r) ++ [ERm tmpDir true true])
                  (browserPromise (snd r)) (res (snd r))).
Proof.
  intros Hmk. unfold post_render_video, call, bind at 1 2, emit at 1, lift at 1.
  rewrite Hmk. unfold try_finally. fold (video_guarded w req_body tmpDir).
  cbv zeta.
  destruct (video_guarded w req_body tmpDir _) as [r st1].
  unfold swallow, try_catch, bind, emit, lift, ret.
  destruct (rmSync w); reflexivity.
Qed.

(** When the directory cannot be created the handler throws before its
    [try]: nothing is sent and there is nothing to remove. *)
Lemma post_render_video_no_tmpdir (w : world) (req_body : value) (st : state) e :
  mkdtempSync w (path_join w (tmpdir w) "render-") = Throw e ->
  post_render_video w req_body st =
  (Throw e, mkState (log st ++ [EMkdtemp (path_join w (tmpdir w) "render-")])
                    (browserPromise st) (res st)).
Proof.
  intros Hmk. unfold post_render_video, call, bind, emit, lift.
  now rewrite Hmk.
Qed.

(** ** Strings: prefixes *)

Lemma prefix_split (p s : string) :
  String.prefix p s = true -> exists r, s = (p ++ r)%string.
Proof.
  revert s. induction p as [|a p IH]; intros s H.
  - exists s. reflexivity.
  - destruct s as [|b s]; simpl in H; [discriminate|].
    destruct (ascii_dec a b) as [->|]; [|discriminate].
    destruct (IH s H) as [r ->]. exists r. reflexivity.
Qed.

Lemma prefix_append (p r : string) : String.prefix p (p ++ r) = true.
Proof.
  induction p as [|a p IH]; simpl.
  - now destruct r.
  - destruct (ascii_dec a a); [exact IH | contradiction].
Qed.

Lemma substring_skip (p r : string) (n : nat) :
  substring (String.length p) n (p ++ r) = substring 0 n r.
Proof. induction p as [|a p IH]; simpl; [reflexivity | exact IH]. Qed.

Lemma substring_all (r : string) :
  forall n, (String.length r <= n)%nat -> substring 0 n r = r.
Proof.
  induction r as [|a r IH]; intros n H.
  - now destruct n.
  - destruct n; simpl in *; [lia|]. rewrite IH; [reflexivity | lia].
Qed.

Lemma length_append (p r : string) :
  String.length (p ++ r) = (String.length p + String.length r)%nat.
Proof. induction p as [|a p IH]; simpl; [reflexivity | now rewrite IH]. Qed.

Lemma replace_first_eq (p by_ s : string) :
  replace_first p by_ s =
  if String.prefix p s
  then (by_ ++ substring (String.length p) (String.length s) s)%string
  else match s with
       | EmptyString => s
       | String c r => String c (replace_first p by_ r)
       end.
Proof. destruct s; reflexivity. Qed.

Lemma replace_first_prefix (p by_ r : string) :
  replace_first p by_ (p ++ r) = (by_ ++ r)%string.
Proof.
  rewrite replace_first_eq, prefix_append, substring_skip, substring_all;
    [reflexivity | rewrite length_append; lia].
Qed.

(** A background locator that passed validation and has a [replace]
    method is a string that starts with [file://]; the path is the rest. *)
Lemma bgVideo_prefix (v : value) (s p : string) :
  ToString v = Normal s ->
  startsWith "file://" s = true ->
  bgVideo_path v = Normal p ->
  v = Str ("file://" ++ p).
Proof.
  intros Hs Hp Hb. destruct v; try discriminate.
  simpl in Hs, Hb. injection Hs as ->. injection Hb as <-.
  destruct (prefix_split _ _ Hp) as [r ->].
  now rewrite replace_first_prefix.
Qed.


(** C7.  Once the video handler has created its temporary directory, its
    last act on every path is [rmSync(tmpDir, {recursive: true, force:
    true})]; the handler then completes normally whether or not the
    removal succeeded. *)
Theorem video_tmpdir_always_removed
    (w : world) (req_body : value) (st : state) (tmpDir : string) :
  mkdtempSync w (path_join w (tmpdir w) "render-") = Normal tmpDir ->
  ensures (post_render_video w req_body st) (fun r st' =>
    r = Normal tt /\
    exists evs,
      log st' = (log st ++ EMkdtemp (path_join w (tmpdir w) "render-")
                        :: evs ++ [ERm tmpDir true true])%list).
Proof.
  intros Hmk. rewrite (post_render_video_unfold _ _ _ _ Hmk). cbv zeta.
  match goal with |- context [video_guarded w req_body tmpDir ?s] =>
    pose proof (video_guarded_grows w req_body tmpDir s) as Hg
  end.
  unfold ensures in *. cbn [fst snd log] in *.
  destruct Hg as [Hr [evs Hl]]. split; [exact Hr|].
  exists evs. rewrite Hl. now rewrite <- !app_assoc.
Qed.

Lemma video_tmpdir_always_removed_witness :
  mkdtempSync rm_fails (path_join rm_fails (tmpdir rm_fails) "render-")
    = Normal "/tmp/render-Xy12Zw" /\
  rmSync rm_fails = Throw rm_failure /\
  ensures (post_render_video rm_fails video_request initial) (fun r st' =>
    r = Normal tt /\
    exists evs,
      log st' = (log initial ++ EMkdtemp "/tmp/render-"
                        :: evs ++ [ERm "/tmp/render-Xy12Zw" true true])%list).
Proof.
  split; [reflexivity | split; [reflexivity|]].
  apply (video_tmpdir_always_removed rm_fails video_request initial "/tmp/render-Xy12Zw").
  reflexivity.
Defined.

(** ** POST /render/video: validation *)

Section VideoRequest.
Variable w : world.
Variable req_body : value.

Let request := if truthy req_body then req_body else Obj [].
Let assets_ := or_default (get request "assets") (Obj []).
Let options_ := or_default (get request "options") (Obj []).
Let width_ := or_default (get request "width") (Num (of_Z 2160)).
Let height_ := or_default (get request "height") (Num (of_Z 3840)).
Let bgVideo := get assets_ "backgroundVideo".
Let tmp_prefix := path_join w (tmpdir w) "render-".

(** C2, as the code has it.  When [assets.backgroundVideo] is absent
    (falsy), or its string form does not start with [file://], the
    response is 400.  The temporary directory has been created by then;
    the handler removes it again and does nothing else: no browser, no
    page, no file written, no process. *)
Theorem video_bad_background_is_400 (st : state) (tmpDir : string) :
  mkdtempSync w tmp_prefix = Normal tmpDir ->
  (truthy bgVideo = false \/
   exists s, ToString bgVideo = Normal s /\ startsWith "file://" s = false) ->
  ensures (post_render_video w req_body st) (fun r st' =>
    r = Normal tt /\
    status (res st') = 400 /\
    log st' = (log st ++ [EMkdtemp tmp_prefix; ERm tmpDir true true])%list /\
    browserPromise st' = browserPromise st).
Proof.
  subst tmp_prefix bgVideo assets_ request. intros Hmk Hbad.
  unfold post_render_video, video_try.
  destruct Hbad as [Hf | [s [Hs Hp]]].
  - run_all; flatten_log; repeat split; reflexivity.
  - run_all; flatten_log; repeat split; reflexivity.
Qed.

(** C9.  With a usable [file://] background and a template whose
    index.html does not exist, the video handler answers 500 with the
    code RENDER_VIDEO_FAILED, where the PNG handler answers 404 for the
    same template: the video [catch] does not look at the error's
    code. *)
Theorem video_template_not_found_is_500 (st : state) (tmpDir name s : string) :
  mkdtempSync w tmp_prefix = Normal tmpDir ->
  get request "template" = Str name ->
  truthy (Str name) = true ->
  truthy bgVideo = true ->
  ToString bgVideo = Normal s ->
  startsWith "file://" s = true ->
  existsSync w (path_join w (path_join w (TEMPLATES_ROOT w) name) "index.html")
    = false ->
  ensures (post_render_video w req_body st) (fun r st' =>
    r = Normal tt /\
    status (res st') = 500 /\
    error_code_of (res st') = Some (Str "RENDER_VIDEO_FAILED")) /\
  ensures (post_render_png w req_body st) (fun r st' =>
    r = Normal tt /\ status (res st') = 404).
Proof.
  subst tmp_prefix bgVideo assets_ request. intros Hmk Ht Htt Hb Hs Hp Hex.
  split.
  - unfold post_render_video, video_try, renderPngBuffer, join_value.
    rewrite Ht. run_all; repeat split; reflexivity.
  - unfold post_render_png, renderPngBuffer, join_value.
    rewrite Ht. run_all; repeat split; reflexivity.
Qed.

(** What the log says when ffmpeg was started, and what the handler
    answers when the run then fails. *)
Lemma video_run_event
    (st : state) (tmpDir cmd : string) (args : list string) (t : number) :
  mkdtempSync w tmp_prefix = Normal tmpDir ->
  ~ In (ERun cmd args t) (log st) ->
  ensures (post_render_video w req_body st) (fun _ st' =>
    In (ERun cmd args t) (log st') ->
    exists bgPath W H F D fps dur,
      bgVideo = Str ("file://" ++ bgPath) /\
      ToString width_ = Normal W /\
      ToString height_ = Normal H /\
      normalizeInt (get options_ "fps") (Num (of_Z 30)) = Normal fps /\
      ToString fps = Normal F /\
      normalizeFloat (get options_ "durationSec") (Num (of_Z 6)) = Normal dur /\
      ToString dur = Normal D /\
      cmd = "ffmpeg" /\
      t = composition_timeoutMs /\
      args = ffmpegArgs bgPath
               (path_join w tmpDir ("overlay-" ++ randomHex w ++ ".png"))
               D F (video_filter W H)
               (is_true (get options_ "includeAudio"))
               (path_join w tmpDir ("out-" ++ randomHex w ++ ".mp4")) /\
      (forall e,
          await_run "ffmpeg" args (Some composition_timeoutMs) (ffmpeg w) = Throw e ->
          res st' =
          mkResponse 500 (Some "application/json")
            (Some (Json (error_body "RENDER_VIDEO_FAILED" e))))).
Proof.
  subst tmp_prefix bgVideo width_ height_ options_ assets_ request.
  intros Hmk Hnot.
  unfold post_render_video, video_try, renderPngBuffer.
  run_all; intros Hin;
    repeat (apply in_app_or in Hin; destruct Hin as [Hin | Hin]);
    try contradiction;
    try (destruct Hin as [Hin | []]; discriminate Hin).
  all: destruct Hin as [Hin | []]; inversion Hin; subst; clear Hin.
  all: match goal with
       | Hs : ToString ?v = Normal ?s, Hp : startsWith "file://" ?s = true,
         Hb : bgVideo_path ?v = Normal ?p |- _ =>
           pose proof (bgVideo_prefix v s p Hs Hp Hb) as Hv
       end.
  all: do 7 eexists; repeat split; try eassumption; try reflexivity.
  all: let err := fresh "err" in
       let Herr := fresh "Herr" in
       intros err Herr;
       match goal with
       | E : await_run _ _ _ (ffmpeg _) = _ |- _ =>
           pose proof (eq_trans (eq_sym E) Herr) as X;
           try discriminate X; injection X as <-
       end; reflexivity.
Qed.

(** C6.  Whenever the video handler starts a process, it is [ffmpeg]
    with exactly this argument vector (and the 180000 ms bound), where
    [W], [H] are the string forms of the requested width and height, [F]
    and [D] those of the normalized fps and duration, and the background
    path is the locator without its [file://] prefix. *)
Theorem ffmpeg_invocation_arguments
    (st : state) (tmpDir cmd : string) (args : list string) (t : number) :
  mkdtempSync w tmp_prefix = Normal tmpDir ->
  In (ERun cmd args t) (log (snd (post_render_video w req_body st))) ->
  ~ In (ERun cmd args t) (log st) ->
  exists bgPath W H F D fps dur,
    bgVideo = Str ("file://" ++ bgPath) /\
    ToString width_ = Normal W /\
    ToString height_ = Normal H /\
    normalizeInt (get options_ "fps") (Num (of_Z 30)) = Normal fps /\
    ToString fps = Normal F /\
    normalizeFloat (get options_ "durationSec") (Num (of_Z 6)) = Normal dur /\
    ToString dur = Normal D /\
    cmd = "ffmpeg" /\
    t = of_Z 180000 /\
    args =
      ([ "-y";
         "-stream_loop"; "-1";
         "-i"; bgPath;
         "-i"; path_join w tmpDir ("overlay-" ++ randomHex w ++ ".png")%string;
         "-t"; D;
         "-r"; F;
         "-filter_complex";
         ("[0:v]scale=" ++ W ++ ":" ++ H ++
            ":force_original_aspect_ratio=increase,crop=" ++ W ++ ":" ++ H ++
            ",setsar=1[bg];[bg][1:v]overlay=0:0:format=auto[v]")%string;
         "-map"; "[v]" ] ++
       (if is_true (get options_ "includeAudio")
        then ["-map"; "0:a?"] else ["-an"]) ++
       [ "-c:v"; "libx264";
         "-pix_fmt"; "yuv420p";
         "-movflags"; "+faststart";
         path_join w tmpDir ("out-" ++ randomHex w ++ ".mp4")%string ])%list.
Proof.
  intros Hmk Hin Hnot.
  destruct (video_run_event st tmpDir cmd args t Hmk Hnot Hin)
    as (bgPath & W & H & F & D & fps & dur &
        H1 & H2 & H3 & H4 & H5 & H6 & H7 & H8 & H9 & H10 & _).
  exists bgPath, W, H, F, D, fps, dur.
  repeat (split; [assumption|]). exact H10.
Qed.
End VideoRequest.


(** A video response is only ever sent after ffmpeg ran to a zero exit
    under the composition bound. *)
Lemma video_success_ran_ffmpeg
    (w : world) (req_body : value) (st : state) (tmpDir : string) :
  mkdtempSync w (path_join w (tmpdir w) "render-") = Normal tmpDir ->
  content_type (res st) <> Some "video/mp4" ->
  ensures (post_render_video w req_body st) (fun _ st' =>
    content_type (res st') = Some "video/mp4" ->
    exists args out,
      In (ERun "ffmpeg" args composition_timeoutMs) (log st') /\
      await_run "ffmpeg" args (Some composition_timeoutMs) (ffmpeg w) = Normal out).
Proof.
  intros Hmk Hct.
  unfold post_render_video, video_try, renderPngBuffer.
  run_all; intros Hsent; try discriminate Hsent; try contradiction.
  all: do 2 eexists; split; [|eassumption].
  all: apply in_or_app; left; apply in_or_app; left; apply in_or_app; right;
    left; reflexivity.
Qed.


Lemma video_bad_background_is_400_witness :
  ensures (post_render_video calm video_request_remote_bg initial) (fun r st' =>
    r = Normal tt /\
    status (res st') = 400 /\
    log st' = [EMkdtemp "/tmp/render-"; ERm "/tmp/render-Xy12Zw" true true] /\
    browserPromise st' = None).
Proof.
  apply (video_bad_background_is_400 calm video_request_remote_bg initial
           "/tmp/render-Xy12Zw").
  - reflexivity.
  - right. exists "https://cdn.example/bg.mp4". split; reflexivity.
Defined.

(** C2, as stated, fails: a request without [assets.backgroundVideo] gets
    its 400, and a temporary directory was created for it. *)
Lemma video_without_background_makes_tmpdir :
  ensures (post_render_video calm video_request_no_bg initial) (fun r st' =>
    truthy (get (or_default (get video_request_no_bg "assets") (Obj []))
                "backgroundVideo") = false /\
    status (res st') = 400 /\
    existsb makes_tmpdir (log st') = true).
Proof. repeat split; reflexivity. Qed.

Lemma video_template_not_found_is_500_witness :
  ensures (post_render_video no_template video_request initial) (fun r st' =>
    r = Normal tt /\
    status (res st') = 500 /\
    error_code_of (res st') = Some (Str "RENDER_VIDEO_FAILED")) /\
  ensures (post_render_png no_template video_request initial) (fun r st' =>
    r = Normal tt /\ status (res st') = 404).
Proof.
  apply (video_template_not_found_is_500 no_template video_request initial
           "/tmp/render-Xy12Zw" "card" "file:///bg.mp4"); reflexivity.
Defined.

Lemma ffmpeg_invocation_arguments_witness :
  exists bgPath W H F D fps dur,
    get (or_default (get video_request "assets") (Obj [])) "backgroundVideo"
      = Str ("file://" ++ bgPath) /\
    ToString (Num (of_Z 2160)) = Normal W /\
    ToString (Num (of_Z 3840)) = Normal H /\
    normalizeInt (Num (of_Z 24)) (Num (of_Z 30)) = Normal fps /\
    ToString fps = Normal F /\
    normalizeFloat (Num (of_Z 2)) (Num (of_Z 6)) = Normal dur /\
    ToString dur = Normal D /\
    "ffmpeg" = "ffmpeg" /\
    of_Z 180000 = of_Z 180000 /\
    [ "-y"; "-stream_loop"; "-1"; "-i"; "/bg.mp4";
      "-i"; "/tmp/render-Xy12Zw/overlay-0a1b2c3d4e5f.png";
      "-t"; "2"; "-r"; "24";
      "-filter_complex";
      "[0:v]scale=2160:3840:force_original_aspect_ratio=increase,crop=2160:3840,setsar=1[bg];[bg][1:v]overlay=0:0:format=auto[v]";
      "-map"; "[v]"; "-an";
      "-c:v"; "libx264"; "-pix_fmt"; "yuv420p"; "-movflags"; "+faststart";
      "/tmp/render-Xy12Zw/out-0a1b2c3d4e5f.mp4" ] =
    ([ "-y"; "-stream_loop"; "-1"; "-i"; bgPath;
       "-i"; "/tmp/render-Xy12Zw/overlay-0a1b2c3d4e5f.png";
       "-t"; D; "-r"; F;
       "-filter_complex";
       ("[0:v]scale=" ++ W ++ ":" ++ H ++
          ":force_original_aspect_ratio=increase,crop=" ++ W ++ ":" ++ H ++
          ",setsar=1[bg];[bg][1:v]overlay=0:0:format=auto[v]")%string;
       "-map"; "[v]" ] ++
     ["-an"] ++
     [ "-c:v"; "libx264"; "-pix_fmt"; "yuv420p"; "-movflags"; "+faststart";
       "/tmp/render-Xy12Zw/out-0a1b2c3d4e5f.mp4" ])%list.
Proof.
  apply (ffmpeg_invocation_arguments calm video_request initial
           "/tmp/render-Xy12Zw" "ffmpeg" _ (of_Z 180000)).
  - reflexivity.
  - vm_compute. do 13 right. left. reflexivity.
  - simpl. intros [].
Defined.

(** ** renderPngBuffer: the failing run *)

(** C1 at a failing input: the template never raises the ready flag, so
    [page.waitForFunction] rejects after 20 s.  [renderPngBuffer] rejects
    with that error; by then it has opened a context and a page, and it
    closes neither. *)
Theorem renderPngBuffer_leaks_on_readiness_timeout :
  ensures (renderPngBuffer never_ready card_args initial) (fun r st' =>
    r = Throw ready_timeout /\
    existsb opens_context (log st') = true /\
    existsb opens_page (log st') = true /\
    existsb closes_page (log st') = false /\
    existsb closes_context (log st') = false).
Proof. repeat split; reflexivity. Qed.

(** The same template through the PNG handler: 500, page and context left
    open. *)
Lemma png_handler_leaks_on_readiness_timeout :
  ensures (post_render_png never_ready png_request initial) (fun r st' =>
    status (res st') = 500 /\
    existsb opens_page (log st') = true /\
    existsb closes_page (log st') = false /\
    existsb closes_context (log st') = false).
Proof. repeat split; reflexivity. Qed.

(** On the success path both are closed, and a failing close is not
    surfaced. *)
Lemma renderPngBuffer_swallows_close_failures :
  ensures (renderPngBuffer close_fails card_args initial) (fun r st' =>
    r = Normal png_bytes /\
    existsb closes_page (log st') = true /\
    existsb closes_context (log st') = true).
Proof. repeat split; reflexivity. Qed.

(** ** POST /render/png: a missing template *)

Section PngRequest.
Variable w : world.
Variable req_body : value.

Let request := if truthy req_body then req_body else Obj [].

(** C8, as the code has it.  A PNG request that names a template whose
    index.html does not exist gets status 404 and the JSON body
    [{error: "RENDER_FAILED", message: "Template not found at <path>"}];
    nothing was rendered. *)
Theorem png_template_not_found_is_404 (st : state) (name : string) :
  get request "template" = Str name ->
  truthy (Str name) = true ->
  existsSync w (path_join w (path_join w (TEMPLATES_ROOT w) name) "index.html")
    = false ->
  ensures (post_render_png w req_body st) (fun r st' =>
    let htmlPath := path_join w (path_join w (TEMPLATES_ROOT w) name) "index.html" in
    r = Normal tt /\
    res st' = mkResponse 404 (Some "application/json")
                (Some (Json (Obj [("error", Str "RENDER_FAILED");
                                  ("message",
                                   Str ("Template not found at " ++ htmlPath))]))) /\
    log st' = (log st ++ [EConsoleError (template_not_found htmlPath)])%list).
Proof.
  subst request. intros Ht Htt Hex.
  unfold post_render_png, renderPngBuffer, join_value.
  rewrite Ht. run_all. repeat split; reflexivity.
Qed.
End PngRequest.

Lemma png_template_not_found_is_404_witness :
  ensures (post_render_png no_template png_request initial) (fun r st' =>
    r = Normal tt /\
    res st' = mkResponse 404 (Some "application/json")
                (Some (Json (Obj [("error", Str "RENDER_FAILED");
                                  ("message",
                                   Str "Template not found at /data/templates/card/index.html")]))) /\
    log st' = [EConsoleError
                 (template_not_found "/data/templates/card/index.html")]).
Proof.
  apply (png_template_not_found_is_404 no_template png_request initial "card");
    reflexivity.
Defined.

(** C8, as stated, fails: the [error] field of the 404 body is the same
    RENDER_FAILED that a failed navigation gets with its 500, so the code
    in the body does not tell a missing template from any other failure. *)
Lemma png_template_not_found_code_is_generic :
  ensures (post_render_png no_template png_request initial) (fun _ missing =>
    ensures (post_render_png nav_fails png_request initial) (fun _ other =>
      status (res missing) = 404 /\
      status (res other) = 500 /\
      error_code_of (res missing) = Some (Str "RENDER_FAILED") /\
      error_code_of (res other) = error_code_of (res missing))).
Proof. repeat split; reflexivity. Qed.

(** ** The process runner: the claims *)

(** Awaiting a run whose timer fires first throws the timeout error. *)
Lemma await_run_timeout (cmd : string) (args : list string) (ms : number)
    (pre post : list proc_event) :
  forallb output_only pre = true ->
  await_run cmd args (Some ms) (pre ++ TimerFires :: post)
    = Throw (Error (timeout_message cmd ms)).
Proof.
  intros Hpre. unfold await_run. rewrite <- app_assoc. cbn [app].
  destruct (run_timeout cmd args ms pre (post ++ [TimerFires]) Hpre) as (F1 & _).
  now rewrite F1.
Qed.

(** C4.  When the timer fires while the process is still running (only
    output has arrived so far), [run] sends SIGKILL and rejects with
    [<cmd> timed out after <timeoutMs>ms], and nothing that arrives later
    changes that.  The composition step runs ffmpeg under a bound of
    180000 ms: when ffmpeg is started and outlives it, the video handler
    answers 500 with the message [ffmpeg timed out after 180000ms]. *)
Theorem run_timeout_kills_and_rejects
    (cmd : string) (args : list string) (ms : number) (pre post : list proc_event)
    (w : world) (req_body : value) (st : state) (tmpDir : string)
    (c : string) (a : list string) (t : number) :
  forallb output_only pre = true ->
  ffmpeg w = (pre ++ TimerFires :: post)%list ->
  mkdtempSync w (path_join w (tmpdir w) "render-") = Normal tmpDir ->
  In (ERun c a t) (log (snd (post_render_video w req_body st))) ->
  ~ In (ERun c a t) (log st) ->
  let r := run cmd args (Some ms) (pre ++ TimerFires :: post) in
  settled r = Rejected (Error (cmd ++ " timed out after " ++ NumberToString ms ++ "ms")) /\
  signals r = ["SIGKILL"] /\
  t = of_Z 180000 /\
  res (snd (post_render_video w req_body st)) =
    mkResponse 500 (Some "application/json")
      (Some (Json (Obj [("error", Str "RENDER_VIDEO_FAILED");
                        ("message", Str "ffmpeg timed out after 180000ms")]))).
Proof.
  intros Hpre Hff Hmk Hin Hnot. cbv zeta.
  destruct (run_timeout cmd args ms pre post Hpre) as (E1 & E2 & _).
  split; [exact E1 | split; [exact E2 |]].
  destruct (video_run_event w req_body st tmpDir c a t Hmk Hnot Hin)
    as (bgPath & W & H & F & D & fps & dur &
        _ & _ & _ & _ & _ & _ & _ & _ & Ht & _ & Hres).
  split; [exact Ht|].
  apply (Hres (Error (timeout_message "ffmpeg" composition_timeoutMs))).
  rewrite Hff. now apply await_run_timeout.
Qed.

(** ffmpeg prints and then hangs. *)
Lemma run_timeout_kills_and_rejects_witness :
  let w := world_with true (Normal tt) (Normal tt) (Normal tt) (Normal tt)
             ([StderrData "frame=    1"] ++ TimerFires :: [Close None]) in
  let r := run "ffmpeg" ["-y"] (Some (of_Z 180000))
               ([StderrData "frame=    1"] ++ TimerFires :: [Close None]) in
  settled r =
    Rejected (Error ("ffmpeg" ++ " timed out after "
                       ++ NumberToString (of_Z 180000) ++ "ms")) /\
  signals r = ["SIGKILL"] /\
  of_Z 180000 = of_Z 180000 /\
  res (snd (post_render_video w video_request initial)) =
    mkResponse 500 (Some "application/json")
      (Some (Json (Obj [("error", Str "RENDER_VIDEO_FAILED");
                        ("message", Str "ffmpeg timed out after 180000ms")]))).
Proof.
  apply (run_timeout_kills_and_rejects "ffmpeg" ["-y"] (of_Z 180000)
           [StderrData "frame=    1"] [Close None]
           (world_with true (Normal tt) (Normal tt) (Normal tt) (Normal tt)
              ([StderrData "frame=    1"] ++ TimerFires :: [Close None]))
           video_request initial "/tmp/render-Xy12Zw"
           "ffmpeg"
           [ "-y"; "-stream_loop"; "-1"; "-i"; "/bg.mp4";
             "-i"; "/tmp/render-Xy12Zw/overlay-0a1b2c3d4e5f.png";
             "-t"; "2"; "-r"; "24";
             "-filter_complex";
             "[0:v]scale=2160:3840:force_original_aspect_ratio=increase,crop=2160:3840,setsar=1[bg];[bg][1:v]overlay=0:0:format=auto[v]";
             "-map"; "[v]"; "-an";
             "-c:v"; "libx264"; "-pix_fmt"; "yuv420p"; "-movflags"; "+faststart";
             "/tmp/render-Xy12Zw/out-0a1b2c3d4e5f.mp4" ]
           (of_Z 180000)).
  - reflexivity.
  - reflexivity.
  - reflexivity.
  - vm_compute. do 13 right. left. reflexivity.
  - simpl. intros [].
Defined.




(* ===================================================================== *)
(** * Facts about the normalizers *)
(* ===================================================================== *)

(** The two guards in the source say the same thing: [!isFinite(n) || n <= 0]
    in [normalizeDpr] is the negation of [isFinite(n) && n > 0] in the other
    two. *)
Lemma guard_agrees (n : number) :
  negb (isFinite n) || num_le n (of_Z 0) = negb (usable n).
Proof. destruct n as [[|]|[|]| |[|] m e]; reflexivity. Qed.

Lemma normalizeDpr_eq (v : value) (fb : number) :
  normalizeDpr v (Num fb) =
  cbind (ToNumber v) (fun n => Normal (Num (if usable n then n else fb))).
Proof.
  unfold normalizeDpr. cbn [or_default].
  destruct (ToNumber v) as [n|e]; cbn [cbind]; [|reflexivity].
  rewrite guard_agrees. now destruct (usable n).
Qed.

(** An omitted fallback of [normalizeDpr] is 1. *)
Lemma normalizeDpr_default (v : value) :
  normalizeDpr v Undefined = normalizeDpr v (Num (of_Z 1)).
Proof. reflexivity. Qed.

(** Primitives always convert. *)
Lemma primitive_convertible (v : value) :
  match v with Arr _ | Obj _ => True | _ => convertible v = true end.
Proof. destruct v as [ | |[|]| | | | ]; try exact I; reflexivity. Qed.

(** [Number(v)] throws exactly when [String(v)] does. *)
Lemma ToNumber_convertible (v : value) :
  convertible v = true -> exists n, ToNumber v = Normal n.
Proof.
  unfold convertible. destruct v as [ | |[|]|n|s|l|l]; intros H;
    try (eexists; reflexivity);
    unfold ToNumber; destruct (ToString _); try discriminate;
    eexists; reflexivity.
Qed.

Lemma parseInt_convertible (v : value) :
  convertible v = true -> exists n, parseInt v = Normal n.
Proof.
  unfold convertible, parseInt. destruct (ToString v); intros H;
    [eexists; reflexivity | discriminate].
Qed.

Lemma not_convertible_throws (v : value) (fb : value) :
  convertible v = false ->
  exists e, ToString v = Throw e /\
            normalizeDpr v fb = Throw e /\
            normalizeInt v fb = Throw e /\
            normalizeFloat v fb = Throw e.
Proof.
  unfold convertible. intros H. destruct (ToString v) as [s|e] eqn:Es; [discriminate|].
  exists e. unfold normalizeDpr, normalizeInt, normalizeFloat, parseInt, ToNumber.
  rewrite Es. destruct v as [ | |[|]|n|s|l|l]; try discriminate; repeat split; reflexivity.
Qed.

(** C3, as the code has it.  For an input whose conversion to a primitive
    does not throw, and a finite positive fallback, each normalizer
    returns the parse of the input ([Number(v)] for [normalizeDpr] and
    [normalizeFloat], [parseInt(v, 10)] for [normalizeInt]) when that is
    finite and greater than 0, and the fallback otherwise; the result is
    always finite and positive. *)
Theorem normalizers_return_parse_or_fallback (v : value) (fb : number) :
  convertible v = true ->
  usable fb = true ->
  exists nF nI,
    ToNumber v = Normal nF /\
    parseInt v = Normal nI /\
    normalizeDpr v (Num fb) = Normal (Num (if usable nF then nF else fb)) /\
    normalizeFloat v (Num fb) = Normal (Num (if usable nF then nF else fb)) /\
    normalizeInt v (Num fb) = Normal (Num (if usable nI then nI else fb)) /\
    usable (if usable nF then nF else fb) = true /\
    usable (if usable nI then nI else fb) = true.
Proof.
  intros Hv Hfb.
  destruct (ToNumber_convertible v Hv) as [nF HF].
  destruct (parseInt_convertible v Hv) as [nI HI].
  exists nF, nI. split; [exact HF | split; [exact HI |]].
  rewrite normalizeDpr_eq. unfold normalizeFloat, normalizeInt.
  rewrite HF, HI. cbn [cbind]. fold (usable nF). fold (usable nI).
  repeat split.
  - now destruct (usable nF).
  - now destruct (usable nI).
  - now destruct (usable nF) eqn:E.
  - now destruct (usable nI) eqn:E.
Qed.

Lemma normalizers_return_parse_or_fallback_witness :
  exists nF nI,
    ToNumber (Str "2.7") = Normal nF /\
    parseInt (Str "2.7") = Normal nI /\
    normalizeDpr (Str "2.7") (Num (of_Z 6)) = Normal (Num (if usable nF then nF else of_Z 6)) /\
    normalizeFloat (Str "2.7") (Num (of_Z 6)) = Normal (Num (if usable nF then nF else of_Z 6)) /\
    normalizeInt (Str "2.7") (Num (of_Z 6)) = Normal (Num (if usable nI then nI else of_Z 6)) /\
    usable (if usable nF then nF else of_Z 6) = true /\
    usable (if usable nI then nI else of_Z 6) = true.
Proof.
  apply (normalizers_return_parse_or_fallback (Str "2.7") (of_Z 6)); reflexivity.
Defined.

(** C3, as stated, fails twice over.  [JSON.parse] can hand the
    normalizers an object with an own, non-callable [toString]; [Number]
    and [parseInt] throw a TypeError on it, and no normalizer catches
    that.  And a fallback can be positive without being finite: Infinity
    comes back as it went in. *)
Lemma normalizers_throw_on_unconvertible_input :
  let e := TypeError "Cannot convert object to primitive value" in
  let infinity := S754_infinity false in
  usable (of_Z 1) = true /\
  normalizeDpr hostile (Num (of_Z 1)) = Throw e /\
  normalizeInt hostile (Num (of_Z 1)) = Throw e /\
  normalizeFloat hostile (Num (of_Z 1)) = Throw e /\
  num_lt (of_Z 0) infinity = true /\
  isFinite infinity = false /\
  normalizeFloat (Str "fast") (Num infinity) = Normal (Num infinity).
Proof. repeat split; reflexivity. Qed.

(** A few inputs, as the server would see them. *)
Example normalize_samples :
  normalizeInt (Num (of_Z 24)) (Num (of_Z 30)) = Normal (Num (of_Z 24)) /\
  normalizeInt (Str "24fps") (Num (of_Z 30)) = Normal (Num (of_Z 24)) /\
  normalizeInt (Str "fast") (Num (of_Z 30)) = Normal (Num (of_Z 30)) /\
  normalizeInt Undefined (Num (of_Z 30)) = Normal (Num (of_Z 30)) /\
  normalizeFloat (Str "2.7") (Num (of_Z 6)) = Normal (Num two_point_seven) /\
  normalizeFloat (Num (of_Z (-2))) (Num (of_Z 6)) = Normal (Num (of_Z 6)) /\
  normalizeFloat (Str "1e999") (Num (of_Z 6)) = Normal (Num (of_Z 6)) /\
  normalizeFloat Null (Num (of_Z 6)) = Normal (Num (of_Z 6)) /\
  normalizeDpr (Arr [Str "2"]) Undefined = Normal (Num (of_Z 2)) /\
  normalizeDpr (Num S754_nan) Undefined = Normal (Num (of_Z 1)).
Proof. repeat split; vm_compute; reflexivity. Qed.


(* ===================================================================== *)
(** * Facts about decimal numerals and Number::toString *)
(* ===================================================================== *)

(** ** Counting digits *)

Lemma ndigits_fuel_spec (fuel : nat) :
  forall z, 0 <= z < 2 ^ (Z.of_nat fuel + 1) ->
    z < 10 ^ Z.of_nat (ndigits_fuel fuel z) /\
    (1 <= z -> 10 ^ (Z.of_nat (ndigits_fuel fuel z) - 1) <= z).
Proof.
  induction fuel as [|f IH]; intros z Hz.
  - simpl in *. change (2 ^ 1) with 2 in Hz. split; [lia|].
    intros. simpl. lia.
  - cbn [ndigits_fuel]. destruct (z <? 10) eqn:E.
    + apply Z.ltb_lt in E. split; [simpl; lia | intros; simpl; lia].
    + apply Z.ltb_ge in E.
      assert (Hq : 0 <= z / 10 < 2 ^ (Z.of_nat f + 1)).
      { split; [apply Z.div_pos; lia|].
        apply Z.div_lt_upper_bound; [lia|].
        replace (Z.of_nat (S f) + 1) with (Z.succ (Z.of_nat f + 1)) in Hz by lia.
        rewrite Z.pow_succ_r in Hz by lia. lia. }
      destruct (IH _ Hq) as [Hlt Hge].
      assert (1 <= z / 10) by (apply Z.div_le_lower_bound; lia).
      specialize (Hge H).
      rewrite Nat2Z.inj_succ.
      replace (Z.succ (Z.of_nat (ndigits_fuel f (z / 10))) - 1)
        with (Z.succ (Z.of_nat (ndigits_fuel f (z / 10)) - 1)) by lia.
      assert (1 <= Z.of_nat (ndigits_fuel f (z / 10))).
      { destruct f; simpl; [lia|]. destruct (z / 10 <? 10); lia. }
      rewrite !Z.pow_succ_r by lia.
      pose proof (Z.div_mod z 10 ltac:(lia)) as Hdm.
      pose proof (Z.mod_pos_bound z 10 ltac:(lia)).
      split; [|intros _]; lia.
Qed.

Lemma ndigits_spec (z : Z) :
  0 <= z ->
  z < 10 ^ Z.of_nat (ndigits z) /\
  (1 <= z -> 10 ^ (Z.of_nat (ndigits z) - 1) <= z).
Proof.
  intros Hz. unfold ndigits. apply ndigits_fuel_spec.
  split; [exact Hz|].
  destruct (Z.eq_dec z 0) as [->|Hnz]; [reflexivity|].
  rewrite Z2Nat.id by apply Z.log2_nonneg.
  replace (Z.log2 z + 1) with (Z.succ (Z.log2 z)) by lia.
  apply Z.log2_spec. lia.
Qed.

Lemma ndigits_pos (z : Z) : (1 <= ndigits z)%nat.
Proof.
  unfold ndigits. destruct (Z.to_nat (Z.log2 z)); simpl; [lia|].
  destruct (z <? 10); lia.
Qed.

(** ** Reading back what [dec] wrote *)

Lemma digit_value_digit_char (d : Z) :
  0 <= d < 10 -> digit_value 10 (digit_char d) = Some d.
Proof.
  intros H.
  assert (C : d = 0 \/ d = 1 \/ d = 2 \/ d = 3 \/ d = 4 \/
              d = 5 \/ d = 6 \/ d = 7 \/ d = 8 \/ d = 9) by lia.
  repeat (destruct C as [-> | C]; [reflexivity|]). subst. reflexivity.
Qed.

Lemma read_digits_dec_fixed (w : nat) :
  forall z acc cnt rest, 0 <= z ->
    read_digits 10 acc cnt (dec_fixed w z ++ rest) =
    read_digits 10 (acc * 10 ^ Z.of_nat w + z mod 10 ^ Z.of_nat w) (cnt + w) rest.
Proof.
  induction w as [|w IH]; intros z acc cnt rest Hz.
  - simpl. rewrite Z.mod_1_r, Nat.add_0_r. f_equal. lia.
  - cbn [dec_fixed]. rewrite append_assoc. cbn [append].
    rewrite IH by (apply Z.div_pos; lia).
    cbn [read_digits].
    rewrite digit_value_digit_char by (apply Z.mod_pos_bound; lia).
    rewrite Nat2Z.inj_succ, Z.pow_succ_r by lia.
    replace (cnt + S w)%nat with (S (cnt + w)) by lia.
    pose proof (Z.pow_pos_nonneg 10 (Z.of_nat w) ltac:(lia) ltac:(lia)) as Hp.
    rewrite (Z.rem_mul_r z 10 (10 ^ Z.of_nat w)) by lia.
    f_equal. ring.
Qed.

Lemma dec_fixed_head (w : nat) :
  forall z, 0 <= z ->
    exists d r, 0 <= d < 10 /\ dec_fixed (S w) z = String (digit_char d) r.
Proof.
  induction w as [|w IH]; intros z Hz.
  - exists (z mod 10), EmptyString. split; [apply Z.mod_pos_bound; lia | reflexivity].
  - destruct (IH (z / 10)) as (d & r & Hd & E); [apply Z.div_pos; lia|].
    exists d, (r ++ String (digit_char (z mod 10)) EmptyString)%string.
    split; [exact Hd|].
    change (dec_fixed (S (S w)) z)
      with (dec_fixed (S w) (z / 10) ++ String (digit_char (z mod 10)) EmptyString)%string.
    now rewrite E.
Qed.

(** A string that starts with a digit has no white space or sign for
    [parseInt] to drop. *)
Lemma parseInt_string_digit_first (d : Z) (r : string) :
  0 <= d < 10 ->
  parseInt_string (String (digit_char d) r) =
  let '(z, cnt, _) := read_digits 10 0 0 (String (digit_char d) r) in
  match cnt with O => NaN | _ => of_Z_signed z false end.
Proof.
  intros H.
  assert (C : d = 0 \/ d = 1 \/ d = 2 \/ d = 3 \/ d = 4 \/
              d = 5 \/ d = 6 \/ d = 7 \/ d = 8 \/ d = 9) by lia.
  repeat (destruct C as [-> | C]; [reflexivity|]). subst. reflexivity.
Qed.

(** [parseInt] of a decimal numeral followed by something that is not a
    digit is the number the numeral denotes. *)
Lemma parseInt_string_dec (i : Z) (c : ascii) (rest : string) :
  0 <= i ->
  digit_value 10 c = None ->
  parseInt_string (dec i ++ String c rest) = of_Z i.
Proof.
  intros Hi Hc. unfold dec.
  pose proof (ndigits_pos i) as Hk.
  destruct (ndigits_spec i Hi) as [Hlt _].
  destruct (ndigits i) as [|w] eqn:Ek; [lia|].
  destruct (dec_fixed_head w i Hi) as (d & r & Hd & E).
  assert (E' : (dec_fixed (S w) i ++ String c rest)%string
               = String (digit_char d) (r ++ String c rest)).
  { now rewrite E. }
  rewrite E', parseInt_string_digit_first, <- E' by exact Hd.
  rewrite read_digits_dec_fixed by exact Hi.
  cbn [read_digits]. rewrite Hc.
  rewrite Z.mod_small by lia. reflexivity.
Qed.


(** ** Small integers are Numbers *)

Lemma digits2_pos_bounds (p : positive) :
  2 ^ (Zpos (digits2_pos p) - 1) <= Zpos p < 2 ^ Zpos (digits2_pos p).
Proof.
  induction p as [p IH|p IH|]; cbn [digits2_pos].
  - rewrite Pos2Z.inj_succ.
    replace (Z.succ (Zpos (digits2_pos p)) - 1) with (Z.succ (Zpos (digits2_pos p) - 1)) by lia.
    rewrite !Z.pow_succ_r by lia. lia.
  - rewrite Pos2Z.inj_succ.
    replace (Z.succ (Zpos (digits2_pos p)) - 1) with (Z.succ (Zpos (digits2_pos p) - 1)) by lia.
    rewrite !Z.pow_succ_r by lia. lia.
  - simpl. lia.
Qed.

Lemma digits2_pos_iter_xO (d p : positive) :
  digits2_pos (Pos.iter xO p d) = (digits2_pos p + d)%positive.
Proof.
  induction d as [|d IH] using Pos.peano_ind.
  - simpl. lia.
  - rewrite Pos.iter_succ. cbn [digits2_pos]. rewrite IH. lia.
Qed.

Lemma fexp_eq (z : Z) : fexp prec emax z = Z.max (z - 53) (-1074).
Proof. reflexivity. Qed.

(** A mantissa that already sits at its canonical exponent is not
    rounded. *)
Lemma binary_round_aux_exact (sg : bool) (mz : positive) (ez : Z) :
  fexp prec emax (Zpos (digits2_pos mz) + ez) = ez ->
  ez <= 971 ->
  binary_round_aux prec emax sg (Zpos mz) ez loc_Exact = S754_finite sg mz ez.
Proof.
  intros Hf He. unfold binary_round_aux, shr_fexp.
  cbn [Zdigits2 shr_record_of_loc]. rewrite Hf, Z.sub_diag.
  cbn [shr shr_m loc_of_shr_record round_nearest_even Zdigits2 shr_record_of_loc].
  rewrite Hf, Z.sub_diag. cbn [shr shr_m].
  change (emax - prec) with 971.
  destruct (Z.leb_spec ez 971); [reflexivity | lia].
Qed.

Lemma of_Z_small (i : Z) :
  1 <= i < 2 ^ 53 -> exists m e, of_Z i = S754_finite false m e.
Proof.
  intros Hi. destruct i as [|p|p]; try lia.
  unfold of_Z, of_Z_signed, binary_normalize, binary_round.
  pose proof (digits2_pos_bounds p) as Hb.
  assert (Hd : Zpos (digits2_pos p) <= 53).
  { destruct (Z_le_gt_dec (Zpos (digits2_pos p)) 53) as [|Hgt]; [assumption|].
    assert (2 ^ 53 <= 2 ^ (Zpos (digits2_pos p) - 1)) by (apply Z.pow_le_mono_r; lia).
    lia. }
  rewrite fexp_eq, Z.add_0_r.
  rewrite Z.max_l by lia.
  unfold shl_align. rewrite Z.sub_0_r.
  destruct (Zpos (digits2_pos p) - 53) as [|k|k] eqn:Ek; try lia.
  - do 2 eexists. apply binary_round_aux_exact; [rewrite fexp_eq|]; lia.
  - do 2 eexists. apply binary_round_aux_exact; [|lia].
    rewrite digits2_pos_iter_xO, fexp_eq, Pos2Z.inj_add. lia.
Qed.

Lemma of_Z_small_usable (i : Z) : 1 <= i < 2 ^ 53 -> usable (of_Z i) = true.
Proof.
  intros Hi. destruct (of_Z_small i Hi) as (m & e & ->). reflexivity.
Qed.


(** ** The digits Number::toString picks round back to the Number *)

Lemma scaleA_pos (e p : Z) : 0 < scaleA e p.
Proof. unfold scaleA. apply Z.mul_pos_pos; apply Z.pow_pos_nonneg; lia. Qed.

Lemma scaleB_pos (e p : Z) : 0 < scaleB e p.
Proof. unfold scaleB. apply Z.mul_pos_pos; apply Z.pow_pos_nonneg; lia. Qed.

Lemma lowM_bounds (m : positive) (e : Z) :
  4 * Zpos m - 2 <= lowM m e < 4 * Zpos m.
Proof. unfold lowM. destruct (_ && _); lia. Qed.

(** What [rounds_to] gives, whichever way the midpoints go. *)
Lemma rounds_to_bounds (m : positive) (e s p : Z) :
  rounds_to m e s p = true ->
  1 <= s /\
  (4 * Zpos m - 2) * scaleA e p <= s * scaleB e p <= (4 * Zpos m + 2) * scaleA e p.
Proof.
  unfold rounds_to, highM. intros H.
  apply andb_true_iff in H as [Hs H]. apply Z.leb_le in Hs.
  pose proof (scaleA_pos e p) as HA. pose proof (lowM_bounds m e) as HL.
  destruct (Z.even (Zpos m)); apply andb_true_iff in H as [H1 H2];
    [apply Z.leb_le in H1, H2 | apply Z.ltb_lt in H1, H2]; nia.
Qed.

Lemma candidate_rounds (m : positive) (e p s : Z) :
  candidate m e p = Some s -> rounds_to m e s p = true.
Proof.
  unfold candidate.
  destruct (rounds_to m e (4 * Zpos m * scaleA e p / scaleB e p) p) eqn:Ef;
  destruct (rounds_to m e (4 * Zpos m * scaleA e p / scaleB e p + 1) p) eqn:Eg;
  cbn [andb]; intros H;
  repeat match type of H with
         | (if ?b then _ else _) = _ => destruct b
         end;
  inversion H; subst; assumption.
Qed.

Lemma pow_2_5 (n : Z) : 0 <= n -> 10 ^ n = 2 ^ n * 5 ^ n.
Proof. intros. now rewrite <- Z.pow_mul_l. Qed.

Lemma exact_decimal_rounds (m : positive) (e : Z) :
  rounds_to m e (fst (exact_decimal m e)) (snd (exact_decimal m e)) = true.
Proof.
  assert (Hx : forall s p, 1 <= s -> s * scaleB e p = 4 * Zpos m * scaleA e p ->
                           rounds_to m e s p = true).
  { intros s p Hs Heq. unfold rounds_to, highM.
    pose proof (scaleA_pos e p) as HA. pose proof (lowM_bounds m e) as HL.
    apply andb_true_iff. split; [now apply Z.leb_le|].
    destruct (Z.even (Zpos m)); apply andb_true_iff; split;
      try apply Z.leb_le; try apply Z.ltb_lt; nia. }
  unfold exact_decimal. destruct (Z.leb_spec 0 e) as [He|He]; cbn [fst snd].
  - apply Hx.
    + pose proof (Z.pow_pos_nonneg 2 e ltac:(lia) He). nia.
    + unfold scaleA, scaleB. cbn [Z.opp Z.max Z.compare]. rewrite !Z.pow_0_r.
      destruct (Z_le_gt_dec 2 e).
      * rewrite (Z.max_l (e - 2)), (Z.max_r (2 - e)) by lia.
        replace e with (2 + (e - 2)) at 1 by lia.
        rewrite Z.pow_add_r by lia. rewrite Z.pow_0_r. lia.
      * rewrite (Z.max_r (e - 2)), (Z.max_l (2 - e)) by lia.
        rewrite <- Z.mul_assoc, (Z.mul_1_l (2 ^ (2 - e))), <- Z.pow_add_r by lia.
        replace (e + (2 - e)) with 2 by lia. rewrite Z.pow_0_r. lia.
  - apply Hx.
    + pose proof (Z.pow_pos_nonneg 5 (- e) ltac:(lia) ltac:(lia)). nia.
    + unfold scaleA, scaleB.
      rewrite (Z.max_r (e - 2)), (Z.max_l (- e)), (Z.max_r e), (Z.max_l (2 - e)) by lia.
      rewrite !Z.pow_0_r, (pow_2_5 (- e)) by lia.
      replace (2 - e) with (2 + - e) by lia. rewrite Z.pow_add_r by lia.
      change (2 ^ 2) with 4. ring.
Qed.

Lemma shortest_from_rounds (m : positive) (e : Z) (fuel : nat) :
  forall p, rounds_to m e (fst (shortest_from fuel m e p))
                          (snd (shortest_from fuel m e p)) = true.
Proof.
  induction fuel as [|f IH]; intros p; cbn [shortest_from];
    destruct (candidate m e p) as [s|] eqn:Ec; cbn [fst snd];
    try (now apply candidate_rounds).
  - apply exact_decimal_rounds.
  - apply IH.
Qed.

Lemma shortest_rounds (m : positive) (e : Z) :
  rounds_to m e (fst (shortest m e)) (snd (shortest m e)) = true.
Proof. unfold shortest. apply shortest_from_rounds. Qed.


(** ** Canonical binary64 values and their order *)

Lemma bounded_facts (m : positive) (e : Z) :
  bounded prec emax m e = true ->
  Zpos m < 2 ^ 53 /\ -1074 <= e <= 971 /\ (-1074 < e -> 2 ^ 52 <= Zpos m).
Proof.
  unfold bounded, canonical_mantissa. intros H.
  apply andb_true_iff in H as [Hc He].
  apply Z.eqb_eq in Hc. apply Z.leb_le in He.
  rewrite fexp_eq in Hc. change (emax - prec) with 971 in He.
  pose proof (digits2_pos_bounds m) as Hb.
  assert (Hd : Zpos (digits2_pos m) <= 53) by lia.
  assert (Hm : Zpos m < 2 ^ 53).
  { apply Z.lt_le_trans with (2 ^ Zpos (digits2_pos m)); [lia|].
    apply Z.pow_le_mono_r; lia. }
  repeat split; try lia.
  intros Hn. assert (Zpos (digits2_pos m) = 53) as Hd53 by lia.
  rewrite Hd53 in Hb. change (2 ^ (53 - 1)) with (2 ^ 52) in Hb. lia.
Qed.

(** [t <= x] for canonical positive [t = mt * 2^et] and [x = m * 2^e]. *)
Lemma num_le_finite (mt m : positive) (et e : Z) :
  num_le (S754_finite false mt et) (S754_finite false m e) = true <->
  et < e \/ (et = e /\ Zpos mt <= Zpos m).
Proof.
  unfold num_le, SFleb, SFcompare.
  destruct (Z.compare_spec et e) as [->|Hlt|Hgt].
  - rewrite Pos.compare_cont_spec. cbn [Pos.switch_Eq].
    destruct (Pos.compare_spec mt m) as [Hc|Hc|Hc]; split; intros H;
      try discriminate; try reflexivity.
    + right. split; [reflexivity | subst; apply Z.le_refl].
    + right. split; [reflexivity | now apply Z.lt_le_incl, Pos2Z.pos_lt_pos].
    + destruct H as [H|[_ H]]; [now apply Z.lt_irrefl in H|].
      apply Pos2Z.pos_lt_pos in Hc. now apply Z.le_ngt in H.
  - split; auto.
  - split; [discriminate|].
    intros [H|[H _]]; [now apply Z.lt_asymm in H | subst; now apply Z.lt_irrefl in Hgt].
Qed.

Lemma num_lt_finite (mt m : positive) (et e : Z) :
  num_lt (S754_finite false m e) (S754_finite false mt et) = true <->
  e < et \/ (e = et /\ Zpos m < Zpos mt).
Proof.
  unfold num_lt, SFltb, SFcompare.
  destruct (Z.compare_spec e et) as [->|Hlt|Hgt].
  - rewrite Pos.compare_cont_spec. cbn [Pos.switch_Eq].
    destruct (Pos.compare_spec m mt) as [Hc|Hc|Hc]; split; intros H;
      try discriminate; try reflexivity.
    + destruct H as [H|[_ H]]; [now apply Z.lt_irrefl in H|].
      subst. now apply Z.lt_irrefl in H.
    + right. split; [reflexivity | now apply Pos2Z.pos_lt_pos].
    + destruct H as [H|[_ H]]; [now apply Z.lt_irrefl in H|].
      apply Pos2Z.pos_lt_pos in Hc. now apply Z.lt_asymm in H.
  - split; auto.
  - split; [discriminate|].
    intros [H|[H _]]; [now apply Z.lt_asymm in H | subst; now apply Z.lt_irrefl in Hgt].
Qed.

Lemma num_le_false_lt (mt m : positive) (et e : Z) :
  num_le (S754_finite false mt et) (S754_finite false m e) = false ->
  num_lt (S754_finite false m e) (S754_finite false mt et) = true.
Proof.
  intros H. apply num_lt_finite.
  destruct (Z.lt_trichotomy e et) as [Hlt|[->|Hgt]]; [now left | |].
  - destruct (Z_lt_le_dec (Zpos m) (Zpos mt)) as [Hm|Hm]; [now right|].
    assert (num_le (S754_finite false mt et) (S754_finite false m et) = true)
      by (apply num_le_finite; right; split; [reflexivity | exact Hm]).
    congruence.
  - assert (num_le (S754_finite false mt et) (S754_finite false m e) = true)
      by (apply num_le_finite; now left).
    congruence.
Qed.


(** ** Where the decimal point falls *)

Lemma scale_small (e p : Z) :
  e < 0 ->
  scaleA e p = 10 ^ Z.max (- p) 0 /\
  scaleB e p = 10 ^ Z.max p 0 * (4 * 2 ^ (- e)).
Proof.
  intros He. unfold scaleA, scaleB.
  rewrite (Z.max_r (e - 2)), (Z.max_l (2 - e)) by lia.
  rewrite Z.pow_0_r. replace (2 - e) with (2 + - e) by lia.
  rewrite Z.pow_add_r by lia. change (2 ^ 2) with 4. split; lia.
Qed.

Lemma pow10_lt_mono (a b : Z) : 0 <= a -> 0 <= b -> 10 ^ a < 10 ^ b -> a < b.
Proof. intros Ha Hb H. apply (Z.pow_lt_mono_r_iff 10); lia. Qed.

(** A Number with a fractional part: no integer rounds to it, so the
    digits carry at least one decimal place and their integer part is the
    integer part of the Number. *)
Lemma digits_of_fraction (m : positive) (e s p i r : Z) :
  e < 0 ->
  Zpos m = i * 2 ^ (- e) + r ->
  0 < r < 2 ^ (- e) ->
  rounds_to m e s p = true ->
  p < 0 /\ i * 10 ^ (- p) < s < (i + 1) * 10 ^ (- p).
Proof.
  intros He Hm Hr Hrt.
  destruct (rounds_to_bounds _ _ _ _ Hrt) as (Hs & Hlo & Hhi).
  destruct (scale_small e p He) as [EA EB]. rewrite EA, EB in *.
  set (q := 2 ^ (- e)) in *.
  destruct (Z_lt_le_dec p 0) as [Hp|Hp].
  - split; [exact Hp|].
    rewrite (Z.max_l (- p)), (Z.max_r p), Z.pow_0_r in * by lia.
    pose proof (Z.pow_pos_nonneg 10 (- p) ltac:(lia) ltac:(lia)) as HT.
    set (T := 10 ^ (- p)) in *. nia.
  - exfalso.
    rewrite (Z.max_r (- p)), (Z.max_l p), Z.pow_0_r in * by lia.
    pose proof (Z.pow_pos_nonneg 10 p ltac:(lia) Hp) as HT.
    set (T := 10 ^ p) in *.
    assert (i < s * T < i + 1) by nia. lia.
Qed.

(** Below 1: the digits start after the decimal point. *)
Lemma digits_below_one (m : positive) (e s p : Z) :
  e < 0 ->
  4 * Zpos m + 2 < 4 * 2 ^ (- e) ->
  rounds_to m e s p = true ->
  p < 0 /\ Z.of_nat (ndigits s) + p <= 0.
Proof.
  intros He Hone Hrt.
  destruct (rounds_to_bounds _ _ _ _ Hrt) as (Hs & Hlo & Hhi).
  destruct (scale_small e p He) as [EA EB]. rewrite EA, EB in *.
  pose proof (Z.pow_pos_nonneg 2 (- e) ltac:(lia) ltac:(lia)) as Hq.
  set (q := 2 ^ (- e)) in *.
  destruct (Z_lt_le_dec p 0) as [Hp|Hp].
  - split; [exact Hp|].
    destruct (ndigits_spec s ltac:(lia)) as [_ Hk]. specialize (Hk Hs).
    pose proof (ndigits_pos s) as Hk1.
    rewrite (Z.max_l (- p)), (Z.max_r p), Z.pow_0_r in * by lia.
    pose proof (Z.pow_pos_nonneg 10 (- p) ltac:(lia) ltac:(lia)) as HT.
    assert (Hlt : 10 ^ (Z.of_nat (ndigits s) - 1) < 10 ^ (- p)).
    { set (T := 10 ^ (- p)) in *.
      set (K := 10 ^ (Z.of_nat (ndigits s) - 1)) in *. nia. }
    apply pow10_lt_mono in Hlt; lia.
  - exfalso.
    rewrite (Z.max_r (- p)), (Z.max_l p), Z.pow_0_r in * by lia.
    pose proof (Z.pow_pos_nonneg 10 p ltac:(lia) Hp) as HT.
    set (T := 10 ^ p) in *.
    assert (1 <= s * T) by nia. nia.
Qed.

(** At or above one millionth: at most five zeros follow the point. *)
Lemma digits_above_millionth (m : positive) (e s p : Z) :
  e < 0 -> p < 0 ->
  4 * 2 ^ (- e) <= (4 * Zpos m - 2) * 10 ^ 6 ->
  rounds_to m e s p = true ->
  -6 < Z.of_nat (ndigits s) + p.
Proof.
  intros He Hp Hmil Hrt.
  destruct (rounds_to_bounds _ _ _ _ Hrt) as (Hs & Hlo & Hhi).
  destruct (scale_small e p He) as [EA EB]. rewrite EA, EB in *.
  rewrite (Z.max_l (- p)), (Z.max_r p), Z.pow_0_r in * by lia.
  pose proof (Z.pow_pos_nonneg 2 (- e) ltac:(lia) ltac:(lia)) as Hq.
  pose proof (Z.pow_pos_nonneg 10 (- p) ltac:(lia) ltac:(lia)) as HT.
  destruct (ndigits_spec s ltac:(lia)) as [Hk _].
  assert (Hlt : 10 ^ (- p) < 10 ^ (Z.of_nat (ndigits s) + 6)).
  { rewrite Z.pow_add_r by lia.
    set (q := 2 ^ (- e)) in *. set (T := 10 ^ (- p)) in *.
    set (K := 10 ^ Z.of_nat (ndigits s)) in *. nia. }
  apply pow10_lt_mono in Hlt; lia.
Qed.

(** Below one millionth: six zeros or more would follow the point. *)
Lemma digits_below_millionth (m : positive) (e s p : Z) :
  e < 0 ->
  (4 * Zpos m + 2) * 10 ^ 6 < 4 * 2 ^ (- e) ->
  rounds_to m e s p = true ->
  Z.of_nat (ndigits s) + p <= -6.
Proof.
  intros He Hmil Hrt.
  assert (Hone : 4 * Zpos m + 2 < 4 * 2 ^ (- e)) by lia.
  destruct (digits_below_one _ _ _ _ He Hone Hrt) as [Hp _].
  destruct (rounds_to_bounds _ _ _ _ Hrt) as (Hs & Hlo & Hhi).
  destruct (scale_small e p He) as [EA EB]. rewrite EA, EB in *.
  rewrite (Z.max_l (- p)), (Z.max_r p), Z.pow_0_r in * by lia.
  pose proof (Z.pow_pos_nonneg 2 (- e) ltac:(lia) ltac:(lia)) as Hq.
  pose proof (Z.pow_pos_nonneg 10 (- p) ltac:(lia) ltac:(lia)) as HT.
  destruct (ndigits_spec s ltac:(lia)) as [_ Hk]. specialize (Hk Hs).
  pose proof (ndigits_pos s) as Hk1.
  assert (Hlt : 10 ^ (Z.of_nat (ndigits s) - 1 + 6) < 10 ^ (- p)).
  { rewrite Z.pow_add_r by lia.
    set (q := 2 ^ (- e)) in *. set (T := 10 ^ (- p)) in *.
    set (K := 10 ^ (Z.of_nat (ndigits s) - 1)) in *. nia. }
  apply pow10_lt_mono in Hlt; lia.
Qed.


(** ** The three layouts *)

Lemma leb_true (a b : Z) : a <= b -> (a <=? b) = true.
Proof. intros. now apply Z.leb_le. Qed.

Lemma leb_false (a b : Z) : b < a -> (a <=? b) = false.
Proof. intros. now apply Z.leb_gt. Qed.

Lemma ltb_true (a b : Z) : a < b -> (a <? b) = true.
Proof. intros. now apply Z.ltb_lt. Qed.

Lemma ltb_false (a b : Z) : b <= a -> (a <? b) = false.
Proof. intros. now apply Z.ltb_ge. Qed.

(** Digits with an integer part [i] and a fractional part: [i], a point,
    the rest. *)
Lemma format_fraction (s p i : Z) :
  p < 0 -> 1 <= i < 10 ^ 16 ->
  i * 10 ^ (- p) < s < (i + 1) * 10 ^ (- p) ->
  exists rest, format_decimal s p = (dec i ++ String "." rest)%string.
Proof.
  intros Hp Hi Hs.
  pose proof (Z.pow_pos_nonneg 10 (- p) ltac:(lia) ltac:(lia)) as HT.
  assert (Hs1 : 1 <= s) by nia.
  destruct (ndigits_spec s ltac:(lia)) as [Hk Hk']. specialize (Hk' Hs1).
  pose proof (ndigits_pos s) as Hk1.
  assert (Hn1 : 0 < Z.of_nat (ndigits s) + p).
  { assert (Hlt : 10 ^ (- p) < 10 ^ Z.of_nat (ndigits s)) by nia.
    apply pow10_lt_mono in Hlt; lia. }
  assert (Hn2 : Z.of_nat (ndigits s) + p <= 21).
  { assert (Hlt : 10 ^ (Z.of_nat (ndigits s) - 1) < 10 ^ (16 + - p)).
    { rewrite (Z.pow_add_r 10 16 (- p)) by lia. nia. }
    apply pow10_lt_mono in Hlt; lia. }
  unfold format_decimal. cbv zeta.
  rewrite (leb_false (Z.of_nat (ndigits s)) (Z.of_nat (ndigits s) + p)) by lia.
  cbn [andb].
  rewrite (ltb_true 0 (Z.of_nat (ndigits s) + p)) by lia.
  rewrite (leb_true (Z.of_nat (ndigits s) + p) 21) by lia.
  cbn [andb].
  replace (Z.of_nat (ndigits s) - (Z.of_nat (ndigits s) + p)) with (- p) by lia.
  replace (s / 10 ^ (- p)) with i.
  - eexists. reflexivity.
  - apply Z.div_unique_pos with (r := s - i * 10 ^ (- p)); nia.
Qed.

(** Digits that start up to six places after the point: a zero, a point,
    zeros, the digits. *)
Lemma format_small (s p : Z) :
  -6 < Z.of_nat (ndigits s) + p <= 0 ->
  exists rest, format_decimal s p = String "0" (String "." rest).
Proof.
  intros Hn. pose proof (ndigits_pos s) as Hk1.
  unfold format_decimal. cbv zeta.
  rewrite (leb_false (Z.of_nat (ndigits s)) (Z.of_nat (ndigits s) + p)) by lia.
  cbn [andb].
  rewrite (ltb_false 0 (Z.of_nat (ndigits s) + p)) by lia.
  cbn [andb].
  rewrite (ltb_true (-6) (Z.of_nat (ndigits s) + p)) by lia.
  rewrite (leb_true (Z.of_nat (ndigits s) + p) 0) by lia.
  cbn [andb]. eexists. reflexivity.
Qed.

(** Digits that start further out: exponent notation, which begins with
    the first digit, then a point or the letter e. *)
Lemma format_tiny (s p : Z) :
  1 <= s ->
  Z.of_nat (ndigits s) + p <= -6 ->
  exists d c rest,
    1 <= d <= 9 /\ digit_value 10 c = None /\
    format_decimal s p = (dec d ++ String c rest)%string.
Proof.
  intros Hs Hn. pose proof (ndigits_pos s) as Hk1.
  destruct (ndigits_spec s ltac:(lia)) as [Hk Hk']. specialize (Hk' Hs).
  unfold format_decimal. cbv zeta.
  rewrite (leb_false (Z.of_nat (ndigits s)) (Z.of_nat (ndigits s) + p)) by lia.
  cbn [andb].
  rewrite (ltb_false 0 (Z.of_nat (ndigits s) + p)) by lia.
  cbn [andb].
  rewrite (ltb_false (-6) (Z.of_nat (ndigits s) + p)) by lia.
  cbn [andb].
  destruct (Z.eqb_spec (Z.of_nat (ndigits s)) 1) as [E1|E1].
  - exists s, "e"%char. eexists. rewrite E1 in *.
    change (10 ^ 1) with 10 in Hk.
    split; [lia | split; reflexivity].
  - exists (s / 10 ^ (Z.of_nat (ndigits s) - 1)), "."%char. eexists.
    pose proof (Z.pow_pos_nonneg 10 (Z.of_nat (ndigits s) - 1) ltac:(lia) ltac:(lia)) as HK.
    split; [|split; reflexivity].
    replace (Z.of_nat (ndigits s)) with (Z.succ (Z.of_nat (ndigits s) - 1)) in Hk by lia.
    rewrite Z.pow_succ_r in Hk by lia.
    split.
    + apply Z.div_le_lower_bound; lia.
    + assert (s / 10 ^ (Z.of_nat (ndigits s) - 1) < 10); [|lia].
      apply Z.div_lt_upper_bound; lia.
Qed.


(** ** normalizeInt on a Number with a fractional part *)

Lemma NumberToString_positive (m : positive) (e : Z) :
  NumberToString (S754_finite false m e) =
  format_decimal (fst (shortest m e)) (snd (shortest m e)).
Proof. unfold NumberToString. now destruct (shortest m e). Qed.

Lemma normalizeInt_parse (x : number) (fb : value) (n : number) :
  parseInt_string (NumberToString x) = n ->
  normalizeInt (Num x) fb = Normal (if usable n then Num n else fb).
Proof. intros <-. reflexivity. Qed.

Lemma of_Z_1 : of_Z 1 = S754_finite false 4503599627370496 (-52).
Proof. reflexivity. Qed.

Lemma parseInt_one_millionth :
  parseInt_string (NumberToString one_millionth) = S754_zero false.
Proof. vm_compute. reflexivity. Qed.

(** C10, as the code has it.  [normalizeInt] on a positive Number [x] that
    is not an integer:
    - [x >= 1]: the result is the integer part of [x];
    - [1e-6 <= x < 1]: the string form starts with [0.], [parseInt] reads
      0, and the fallback is returned;
    - [x < 1e-6]: the string form is in exponent notation, [parseInt]
      reads its leading digit, and that digit (1 to 9) is returned. *)
Theorem normalizeInt_of_fraction (x : number) (fb : value) :
  wf_number x = true ->
  isFinite x = true ->
  num_lt (of_Z 0) x = true ->
  isInteger x = false ->
  if num_le (of_Z 1) x then
    normalizeInt (Num x) fb = Normal (Num (of_Z (truncZ x)))
  else if num_le one_millionth x then
    normalizeInt (Num x) fb = Normal fb
  else
    exists d, 1 <= d <= 9 /\ normalizeInt (Num x) fb = Normal (Num (of_Z d)).
Proof.
  intros Hwf Hfin Hpos Hint.
  destruct x as [sg|sg| |sg m e]; try discriminate.
  destruct sg; [discriminate|]. clear Hfin Hpos.
  cbn [wf_number valid_binary] in Hwf. unfold wf_number in Hwf. cbn in Hwf.
  destruct (bounded_facts m e Hwf) as (Hm & He & Hnorm).
  cbn [isInteger] in Hint. apply orb_false_iff in Hint as [He0 Hfrac].
  apply Z.leb_gt in He0. apply Z.eqb_neq in Hfrac.
  pose proof (shortest_rounds m e) as Hrt.
  pose proof (Z.pow_pos_nonneg 2 (- e) ltac:(lia) ltac:(lia)) as Hq.
  rewrite of_Z_1.
  destruct (num_le (S754_finite false 4503599627370496 (-52)) (S754_finite false m e))
    eqn:Hone.
  - (* x >= 1 *)
    apply num_le_finite in Hone.
    assert (He52 : -52 <= e) by lia.
    assert (Hq52 : 2 ^ (- e) <= 2 ^ 52) by (apply Z.pow_le_mono_r; lia).
    assert (Hm52 : 2 ^ 52 <= Zpos m) by (destruct Hone as [?|[_ ?]]; [apply Hnorm|]; lia).
    pose proof (Z.div_mod (Zpos m) (2 ^ (- e)) ltac:(lia)) as Hdm.
    pose proof (Z.mod_pos_bound (Zpos m) (2 ^ (- e)) Hq) as Hr.
    set (i := Zpos m / 2 ^ (- e)) in *. set (r := Zpos m mod 2 ^ (- e)) in *.
    assert (Hi1 : 1 <= i) by (apply Z.div_le_lower_bound; lia).
    assert (Hi2 : i < 2 ^ 53) by nia.
    destruct (digits_of_fraction m e _ _ i r He0 ltac:(lia) ltac:(lia) Hrt) as [Hp Hs].
    destruct (format_fraction _ _ i Hp ltac:(lia) Hs) as [rest Hfmt].
    rewrite (normalizeInt_parse _ _ (of_Z i)).
    + rewrite of_Z_small_usable by lia.
      cbn [truncZ]. rewrite (leb_false 0 e) by lia. reflexivity.
    + rewrite NumberToString_positive, Hfmt.
      apply parseInt_string_dec; [lia | reflexivity].
  - apply num_le_false_lt, num_lt_finite in Hone.
    assert (He53 : e <= -53).
    { destruct Hone as [?|[Ee Hlt]]; [lia|].
      clear Hfrac Hrt Hq. specialize (Hnorm ltac:(lia)). lia. }
    assert (Hq53 : 2 ^ 53 <= 2 ^ (- e)) by (apply Z.pow_le_mono_r; lia).
    unfold one_millionth.
    destruct (num_le (S754_finite false 4722366482869645 (-72)) (S754_finite false m e))
      eqn:Hmil.
    + (* 1e-6 <= x < 1 *)
      apply num_le_finite in Hmil.
      destruct (Pos.eq_dec m 4722366482869645%positive) as [Em|Em];
        [destruct (Z.eq_dec e (-72)) as [Ee|Ee] | ].
      * subst m e. rewrite (normalizeInt_parse _ _ _ parseInt_one_millionth).
        reflexivity.
      * assert (He72 : -72 < e) by lia.
        assert (Hq71 : 2 ^ (- e) <= 2 ^ 71) by (apply Z.pow_le_mono_r; lia).
        specialize (Hnorm ltac:(lia)).
        destruct (digits_below_one m e _ _ He0 ltac:(lia) Hrt) as [Hp Hn0].
        pose proof (digits_above_millionth m e _ _ He0 Hp ltac:(lia) Hrt) as Hn6.
        destruct (format_small _ _ (conj Hn6 Hn0)) as [rest Hfmt].
        rewrite (normalizeInt_parse _ _ (S754_zero false)); [reflexivity|].
        rewrite NumberToString_positive, Hfmt. reflexivity.
      * assert (Hmil' : 4 * 2 ^ (- e) <= (4 * Zpos m - 2) * 10 ^ 6).
        { destruct Hmil as [He72|[Ee Hm0]].
          - assert (Hq71 : 2 ^ (- e) <= 2 ^ 71) by (apply Z.pow_le_mono_r; lia).
            specialize (Hnorm ltac:(lia)). clear Hfrac Hrt. lia.
          - assert (4722366482869645 < Zpos m).
            { destruct (Z.eq_dec (Zpos m) 4722366482869645) as [E|E]; [|lia].
              injection E as E. contradiction. }
            clear Hfrac Hrt Hq Hq53. subst e. change (- -72) with 72. lia. }
        destruct (digits_below_one m e _ _ He0 ltac:(lia) Hrt) as [Hp Hn0].
        pose proof (digits_above_millionth m e _ _ He0 Hp Hmil' Hrt) as Hn6.
        destruct (format_small _ _ (conj Hn6 Hn0)) as [rest Hfmt].
        rewrite (normalizeInt_parse _ _ (S754_zero false)); [reflexivity|].
        rewrite NumberToString_positive, Hfmt. reflexivity.
    + (* x < 1e-6 *)
      apply num_le_false_lt, num_lt_finite in Hmil.
      assert (Hmil' : (4 * Zpos m + 2) * 10 ^ 6 < 4 * 2 ^ (- e)).
      { destruct Hmil as [He72|[Ee Hm0]].
        - assert (Hq73 : 2 ^ 73 <= 2 ^ (- e)) by (apply Z.pow_le_mono_r; lia).
          clear Hfrac Hrt. lia.
        - clear Hfrac Hrt Hq Hq53. subst e. change (- -72) with 72. lia. }
      pose proof (digits_below_millionth m e _ _ He0 Hmil' Hrt) as Hn.
      destruct (rounds_to_bounds _ _ _ _ Hrt) as (Hs1 & _).
      destruct (format_tiny _ _ Hs1 Hn) as (d & c & rest & Hd & Hc & Hfmt).
      exists d. split; [exact Hd|].
      rewrite (normalizeInt_parse _ _ (of_Z d)).
      * rewrite of_Z_small_usable by lia. reflexivity.
      * rewrite NumberToString_positive, Hfmt.
        apply parseInt_string_dec; [lia | exact Hc].
Qed.

Lemma normalizeInt_of_fraction_witness :
  if num_le (of_Z 1) two_point_seven then
    normalizeInt (Num two_point_seven) (Num (of_Z 30))
      = Normal (Num (of_Z (truncZ two_point_seven)))
  else if num_le one_millionth two_point_seven then
    normalizeInt (Num two_point_seven) (Num (of_Z 30)) = Normal (Num (of_Z 30))
  else
    exists d, 1 <= d <= 9 /\
      normalizeInt (Num two_point_seven) (Num (of_Z 30)) = Normal (Num (of_Z d)).
Proof.
  apply (normalizeInt_of_fraction two_point_seven (Num (of_Z 30))); reflexivity.
Defined.

(** C10, as stated, fails below one millionth: [5e-7] lies strictly
    between 0 and 1 and has a fractional part, yet [normalizeInt] returns
    5 for it, not the fallback: its string form is [5e-7] and [parseInt]
    stops at the letter. *)
Lemma normalizeInt_tiny_fraction_is_not_fallback :
  StringToNumber "5e-7" = five_e_minus_7 /\
  num_lt (of_Z 0) five_e_minus_7 = true /\
  num_lt five_e_minus_7 (of_Z 1) = true /\
  isInteger five_e_minus_7 = false /\
  truncZ five_e_minus_7 = 0 /\
  NumberToString five_e_minus_7 = "5e-7" /\
  normalizeInt (Num five_e_minus_7) (Num (of_Z 30)) = Normal (Num (of_Z 5)) /\
  Num (of_Z 5) <> Num (of_Z 30).
Proof. repeat split; try (vm_compute; reflexivity). discriminate. Qed.

(** The three regimes, on the Numbers written 2.7, 0.5 and 5e-7. *)
Example normalizeInt_samples :
  StringToNumber "2.7" = two_point_seven /\
  StringToNumber "0.5" = one_half /\
  StringToNumber "1e-6" = one_millionth /\
  normalizeInt (Num two_point_seven) (Num (of_Z 30)) = Normal (Num (of_Z 2)) /\
  normalizeInt (Num one_half) (Num (of_Z 30)) = Normal (Num (of_Z 30)) /\
  normalizeInt (Num one_millionth) (Num (of_Z 30)) = Normal (Num (of_Z 30)) /\
  normalizeInt (Num five_e_minus_7) (Num (of_Z 30)) = Normal (Num (of_Z 5)).
Proof. repeat split; vm_compute; reflexivity. Qed.


(* ===================================================================== *)
(** * Further facts: the process runner *)
(* ===================================================================== *)

(** What one callback preserves: the promise is pending exactly while the
    timer is armed; a fired timer means the timeout rejection and a single
    SIGKILL; a timer that has not fired means no signal. *)
Lemma step_keeps_invariant (cmd : string) (ms : number) (st : run_state)
    (ev : proc_event) :
  (settled st = Pending <-> timer st = Armed) /\
  (timer st = Fired ->
     settled st = Rejected (Error (timeout_message cmd ms)) /\
     signals st = ["SIGKILL"]) /\
  (timer st <> Fired -> signals st = []) ->
  let st' := step cmd ms st ev in
  (settled st' = Pending <-> timer st' = Armed) /\
  (timer st' = Fired ->
     settled st' = Rejected (Error (timeout_message cmd ms)) /\
     signals st' = ["SIGKILL"]) /\
  (timer st' <> Fired -> signals st' = []).
Proof.
  intros (Hp & Hf & Hn). cbv zeta.
  destruct ev as [d|d|err|code|]; cbn [step];
    destruct (timer st) eqn:Et; destruct (settled st) eqn:Es;
    cbn [settled timer signals settle clearTimeout];
    try (destruct Hp as [Hp1 Hp2];
         try (specialize (Hp1 eq_refl); discriminate Hp1);
         try (specialize (Hp2 eq_refl); discriminate Hp2));
    try (destruct (Hf eq_refl) as [Hf1 Hf2]; try discriminate Hf1);
    try rewrite (Hn ltac:(discriminate));
    repeat split; intros; try discriminate; try congruence; auto;
    try (destruct code as [[| |]|]; discriminate).
Qed.

Lemma fold_keeps_invariant (cmd : string) (ms : number) (events : list proc_event) :
  forall st,
  (settled st = Pending <-> timer st = Armed) /\
  (timer st = Fired ->
     settled st = Rejected (Error (timeout_message cmd ms)) /\
     signals st = ["SIGKILL"]) /\
  (timer st <> Fired -> signals st = []) ->
  let st' := fold_left (step cmd ms) events st in
  (settled st' = Pending <-> timer st' = Armed) /\
  (timer st' = Fired ->
     settled st' = Rejected (Error (timeout_message cmd ms)) /\
     signals st' = ["SIGKILL"]) /\
  (timer st' <> Fired -> signals st' = []).
Proof.
  induction events as [|ev events IH]; intros st H; [exact H|].
  cbn [fold_left]. apply IH. now apply step_keeps_invariant.
Qed.

(** The invariant holds of every state [run] can reach. *)
Lemma run_invariant (cmd : string) (args : list string) (t : option number)
    (events : list proc_event) :
  let ms := match t with Some x => x | None => default_timeoutMs end in
  let st := run cmd args t events in
  (settled st = Pending <-> timer st = Armed) /\
  (timer st = Fired ->
     settled st = Rejected (Error (timeout_message cmd ms)) /\
     signals st = ["SIGKILL"]) /\
  (timer st <> Fired -> signals st = []).
Proof.
  cbv zeta. unfold run.
  apply (fold_keeps_invariant cmd _ events (start cmd args)).
  cbn. repeat split; intros; try discriminate; reflexivity.
Qed.

(** X1.  Whatever the child process and the event loop deliver, and in
    whatever order: the promise of [run] is pending exactly while its
    timer is armed; [kill] is called at most once, with SIGKILL, and only
    by the timer; and when the timer has fired the promise is rejected
    with the timeout error. *)
Theorem run_kills_only_on_timeout
    (cmd : string) (args : list string) (t : option number)
    (events : list proc_event) :
  let ms := match t with Some x => x | None => default_timeoutMs end in
  let st := run cmd args t events in
  (settled st = Pending <-> timer st = Armed) /\
  (signals st = [] \/ signals st = ["SIGKILL"]) /\
  (signals st = ["SIGKILL"] <-> timer st = Fired) /\
  (timer st = Fired -> settled st = Rejected (Error (timeout_message cmd ms))).
Proof.
  cbv zeta.
  destruct (run_invariant cmd args t events) as (Hp & Hf & Hn).
  set (st := run cmd args t events) in *.
  split; [exact Hp|].
  destruct (timer st) eqn:Et.
  - rewrite (Hn ltac:(discriminate)). repeat split; intros; try discriminate; auto.
  - rewrite (Hn ltac:(discriminate)). repeat split; intros; try discriminate; auto.
  - destruct (Hf eq_refl) as [Hs Hk]. rewrite Hk.
    repeat split; intros; auto.
Qed.

(** X2.  A promise settles once.  After the events [a] have settled it,
    no further events [b] change the outcome, the timer or the signals
    sent: a late close after a timeout, a late timer after a close, an
    error after either, all go unnoticed. *)
Theorem run_settles_once
    (cmd : string) (args : list string) (t : option number)
    (a b : list proc_event) :
  settled (run cmd args t a) <> Pending ->
  settled (run cmd args t (a ++ b)) = settled (run cmd args t a) /\
  signals (run cmd args t (a ++ b)) = signals (run cmd args t a) /\
  timer (run cmd args t (a ++ b)) = timer (run cmd args t a).
Proof.
  intros Hs. rewrite run_app.
  destruct (run_invariant cmd args t a) as [Hp _].
  assert (Ht : timer (run cmd args t a) <> Armed).
  { intros E. apply Hs. now apply Hp. }
  destruct (step_after_settled
              cmd (match t with Some x => x | None => default_timeoutMs end)
              b _ Hs Ht) as (E1 & E2 & E3).
  auto.
Qed.

(** The process exits with status 0; the timer callback and a second
    close with another status arrive afterwards. *)
Lemma run_settles_once_witness :
  settled (run "ffmpeg" ["-y"] None [StdoutData "ok"; Close (Some 0)]) <> Pending /\
  settled (run "ffmpeg" ["-y"] None
             ([StdoutData "ok"; Close (Some 0)] ++ [TimerFires; Close (Some 1)]))
    = Resolved "ok" EmptyString /\
  signals (run "ffmpeg" ["-y"] None
             ([StdoutData "ok"; Close (Some 0)] ++ [TimerFires; Close (Some 1)]))
    = [].
Proof.
  assert (Hs : settled (run "ffmpeg" ["-y"] None [StdoutData "ok"; Close (Some 0)])
               <> Pending) by (vm_compute; discriminate).
  destruct (run_settles_once "ffmpeg" ["-y"] None
              [StdoutData "ok"; Close (Some 0)] [TimerFires; Close (Some 1)] Hs)
    as (E1 & E2 & _).
  split; [exact Hs|]. split; [rewrite E1 | rewrite E2]; reflexivity.
Defined.

(** An error event while the promise is pending. *)
Lemma run_error (cmd : string) (args : list string) (t : option number)
    (pre post : list proc_event) (err : error) :
  forallb output_only pre = true ->
  let st := run cmd args t (pre ++ ProcError err :: post) in
  settled st = Rejected err /\ timer st = Cleared /\ signals st = [].
Proof.
  intros Hpre. cbv zeta. rewrite run_app, (run_output_only _ _ _ _ Hpre).
  simpl.
  match goal with |- context [fold_left _ post ?s] => set (s1 := s) end.
  assert (Hs : settled s1 <> Pending) by (subst s1; simpl; congruence).
  assert (Ht : timer s1 <> Armed) by (subst s1; simpl; congruence).
  destruct (step_after_settled
              cmd (match t with Some x => x | None => default_timeoutMs end)
              post s1 Hs Ht) as (E1 & E2 & E3).
  rewrite E1, E2, E3. subst s1. simpl. auto.
Qed.

Lemma await_run_error (cmd : string) (args : list string) (t : option number)
    (pre post : list proc_event) (err : error) :
  forallb output_only pre = true ->
  await_run cmd args t (pre ++ ProcError err :: post) = Throw err.
Proof.
  intros Hpre. unfold await_run. rewrite <- app_assoc. cbn [app].
  destruct (run_error cmd args t pre (post ++ [TimerFires]) err Hpre) as (F1 & _).
  now rewrite F1.
Qed.

Lemma await_run_close (cmd : string) (args : list string) (t : option number)
    (pre post : list proc_event) (code : option Z) :
  forallb output_only pre = true ->
  await_run cmd args t (pre ++ Close code :: post) =
  match code with
  | Some 0 => Normal (collect_stdout pre, collect_stderr pre)
  | _ => Throw (Error (failure_message cmd code (collect_stderr pre)
                                       (collect_stdout pre)))
  end.
Proof.
  intros Hpre. unfold await_run. rewrite <- app_assoc. cbn [app].
  destruct (run_close cmd args t pre (post ++ [TimerFires]) code Hpre) as (F1 & _).
  rewrite F1. destruct code as [[| |]|]; reflexivity.
Qed.

(** X3.  When spawning fails, or the child reports an error, before
    anything else has settled the promise: the timer is cleared, the
    promise rejects with that very error, no signal is sent, and nothing
    that arrives later changes this.  Awaiting the run throws the error. *)
Theorem run_error_rejects_with_it
    (cmd : string) (args : list string) (t : option number)
    (pre post : list proc_event) (err : error) :
  forallb output_only pre = true ->
  let st := run cmd args t (pre ++ ProcError err :: post) in
  settled st = Rejected err /\
  timer st = Cleared /\
  signals st = [] /\
  await_run cmd args t (pre ++ ProcError err :: post) = Throw err.
Proof.
  intros Hpre. cbv zeta.
  destruct (run_error cmd args t pre post err Hpre) as (A1 & A2 & A3).
  repeat split; try assumption. now apply await_run_error.
Qed.

(** The binary is missing: [spawn] reports ENOENT. *)
Lemma run_error_rejects_with_it_witness :
  let enoent := mkError "Error" "spawn ffmpeg ENOENT" (Some "ENOENT") in
  let st := run "ffmpeg" ["-y"] None ([] ++ ProcError enoent :: [Close (Some (-2))]) in
  settled st = Rejected enoent /\
  timer st = Cleared /\
  signals st = [] /\
  await_run "ffmpeg" ["-y"] None ([] ++ ProcError enoent :: [Close (Some (-2))])
    = Throw enoent.
Proof.
  apply (run_error_rejects_with_it "ffmpeg" ["-y"] None [] [Close (Some (-2))]
           (mkError "Error" "spawn ffmpeg ENOENT" (Some "ENOENT"))).
  reflexivity.
Defined.


(* ===================================================================== *)
(** * Further facts: integers through Number::toString and parseInt *)
(* ===================================================================== *)

Lemma iter_xO_value (k p : positive) :
  Zpos (Pos.iter xO p k) = Zpos p * 2 ^ Zpos k.
Proof.
  induction k as [|k IH] using Pos.peano_ind.
  - simpl. lia.
  - rewrite Pos.iter_succ, Pos2Z.inj_xO, IH, Pos2Z.inj_succ, Z.pow_succ_r by lia.
    ring.
Qed.

(** A positive integer below [2^53] is a Number with a non-positive
    exponent and nothing rounded away. *)
Lemma of_Z_small_exact (i : Z) :
  1 <= i < 2 ^ 53 ->
  exists m e, of_Z i = S754_finite false m e /\ e <= 0 /\ Zpos m = i * 2 ^ (- e).
Proof.
  intros Hi. destruct i as [|p|p]; try lia.
  unfold of_Z, of_Z_signed, binary_normalize, binary_round.
  pose proof (digits2_pos_bounds p) as Hb.
  assert (Hd : Zpos (digits2_pos p) <= 53).
  { destruct (Z_le_gt_dec (Zpos (digits2_pos p)) 53) as [|Hgt]; [assumption|].
    assert (2 ^ 53 <= 2 ^ (Zpos (digits2_pos p) - 1)) by (apply Z.pow_le_mono_r; lia).
    lia. }
  rewrite fexp_eq, Z.add_0_r.
  rewrite Z.max_l by lia.
  unfold shl_align. rewrite Z.sub_0_r.
  destruct (Zpos (digits2_pos p) - 53) as [|k|k] eqn:Ek; try lia.
  - exists p, 0. split; [|split; [lia | simpl; lia]].
    apply binary_round_aux_exact; [rewrite fexp_eq|]; lia.
  - exists (shift_pos k p), (Zneg k). split; [|split; [lia|]].
    + apply binary_round_aux_exact; [|lia].
      unfold shift_pos. rewrite digits2_pos_iter_xO, fexp_eq, Pos2Z.inj_add. lia.
    + unfold shift_pos. rewrite iter_xO_value. reflexivity.
Qed.

(** The grid of whole numbers holds a point that rounds to an integer
    Number: the integer itself. *)
Lemma candidate_of_integer (m : positive) (e i : Z) :
  e <= 0 -> 1 <= i -> Zpos m = i * 2 ^ (- e) ->
  candidate m e 0 <> None.
Proof.
  intros He Hi Hm.
  pose proof (Z.pow_pos_nonneg 2 (- e) ltac:(lia) ltac:(lia)) as Hq.
  assert (EA : scaleA e 0 = 1).
  { unfold scaleA. rewrite (Z.max_r (e - 2)) by lia. reflexivity. }
  assert (EB : scaleB e 0 = 4 * 2 ^ (- e)).
  { unfold scaleB. rewrite (Z.max_l (2 - e)) by lia.
    replace (2 - e) with (2 + - e) by lia. rewrite Z.pow_add_r by lia.
    change (2 ^ 2) with 4. change (Z.max 0 0) with 0. rewrite Z.pow_0_r. lia. }
  assert (Ef : 4 * Zpos m * scaleA e 0 / scaleB e 0 = i).
  { rewrite EA, EB, Hm. symmetry.
    apply Z.div_unique_exact; [lia | ring]. }
  assert (Hok : rounds_to m e i 0 = true).
  { unfold rounds_to, highM. rewrite EA, EB.
    pose proof (lowM_bounds m e) as HL.
    apply andb_true_iff. split; [now apply Z.leb_le|].
    destruct (Z.even (Zpos m)); apply andb_true_iff; split;
      try apply Z.leb_le; try apply Z.ltb_lt; nia. }
  unfold candidate. cbv zeta. rewrite Ef, Hok. cbn [andb].
  destruct (rounds_to m e (i + 1) 0);
    repeat match goal with |- context [if ?b then _ else _] => destruct b end;
    discriminate.
Qed.

(** The walk over the grids does not go below the grid of whole numbers
    when that grid holds a point. *)
Lemma shortest_from_nonneg (m : positive) (e : Z) (fuel : nat) :
  forall p, 0 <= p <= Z.of_nat fuel -> candidate m e 0 <> None ->
            0 <= snd (shortest_from fuel m e p).
Proof.
  induction fuel as [|f IH]; intros p Hp H0; cbn [shortest_from];
    destruct (candidate m e p) as [s|] eqn:Ec; cbn [snd]; try lia.
  - exfalso. apply H0. replace 0 with p by lia. exact Ec.
  - destruct (Z.eq_dec p 0) as [->|Hne]; [contradiction|].
    apply IH; [lia | exact H0].
Qed.

Lemma shortest_of_integer (m : positive) (e i : Z) :
  e <= 0 -> 1 <= i -> Zpos m = i * 2 ^ (- e) ->
  0 <= snd (shortest m e) /\
  fst (shortest m e) * 10 ^ snd (shortest m e) = i /\
  1 <= fst (shortest m e).
Proof.
  intros He Hi Hm.
  pose proof (Z.pow_pos_nonneg 2 (- e) ltac:(lia) ltac:(lia)) as Hq.
  assert (Hp : 0 <= snd (shortest m e)).
  { unfold shortest. apply shortest_from_nonneg;
      [|now apply (candidate_of_integer m e i)].
    assert (HL : 1 <= Zpos (digits2_pos m) + e).
    { pose proof (digits2_pos_bounds m) as Hb.
      assert (2 ^ (- e) < 2 ^ Zpos (digits2_pos m)) by nia.
      apply Z.pow_lt_mono_r_iff in H; lia. }
    assert (H1 : 1 <= start_exponent m e).
    { unfold start_exponent. cbv zeta.
      rewrite (leb_true 0 (Zpos (digits2_pos m) + e)) by lia.
      assert (0 <= (Zpos (digits2_pos m) + e) * 30103 / 100000)
        by (apply Z.div_pos; lia).
      lia. }
    rewrite Z2Nat.id; lia. }
  pose proof (shortest_rounds m e) as Hrt.
  destruct (rounds_to_bounds _ _ _ _ Hrt) as (Hs & Hlo & Hhi).
  split; [exact Hp | split; [|exact Hs]].
  set (s := fst (shortest m e)) in *. set (p := snd (shortest m e)) in *.
  assert (EA : scaleA e p = 1).
  { unfold scaleA. rewrite (Z.max_r (e - 2)), (Z.max_r (- p)) by lia. reflexivity. }
  assert (EB : scaleB e p = 10 ^ p * (4 * 2 ^ (- e))).
  { unfold scaleB. rewrite (Z.max_l p), (Z.max_l (2 - e)) by lia.
    replace (2 - e) with (2 + - e) by lia. rewrite Z.pow_add_r by lia.
    reflexivity. }
  rewrite EA, EB in *.
  pose proof (Z.pow_pos_nonneg 10 p ltac:(lia) Hp) as HT.
  set (T := 10 ^ p) in *. set (q := 2 ^ (- e)) in *.
  nia.
Qed.

(** ** Decimal numerals with trailing zeros *)

Lemma ndigits_unique (z : Z) (k : nat) :
  1 <= z -> (1 <= k)%nat ->
  10 ^ (Z.of_nat k - 1) <= z < 10 ^ Z.of_nat k ->
  ndigits z = k.
Proof.
  intros Hz Hk [Hlo Hhi].
  destruct (ndigits_spec z ltac:(lia)) as [Hlt Hge]. specialize (Hge Hz).
  pose proof (ndigits_pos z) as Hn.
  assert (A : Z.of_nat (ndigits z) - 1 < Z.of_nat k).
  { apply pow10_lt_mono; lia. }
  assert (B : Z.of_nat k - 1 < Z.of_nat (ndigits z)).
  { apply pow10_lt_mono; lia. }
  lia.
Qed.

Lemma zeros_snoc (n : nat) :
  (zeros n ++ "0")%string = zeros (S n).
Proof. induction n as [|n IH]; [reflexivity|]. cbn [zeros append]. now rewrite IH. Qed.

Lemma dec_fixed_shift (n : nat) :
  forall w s, 0 <= s ->
    dec_fixed (w + n) (s * 10 ^ Z.of_nat n) = (dec_fixed w s ++ zeros n)%string.
Proof.
  induction n as [|n IH]; intros w s Hs.
  - rewrite Nat.add_0_r, Z.mul_1_r. simpl. now rewrite append_nil_r.
  - rewrite Nat.add_succ_r. cbn [dec_fixed].
    rewrite Nat2Z.inj_succ, Z.pow_succ_r by lia.
    replace (s * (10 * 10 ^ Z.of_nat n)) with (s * 10 ^ Z.of_nat n * 10) by ring.
    rewrite Z.div_mul, Z.mod_mul by lia.
    rewrite IH by exact Hs. rewrite append_assoc.
    change (String (digit_char 0) EmptyString) with "0"%string.
    now rewrite zeros_snoc.
Qed.

Lemma dec_shift (s : Z) (n : nat) :
  1 <= s -> (dec s ++ zeros n)%string = dec (s * 10 ^ Z.of_nat n).
Proof.
  intros Hs. unfold dec.
  destruct (ndigits_spec s ltac:(lia)) as [Hlt Hge]. specialize (Hge Hs).
  pose proof (ndigits_pos s) as Hk.
  pose proof (Z.pow_pos_nonneg 10 (Z.of_nat n) ltac:(lia) ltac:(lia)) as HT.
  rewrite (ndigits_unique (s * 10 ^ Z.of_nat n) (ndigits s + n)).
  - symmetry. apply dec_fixed_shift. lia.
  - nia.
  - lia.
  - rewrite Nat2Z.inj_add.
    replace (Z.of_nat (ndigits s) + Z.of_nat n - 1)
      with (Z.of_nat (ndigits s) - 1 + Z.of_nat n) by lia.
    rewrite !Z.pow_add_r by lia. nia.
Qed.

(** The string form of a positive integer below [2^53] is its decimal
    numeral. *)
Lemma NumberToString_of_Z (i : Z) :
  1 <= i < 2 ^ 53 -> NumberToString (of_Z i) = dec i.
Proof.
  intros Hi.
  destruct (of_Z_small_exact i Hi) as (m & e & -> & He & Hm).
  rewrite NumberToString_positive.
  destruct (shortest_of_integer m e i He ltac:(lia) Hm) as (Hp & Hv & Hs).
  set (s := fst (shortest m e)) in *. set (p := snd (shortest m e)) in *.
  destruct (ndigits_spec s ltac:(lia)) as [Hlt Hge]. specialize (Hge Hs).
  pose proof (ndigits_pos s) as Hk.
  assert (Hn : Z.of_nat (ndigits s) + p <= 21).
  { assert (H16 : 10 ^ (Z.of_nat (ndigits s) - 1 + p) < 10 ^ 16).
    { rewrite Z.pow_add_r by lia.
      pose proof (Z.pow_pos_nonneg 10 p ltac:(lia) Hp).
      assert (2 ^ 53 < 10 ^ 16) by reflexivity. nia. }
    apply pow10_lt_mono in H16; lia. }
  unfold format_decimal. cbv zeta.
  rewrite (leb_true (Z.of_nat (ndigits s)) (Z.of_nat (ndigits s) + p)) by lia.
  rewrite (leb_true (Z.of_nat (ndigits s) + p) 21) by lia.
  cbn [andb].
  replace (Z.of_nat (ndigits s) + p - Z.of_nat (ndigits s)) with p by lia.
  rewrite dec_shift by exact Hs. rewrite Z2Nat.id by exact Hp.
  now rewrite Hv.
Qed.

(** [parseInt] of a decimal numeral with nothing after it. *)
Lemma parseInt_string_dec_only (i : Z) :
  0 <= i -> parseInt_string (dec i) = of_Z i.
Proof.
  intros Hi. unfold dec.
  pose proof (ndigits_pos i) as Hk.
  destruct (ndigits_spec i Hi) as [Hlt _].
  destruct (ndigits i) as [|w] eqn:Ek; [lia|].
  destruct (dec_fixed_head w i Hi) as (d & r & Hd & E).
  rewrite E, parseInt_string_digit_first, <- E by exact Hd.
  rewrite <- (append_nil_r (dec_fixed (S w) i)).
  rewrite read_digits_dec_fixed by exact Hi.
  cbn [read_digits].
  rewrite Z.mod_small by lia. reflexivity.
Qed.


(* ===================================================================== *)
(** * Further facts: the normalizers *)
(* ===================================================================== *)

Lemma digit_value_nonneg (c : ascii) (d : Z) :
  digit_value 10 c = Some d -> 0 <= d.
Proof.
  unfold digit_value. cbv zeta.
  set (n := Z.of_nat (nat_of_ascii c)).
  destruct ((48 <=? n) && (n <=? 57)) eqn:E1.
  - apply andb_true_iff in E1 as [A _]. apply Z.leb_le in A.
    destruct (n - 48 <? 10); intros H; inversion H; lia.
  - destruct ((97 <=? n) && (n <=? 102)) eqn:E2.
    + apply andb_true_iff in E2 as [A _]. apply Z.leb_le in A.
      destruct (n - 87 <? 10); intros H; inversion H; lia.
    + destruct ((65 <=? n) && (n <=? 70)) eqn:E3.
      * apply andb_true_iff in E3 as [A _]. apply Z.leb_le in A.
        destruct (n - 55 <? 10); intros H; inversion H; lia.
      * cbn. discriminate.
Qed.

Lemma read_digits_nonneg (s : string) :
  forall acc cnt, 0 <= acc -> 0 <= fst (fst (read_digits 10 acc cnt s)).
Proof.
  induction s as [|c s IH]; intros acc cnt Ha; cbn [read_digits fst].
  - exact Ha.
  - destruct (digit_value 10 c) as [d|] eqn:Ed; cbn [fst]; [|exact Ha].
    apply IH. pose proof (digit_value_nonneg c d Ed). lia.
Qed.

(** Rounding keeps the sign: what comes out of a negative mantissa is not
    a finite positive Number. *)
Lemma binary_round_aux_negative (mx ex : Z) (lx : location) :
  usable (binary_round_aux prec emax true mx ex lx) = false.
Proof.
  unfold binary_round_aux.
  destruct (shr_fexp prec emax mx ex lx) as [mrs e1].
  destruct (shr_fexp prec emax _ e1 loc_Exact) as [mrs2 e2].
  destruct (shr_m mrs2); [reflexivity | | reflexivity].
  destruct (e2 <=? emax - prec); reflexivity.
Qed.

Lemma of_Z_signed_nonpositive (z : Z) :
  0 <= z -> usable (of_Z_signed (- z) true) = false.
Proof.
  intros Hz. destruct z as [|p|p]; try lia; [reflexivity|].
  cbn [Z.opp]. unfold of_Z_signed, binary_normalize, binary_round.
  destruct (shl_align p 0 _) as [mz ez]. apply binary_round_aux_negative.
Qed.

(** [parseInt] of a string that starts with a minus sign is never a
    finite positive Number. *)
Lemma parseInt_string_minus (r : string) :
  usable (parseInt_string (String "-" r)) = false.
Proof.
  unfold parseInt_string. cbn [skip_ws].
  change (is_ws "-") with false. cbv iota beta zeta.
  pose proof (read_digits_nonneg r 0 0 ltac:(lia)) as Hz.
  destruct (read_digits 10 0 0 r) as [[z cnt] rest]. cbn [fst] in Hz.
  destruct cnt; [reflexivity|]. now apply of_Z_signed_nonpositive.
Qed.

(** X4.  A Number that is not finite and positive (NaN, an infinity, a
    zero, anything negative) never comes back from a normalizer: each of
    the three returns its fallback, [normalizeDpr] the default 1 when no
    fallback was passed.  For [normalizeInt] this is so although it goes
    through the string form of the Number. *)
Theorem normalizers_reject_unusable_numbers (x : number) (fb : value) :
  usable x = false ->
  normalizeDpr (Num x) fb = Normal (or_default fb (Num (of_Z 1))) /\
  normalizeFloat (Num x) fb = Normal fb /\
  normalizeInt (Num x) fb = Normal fb.
Proof.
  intros Hx. repeat split.
  - unfold normalizeDpr. cbn [ToNumber cbind]. rewrite guard_agrees, Hx. reflexivity.
  - unfold normalizeFloat. cbn [ToNumber cbind]. fold (usable x). now rewrite Hx.
  - rewrite (normalizeInt_parse x fb (parseInt_string (NumberToString x)) eq_refl).
    replace (usable (parseInt_string (NumberToString x))) with false; [reflexivity|].
    symmetry.
    destruct x as [sg|[|]| |[|] m e]; try reflexivity; try discriminate Hx.
    unfold NumberToString. destruct (shortest m e) as [s p].
    apply parseInt_string_minus.
Qed.

Lemma normalizers_reject_unusable_numbers_witness :
  usable (of_Z (-3)) = false /\
  normalizeDpr (Num (of_Z (-3))) Undefined = Normal (Num (of_Z 1)) /\
  normalizeFloat (Num (of_Z (-3))) (Num (of_Z 6)) = Normal (Num (of_Z 6)) /\
  normalizeInt (Num (of_Z (-3))) (Num (of_Z 30)) = Normal (Num (of_Z 30)).
Proof.
  split; [reflexivity|].
  destruct (normalizers_reject_unusable_numbers (of_Z (-3)) Undefined eq_refl)
    as (A & _ & _).
  destruct (normalizers_reject_unusable_numbers (of_Z (-3)) (Num (of_Z 6)) eq_refl)
    as (_ & B & _).
  destruct (normalizers_reject_unusable_numbers (of_Z (-3)) (Num (of_Z 30)) eq_refl)
    as (_ & _ & C).
  repeat split; assumption.
Defined.

(** X5.  [normalizeInt] returns a positive integer below [2^53]
    unchanged, whatever the fallback: its string form is its decimal
    numeral, which [parseInt] reads back in full. *)
Theorem normalizeInt_keeps_integers (i : Z) (fb : value) :
  1 <= i < 2 ^ 53 ->
  ToString (Num (of_Z i)) = Normal (dec i) /\
  normalizeInt (Num (of_Z i)) fb = Normal (Num (of_Z i)).
Proof.
  intros Hi. split.
  - cbn [ToString]. now rewrite NumberToString_of_Z.
  - rewrite (normalizeInt_parse (of_Z i) fb (of_Z i)).
    + now rewrite of_Z_small_usable.
    + rewrite NumberToString_of_Z by exact Hi. apply parseInt_string_dec_only. lia.
Qed.

Lemma normalizeInt_keeps_integers_witness :
  1 <= 9007199254740991 < 2 ^ 53 /\
  ToString (Num (of_Z 9007199254740991)) = Normal (dec 9007199254740991) /\
  normalizeInt (Num (of_Z 9007199254740991)) Undefined
    = Normal (Num (of_Z 9007199254740991)).
Proof.
  split; [split; [lia | reflexivity]|].
  apply (normalizeInt_keeps_integers 9007199254740991 Undefined).
  split; [lia | reflexivity].
Defined.

(** X6.  [normalizeInt] on a string that starts with the decimal numeral
    of a positive integer below [2^53]: whatever follows the numeral, as
    long as it does not begin with a digit, is ignored, and the integer is
    returned.  So is the numeral alone. *)
Theorem normalizeInt_reads_leading_numeral
    (i : Z) (c : ascii) (rest : string) (fb : value) :
  1 <= i < 2 ^ 53 ->
  digit_value 10 c = None ->
  normalizeInt (Str (dec i ++ String c rest)) fb = Normal (Num (of_Z i)) /\
  normalizeInt (Str (dec i)) fb = Normal (Num (of_Z i)).
Proof.
  intros Hi Hc. unfold normalizeInt, parseInt. cbn [ToString cbind].
  rewrite parseInt_string_dec, parseInt_string_dec_only by (try lia; exact Hc).
  fold (usable (of_Z i)). now rewrite of_Z_small_usable.
Qed.

Lemma normalizeInt_reads_leading_numeral_witness :
  1 <= 24 < 2 ^ 53 /\
  digit_value 10 "f" = None /\
  normalizeInt (Str "24fps") (Num (of_Z 30)) = Normal (Num (of_Z 24)) /\
  normalizeInt (Str "24") (Num (of_Z 30)) = Normal (Num (of_Z 24)).
Proof.
  split; [split; [lia | reflexivity] | split; [reflexivity|]].
  apply (normalizeInt_reads_leading_numeral 24 "f" "ps" (Num (of_Z 30)));
    [split; [lia | reflexivity] | reflexivity].
Defined.

(** X7.  [normalizeDpr] and [normalizeFloat] are one function: they
    agree on every input, with [normalizeDpr]'s omitted fallback standing
    for 1.  The guard [!Number.isFinite(n) || n <= 0] of the first is the
    negation of [Number.isFinite(n) && n > 0] of the second, NaN
    included. *)
Theorem normalizeDpr_is_normalizeFloat (v fb : value) :
  normalizeDpr v fb = normalizeFloat v (or_default fb (Num (of_Z 1))).
Proof.
  unfold normalizeDpr, normalizeFloat. cbv zeta.
  destruct (ToNumber v) as [n|e]; cbn [cbind]; [|reflexivity].
  rewrite guard_agrees. fold (usable n). now destruct (usable n).
Qed.

(** X8.  Normalizing twice is normalizing once: with a Number as
    fallback, what [normalizeFloat] (or [normalizeDpr]) returns is a
    Number that the same call returns unchanged.  The video handler relies
    on this: it passes [normalizeDpr(options.deviceScaleFactor, 1)] into
    the options, and [renderPngBuffer] normalizes that again. *)
Theorem normalizeFloat_idempotent (v r : value) (fb : number) :
  normalizeFloat v (Num fb) = Normal r ->
  normalizeFloat r (Num fb) = Normal r /\
  normalizeDpr r (Num fb) = Normal r.
Proof.
  intros H. assert (Hr : normalizeFloat r (Num fb) = Normal r).
  { unfold normalizeFloat in H.
    destruct (ToNumber v) as [n|e]; cbn [cbind] in H; [|discriminate].
    fold (usable n) in H. injection H as <-.
    unfold normalizeFloat.
    destruct (usable n) eqn:En; cbn [ToNumber cbind].
    - fold (usable n). now rewrite En.
    - fold (usable fb). now destruct (usable fb). }
  split; [exact Hr|]. rewrite normalizeDpr_eq. unfold normalizeFloat in Hr.
  destruct (ToNumber r) as [n|e]; cbn [cbind] in *; [|discriminate].
  fold (usable n) in Hr. rewrite <- Hr. now destruct (usable n).
Qed.

Lemma normalizeFloat_idempotent_witness :
  normalizeFloat (Str "2.7") (Num (of_Z 6)) = Normal (Num two_point_seven) /\
  normalizeFloat (Num two_point_seven) (Num (of_Z 6)) = Normal (Num two_point_seven) /\
  normalizeDpr (Num two_point_seven) (Num (of_Z 6)) = Normal (Num two_point_seven).
Proof.
  split; [reflexivity|].
  apply (normalizeFloat_idempotent (Str "2.7") (Num two_point_seven) (of_Z 6)).
  reflexivity.
Defined.


(* ===================================================================== *)
(** * Further facts: the renderer *)
(* ===================================================================== *)

(** What [normalizeDpr] hands to the browser is a finite positive
    Number. *)
Lemma normalizeDpr_usable (v d : value) (fb : number) :
  usable fb = true ->
  normalizeDpr v (Num fb) = Normal d ->
  exists n, d = Num n /\ usable n = true.
Proof.
  intros Hfb H. rewrite normalizeDpr_eq in H.
  destruct (ToNumber v) as [n|e]; cbn [cbind] in H; [|discriminate].
  injection H as <-. eexists. split; [reflexivity|].
  now destruct (usable n) eqn:E.
Qed.

(** The calls of a successful render, in order. *)
Lemma renderPngBuffer_success (w : world) (a : render_args) (st : state) :
  ensures (renderPngBuffer w a st) (fun r st' =>
    forall png, r = Normal png ->
    exists name dpr,
      template a = Str name /\
      existsSync w (path_join w (path_join w (TEMPLATES_ROOT w) name) "index.html")
        = true /\
      normalizeDpr (get (options a) "deviceScaleFactor") (Num (of_Z 1)) = Normal dpr /\
      screenshot w = Normal png /\
      res st' = res st /\
      log st' =
        (log st ++
         (match browserPromise st with None => [ELaunch] | Some _ => [] end) ++
         [ENewContext (width a) (height a) dpr;
          ENewPage;
          EAddInitScript (data a) (assets a) (options a);
          EGoto ("file://" ++
                 path_join w (path_join w (TEMPLATES_ROOT w) name) "index.html")
                "domcontentloaded"] ++
         (if hideBg a then [EAddStyleTag hide_bg_css] else []) ++
         [EEvaluateFontsReady;
          EWaitForReady 20000;
          EScreenshot "png" (transparent a);
          EPageClose;
          EContextClose])%list).
Proof.
  unfold renderPngBuffer, join_value.
  destruct (template a) as [ | | | |name| | ] eqn:Et;
    try (run_all; intros png Hr; discriminate Hr).
  run_all; intros png Hr; try discriminate Hr; injection Hr as <-;
    do 2 eexists;
    repeat (split; [first [reflexivity | eassumption]|]);
    rewrite <- ?app_assoc; reflexivity.
Qed.

(** X9.  A call to [renderPngBuffer] that returns has made exactly these
    calls, in this order: the launch (only when no browser was cached),
    [newContext] with the requested viewport and a finite positive scale
    factor, [newPage], [addInitScript] with the payload, [goto] of the
    template's [file://] address, the style tag (only with [hideBg]), the
    wait for fonts, the wait for the ready flag under 20000 ms, the
    screenshot of type png, and the two closes.  What it returns is the
    screenshot. *)
Theorem renderPngBuffer_call_sequence
    (w : world) (a : render_args) (st st' : state) (png : buffer) :
  renderPngBuffer w a st = (Normal png, st') ->
  exists name dpr,
    template a = Str name /\
    existsSync w (path_join w (path_join w (TEMPLATES_ROOT w) name) "index.html")
      = true /\
    normalizeDpr (get (options a) "deviceScaleFactor") (Num (of_Z 1))
      = Normal (Num dpr) /\
    usable dpr = true /\
    screenshot w = Normal png /\
    log st' =
      (log st ++
       (match browserPromise st with None => [ELaunch] | Some _ => [] end) ++
       [ENewContext (width a) (height a) (Num dpr);
        ENewPage;
        EAddInitScript (data a) (assets a) (options a);
        EGoto ("file://" ++
               path_join w (path_join w (TEMPLATES_ROOT w) name) "index.html")
              "domcontentloaded"] ++
       (if hideBg a then [EAddStyleTag hide_bg_css] else []) ++
       [EEvaluateFontsReady;
        EWaitForReady 20000;
        EScreenshot "png" (transparent a);
        EPageClose;
        EContextClose])%list.
Proof.
  intros Hrun. pose proof (renderPngBuffer_success w a st) as H.
  unfold ensures in H. rewrite Hrun in H. cbn [fst snd] in H.
  destruct (H png eq_refl) as (name & d & Ht & Hex & Hd & Hs & _ & Hl).
  destruct (normalizeDpr_usable _ _ (of_Z 1) eq_refl Hd) as (n & -> & Hn).
  exists name, n. repeat split; assumption.
Qed.

Lemma renderPngBuffer_call_sequence_witness :
  exists name dpr,
    template card_args = Str name /\
    existsSync calm (path_join calm (path_join calm (TEMPLATES_ROOT calm) name)
                               "index.html") = true /\
    normalizeDpr (get (options card_args) "deviceScaleFactor") (Num (of_Z 1))
      = Normal (Num dpr) /\
    usable dpr = true /\
    screenshot calm = Normal png_bytes /\
    log (snd (renderPngBuffer calm card_args initial)) =
      (log initial ++
       (match browserPromise initial with None => [ELaunch] | Some _ => [] end) ++
       [ENewContext (width card_args) (height card_args) (Num dpr);
        ENewPage;
        EAddInitScript (data card_args) (assets card_args) (options card_args);
        EGoto ("file://" ++
               path_join calm (path_join calm (TEMPLATES_ROOT calm) name) "index.html")
              "domcontentloaded"] ++
       (if hideBg card_args then [EAddStyleTag hide_bg_css] else []) ++
       [EEvaluateFontsReady;
        EWaitForReady 20000;
        EScreenshot "png" (transparent card_args);
        EPageClose;
        EContextClose])%list.
Proof.
  apply (renderPngBuffer_call_sequence calm card_args initial
           (snd (renderPngBuffer calm card_args initial)) png_bytes).
  reflexivity.
Defined.

(** X10.  [renderPngBuffer] touches the browser only for a template that
    exists: when it has made any call at all, the template is a string
    whose index.html is on disk.  And whenever it creates a context, also
    on a run that fails later, the viewport is the requested one and the
    scale factor is a finite positive Number. *)
Theorem renderPngBuffer_calls_need_template
    (w : world) (a : render_args) (st : state) :
  ensures (renderPngBuffer w a st) (fun _ st' =>
    exists evs, log st' = (log st ++ evs)%list /\
      (evs <> [] ->
       exists name,
         template a = Str name /\
         existsSync w (path_join w (path_join w (TEMPLATES_ROOT w) name) "index.html")
           = true) /\
      (forall wd ht d, In (ENewContext wd ht d) evs ->
         wd = width a /\ ht = height a /\
         exists n, d = Num n /\ usable n = true)).
Proof.
  unfold renderPngBuffer, join_value.
  destruct (template a) as [ | | | |name| | ] eqn:Et;
    try (run_all; exists []; split; [symmetry; apply app_nil_r|];
         split; [intros C; exfalso; apply C; reflexivity | intros ? ? ? []]).
  run_all; flatten_log;
    (eexists; split; [try reflexivity; symmetry; apply app_nil_r |]);
    (split;
     [ intros Hne;
       first [ exfalso; apply Hne; reflexivity
             | exists name; split; [reflexivity | assumption] ]
     | intros wd ht d Hin; cbn [In] in Hin;
       repeat (destruct Hin as [Hin | Hin]; [try discriminate Hin|]);
       try contradiction;
       injection Hin as <- <- <-;
       (split; [reflexivity | split; [reflexivity|]]);
       match goal with
       | E : normalizeDpr _ (Num (of_Z 1)) = Normal _ |- _ =>
           exact (normalizeDpr_usable _ _ (of_Z 1) eq_refl E)
       end ]).
Qed.

(** X11.  The browser is launched at most once.  A call to
    [renderPngBuffer] that finds a cached launch, successful or failed,
    makes none and leaves the cache alone; one that finds none either
    leaves it empty (and launches nothing) or launches once and caches
    the outcome. *)
Theorem browser_is_launched_at_most_once
    (w : world) (a : render_args) (st : state) :
  ensures (renderPngBuffer w a st) (fun _ st' =>
    exists evs, log st' = (log st ++ evs)%list /\
      ((browserPromise st' = browserPromise st /\ ~ In ELaunch evs) \/
       (browserPromise st = None /\
        browserPromise st' = Some (launch w) /\
        exists rest, evs = ELaunch :: rest /\ ~ In ELaunch rest))).
Proof.
  unfold renderPngBuffer.
  run_all; flatten_log;
    (eexists; split; [try reflexivity; symmetry; apply app_nil_r |]);
    first
      [ left; split; [first [reflexivity | assumption]|];
        cbn [In]; intros Hin;
        repeat (destruct Hin as [Hin | Hin]; [discriminate Hin|]);
        contradiction
      | right; split; [first [reflexivity | assumption]|];
        split; [first [reflexivity | assumption]|];
        eexists; split; [reflexivity|];
        cbn [In]; intros Hin;
        repeat (destruct Hin as [Hin | Hin]; [discriminate Hin|]);
        contradiction ].
Qed.


(* ===================================================================== *)
(** * Further facts: POST /render/png *)
(* ===================================================================== *)

Section PngAnswers.
Variable w : world.
Variable req_body : value.

Let request := if truthy req_body then req_body else Obj [].
Let template_ := get request "template".
Let options_ := or_default (get request "options") (Obj []).

(** X12.  The PNG handler never throws, and it answers in one of three
    ways.  Without a (truthy) template: 400, and nothing else happens.
    With one, either an error was caught, logged, and answered with 404
    (code TEMPLATE_NOT_FOUND) or 500 (anything else) and the body
    [{error: "RENDER_FAILED", message}]; or the status is left as it
    was, the content type is image/png, and the body is the screenshot
    the page produced. *)
Theorem png_handler_answers (st : state) :
  ensures (post_render_png w req_body st) (fun r st' =>
    r = Normal tt /\
    ((truthy template_ = false /\
      res st' = mkResponse 400 (Some "application/json")
                  (Some (Json (Obj [("error", Str "template is required")]))) /\
      log st' = log st /\
      browserPromise st' = browserPromise st) \/
     (truthy template_ = true /\
      exists e evs,
        res st' = mkResponse (if code_is e "TEMPLATE_NOT_FOUND" then 404 else 500)
                    (Some "application/json")
                    (Some (Json (Obj [("error", Str "RENDER_FAILED");
                                      ("message", Str (err_message e))]))) /\
        log st' = (log st ++ evs ++ [EConsoleError e])%list) \/
     (truthy template_ = true /\
      exists png,
        screenshot w = Normal png /\
        res st' = mkResponse (status (res st)) (Some "image/png") (Some (Raw png))))).
Proof.
  subst template_ request.
  unfold post_render_png, renderPngBuffer.
  run_all; (split; [reflexivity|]);
    first
      [ left; split; [reflexivity|]; repeat split; first [reflexivity | assumption]
      | right; right; split; [first [reflexivity | assumption]|];
        eexists; split; first [reflexivity | eassumption]
      | right; left; split; [first [reflexivity | assumption]|];
        match goal with
        | |- context [EConsoleError ?e] => exists e
        end;
        eexists; split; [reflexivity|];
        rewrite (app_assoc (log st)); f_equal;
        rewrite <- ?app_assoc;
        first [reflexivity | symmetry; apply app_nil_r] ].
Qed.

(** X13.  A template that is truthy but not a string (a number, [true],
    an array, an object) makes [path.join] throw before anything is
    looked up or launched: the PNG handler logs the TypeError and
    answers 500, not 400. *)
Theorem png_template_not_a_string_is_500 (st : state) :
  truthy template_ = true ->
  (forall s, template_ <> Str s) ->
  ensures (post_render_png w req_body st) (fun r st' =>
    r = Normal tt /\
    status (res st') = 500 /\
    error_code_of (res st') = Some (Str "RENDER_FAILED") /\
    browserPromise st' = browserPromise st /\
    exists e, err_name e = "TypeError" /\
              err_code e = Some "ERR_INVALID_ARG_TYPE" /\
              log st' = (log st ++ [EConsoleError e])%list).
Proof.
  subst template_ request. intros Ht Hns.
  unfold post_render_png, renderPngBuffer, join_value.
  destruct (get (if truthy req_body then req_body else Obj []) "template")
    as [ | | | |name| | ] eqn:Eg;
    try (exfalso; apply (Hns name); reflexivity);
    run_all; repeat split; try reflexivity;
    eexists; repeat split; reflexivity.
Qed.

(** A request that finds a failed launch in the cache fails with the
    error of that launch, without a call to the browser. *)
Lemma png_after_failed_launch (st : state) (e : error) (name : string) (d : value) :
  browserPromise st = Some (Throw e) ->
  template_ = Str name ->
  truthy (Str name) = true ->
  existsSync w (path_join w (path_join w (TEMPLATES_ROOT w) name) "index.html") = true ->
  normalizeDpr (get options_ "deviceScaleFactor") (Num (of_Z 1)) = Normal d ->
  ensures (post_render_png w req_body st) (fun r st' =>
    r = Normal tt /\
    res st' = mkResponse (if code_is e "TEMPLATE_NOT_FOUND" then 404 else 500)
                (Some "application/json")
                (Some (Json (error_body "RENDER_FAILED" e))) /\
    log st' = (log st ++ [EConsoleError e])%list /\
    browserPromise st' = Some (Throw e)).
Proof.
  subst options_ template_ request. intros Hb Ht Htt Hex Hd.
  unfold post_render_png, renderPngBuffer, join_value.
  rewrite Ht. run_all; repeat split; try reflexivity; assumption.
Qed.

(** A request that reaches the browser when none is cached and the
    launch fails leaves the failure in the cache. *)
Lemma png_caches_failed_launch (st : state) (e : error) (name : string) (d : value) :
  browserPromise st = None ->
  launch w = Throw e ->
  template_ = Str name ->
  truthy (Str name) = true ->
  existsSync w (path_join w (path_join w (TEMPLATES_ROOT w) name) "index.html") = true ->
  normalizeDpr (get options_ "deviceScaleFactor") (Num (of_Z 1)) = Normal d ->
  ensures (post_render_png w req_body st) (fun r st' =>
    browserPromise st' = Some (Throw e) /\
    log st' = (log st ++ [ELaunch; EConsoleError e])%list).
Proof.
  subst options_ template_ request. intros Hb Hl Ht Htt Hex Hd.
  unfold post_render_png, renderPngBuffer, join_value.
  rewrite Ht. run_all; flatten_log; repeat split; reflexivity.
Qed.
End PngAnswers.

(** X14.  A failed launch is never retried.  When a first PNG request
    reaches the browser and [chromium.launch] rejects, the rejected
    promise stays in [browserPromise]; a later PNG request, in whatever
    world it runs, makes no call to the browser and is answered with the
    error of the first launch. *)
Theorem failed_launch_is_never_retried
    (w1 w2 : world) (body1 body2 : value) (st : state) (e : error)
    (name1 name2 : string) (d1 d2 : value) :
  let request1 := if truthy body1 then body1 else Obj [] in
  let request2 := if truthy body2 then body2 else Obj [] in
  browserPromise st = None ->
  launch w1 = Throw e ->
  get request1 "template" = Str name1 ->
  truthy (Str name1) = true ->
  existsSync w1 (path_join w1 (path_join w1 (TEMPLATES_ROOT w1) name1) "index.html")
    = true ->
  normalizeDpr (get (or_default (get request1 "options") (Obj [])) "deviceScaleFactor")
               (Num (of_Z 1)) = Normal d1 ->
  get request2 "template" = Str name2 ->
  truthy (Str name2) = true ->
  existsSync w2 (path_join w2 (path_join w2 (TEMPLATES_ROOT w2) name2) "index.html")
    = true ->
  normalizeDpr (get (or_default (get request2 "options") (Obj [])) "deviceScaleFactor")
               (Num (of_Z 1)) = Normal d2 ->
  let st1 := snd (post_render_png w1 body1 st) in
  let st2 := snd (post_render_png w2 body2 st1) in
  log st1 = (log st ++ [ELaunch; EConsoleError e])%list /\
  log st2 = (log st1 ++ [EConsoleError e])%list /\
  res st2 = mkResponse (if code_is e "TEMPLATE_NOT_FOUND" then 404 else 500)
              (Some "application/json")
              (Some (Json (Obj [("error", Str "RENDER_FAILED");
                                ("message", Str (err_message e))]))).
Proof.
  cbv zeta. intros Hb Hl Ht1 Htt1 Hex1 Hd1 Ht2 Htt2 Hex2 Hd2.
  destruct (png_caches_failed_launch w1 body1 st e name1 d1 Hb Hl Ht1 Htt1 Hex1 Hd1)
    as [Hc Hlog1].
  destruct (png_after_failed_launch w2 body2 _ e name2 d2 Hc Ht2 Htt2 Hex2 Hd2)
    as (_ & Hres & Hlog2 & _).
  repeat split; assumption.
Qed.


Section PngSuccess.
Variable w : world.
Variable req_body : value.

Let request := if truthy req_body then req_body else Obj [].
Let template_ := get request "template".
Let width_ := or_default (get request "width") (Num (of_Z 2160)).
Let height_ := or_default (get request "height") (Num (of_Z 3840)).
Let transparent_ := or_default (get request "transparent") (Bool false).
Let data_ := or_default (get request "data") (Obj []).
Let assets_ := or_default (get request "assets") (Obj []).
Let options_ := or_default (get request "options") (Obj []).

(** The PNG handler, with the render taken as one step. *)
Lemma png_success (st : state) :
  content_type (res st) <> Some "image/png" ->
  ensures (post_render_png w req_body st) (fun r st' =>
    content_type (res st') = Some "image/png" ->
    exists png st1,
      renderPngBuffer w
        (mkArgs template_ width_ height_ transparent_ data_ assets_ options_ false)
        st = (Normal png, st1) /\
      res st' = mkResponse (status (res st1)) (Some "image/png") (Some (Raw png)) /\
      log st' = log st1).
Proof.
  subst template_ width_ height_ transparent_ data_ assets_ options_ request.
  intros Hct. unfold post_render_png.
  run_all; intros Hsent; try discriminate Hsent; try contradiction.
  do 2 eexists. split; [first [eassumption | reflexivity]|]. split; reflexivity.
Qed.

(** X21.  When the PNG handler answers with content type image/png,
    these are exactly the calls it made, in order: the launch (only when
    no browser was cached), the context with the requested viewport
    (2160 by 3840 when omitted) and the normalized scale factor, the
    page, the payload with the request's data, assets and options as
    they came, navigation, fonts, the ready flag, the screenshot with
    [omitBackground] as requested ([false] when omitted), both closes.
    No style tag is added.  The body is the screenshot and the status is
    left as it was. *)
Theorem png_success_call_sequence (st : state) :
  content_type (res st) <> Some "image/png" ->
  content_type (res (snd (post_render_png w req_body st))) = Some "image/png" ->
  exists name dpr png,
    template_ = Str name /\
    existsSync w (path_join w (path_join w (TEMPLATES_ROOT w) name) "index.html")
      = true /\
    normalizeDpr (get options_ "deviceScaleFactor") (Num (of_Z 1)) = Normal (Num dpr) /\
    usable dpr = true /\
    screenshot w = Normal png /\
    res (snd (post_render_png w req_body st))
      = mkResponse (status (res st)) (Some "image/png") (Some (Raw png)) /\
    log (snd (post_render_png w req_body st)) =
      (log st ++
       (match browserPromise st with None => [ELaunch] | Some _ => [] end) ++
       [ENewContext width_ height_ (Num dpr);
        ENewPage;
        EAddInitScript data_ assets_ options_;
        EGoto ("file://" ++
               path_join w (path_join w (TEMPLATES_ROOT w) name) "index.html")
              "domcontentloaded";
        EEvaluateFontsReady;
        EWaitForReady 20000;
        EScreenshot "png" transparent_;
        EPageClose;
        EContextClose])%list.
Proof.
  intros Hct Hsent.
  destruct (png_success st Hct Hsent) as (png & st1 & Hr & Hres & Hlog).
  match type of Hr with
  | renderPngBuffer _ ?a _ = _ => pose proof (renderPngBuffer_success w a st) as Hs
  end.
  unfold ensures in Hs. rewrite Hr in Hs. cbn [fst snd] in Hs.
  destruct (Hs png eq_refl) as (name & d & Ht & Hex & Hd & Hshot & Hres1 & Hlog1).
  cbn [template width height transparent data assets options hideBg] in *.
  destruct (normalizeDpr_usable _ _ (of_Z 1) eq_refl Hd) as (n & -> & Hn).
  exists name, n, png.
  repeat (split; [assumption|]).
  split.
  - now rewrite Hres, Hres1.
  - rewrite Hlog, Hlog1. reflexivity.
Qed.
End PngSuccess.


Lemma png_template_not_a_string_is_500_witness :
  ensures (post_render_png calm png_request_numeric_template initial) (fun r st' =>
    r = Normal tt /\
    status (res st') = 500 /\
    error_code_of (res st') = Some (Str "RENDER_FAILED") /\
    browserPromise st' = None /\
    exists e, err_name e = "TypeError" /\
              err_code e = Some "ERR_INVALID_ARG_TYPE" /\
              log st' = [EConsoleError e]).
Proof.
  apply (png_template_not_a_string_is_500 calm png_request_numeric_template initial).
  - reflexivity.
  - intros s. discriminate.
Defined.

(** The first request meets a machine on which Chromium does not start;
    the second comes when it would. *)
Lemma failed_launch_is_never_retried_witness :
  let st1 := snd (post_render_png no_browser png_request initial) in
  let st2 := snd (post_render_png calm png_request st1) in
  launch calm = Normal tt /\
  log st1 = [ELaunch; EConsoleError launch_failure] /\
  log st2 = (log st1 ++ [EConsoleError launch_failure])%list /\
  res st2 = mkResponse 500 (Some "application/json")
              (Some (Json (Obj [("error", Str "RENDER_FAILED");
                                ("message",
                                 Str "browserType.launch: Failed to launch chromium")]))).
Proof.
  cbv zeta. split; [reflexivity|].
  apply (failed_launch_is_never_retried no_browser calm png_request png_request
           initial launch_failure "card" "card" (Num (of_Z 1)) (Num (of_Z 1)));
    reflexivity.
Defined.

Lemma png_success_call_sequence_witness :
  exists name dpr png,
    get png_request "template" = Str name /\
    existsSync calm (path_join calm (path_join calm (TEMPLATES_ROOT calm) name)
                               "index.html") = true /\
    normalizeDpr Undefined (Num (of_Z 1)) = Normal (Num dpr) /\
    usable dpr = true /\
    screenshot calm = Normal png /\
    res (snd (post_render_png calm png_request initial))
      = mkResponse 200 (Some "image/png") (Some (Raw png)) /\
    log (snd (post_render_png calm png_request initial)) =
      ([] ++
       [ELaunch] ++
       [ENewContext (Num (of_Z 2160)) (Num (of_Z 3840)) (Num dpr);
        ENewPage;
        EAddInitScript (Obj []) (Obj []) (Obj []);
        EGoto ("file://" ++
               path_join calm (path_join calm (TEMPLATES_ROOT calm) name) "index.html")
              "domcontentloaded";
        EEvaluateFontsReady;
        EWaitForReady 20000;
        EScreenshot "png" (Bool false);
        EPageClose;
        EContextClose])%list.
Proof.
  apply (png_success_call_sequence calm png_request initial).
  - discriminate.
  - reflexivity.
Defined.


(* ===================================================================== *)
(** * Further facts: POST /render/video *)
(* ===================================================================== *)

(** ** The options handed to the page *)

Lemma lookup_set_prop_same (key : string) (x : value) (props : list (string * value)) :
  lookup key (set_prop key x props) = Some x.
Proof.
  induction props as [|[k v] rest IH]; cbn [set_prop lookup].
  - now rewrite String.eqb_refl.
  - destruct (String.eqb k key) eqn:E; cbn [lookup]; rewrite E; [reflexivity | exact IH].
Qed.




(** The scale factor the handler computed goes through [renderPngBuffer]'s
    own normalization unchanged. *)
Lemma normalizeDpr_again (v r : value) (fb : number) :
  normalizeDpr v (Num fb) = Normal r ->
  normalizeDpr r (Num fb) = Normal r.
Proof.
  rewrite normalizeDpr_eq. intros H.
  destruct (ToNumber v) as [n|e]; cbn [cbind] in H; [|discriminate].
  injection H as <-. rewrite normalizeDpr_eq. cbn [ToNumber cbind].
  destruct (usable n) eqn:En; [now rewrite En | now destruct (usable fb)].
Qed.

Lemma normalizeDpr_of_page_options (opts dsf d : value) :
  normalizeDpr (get opts "deviceScaleFactor") (Num (of_Z 1)) = Normal dsf ->
  normalizeDpr
    (get (Obj (set_prop "deviceScaleFactor" dsf (own_props opts))) "deviceScaleFactor")
    (Num (of_Z 1)) = Normal d ->
  d = dsf.
Proof.
  intros H1 H2. cbn [get] in H2. rewrite lookup_set_prop_same in H2.
  rewrite (normalizeDpr_again _ _ _ H1) in H2. now injection H2.
Qed.

Section VideoAnswers.
Variable w : world.
Variable req_body : value.

Let request := if truthy req_body then req_body else Obj [].
Let template_ := get request "template".
Let width_ := or_default (get request "width") (Num (of_Z 2160)).
Let height_ := or_default (get request "height") (Num (of_Z 3840)).
Let data_ := or_default (get request "data") (Obj []).
Let assets_ := or_default (get request "assets") (Obj []).
Let options_ := or_default (get request "options") (Obj []).
Let bgVideo := get assets_ "backgroundVideo".
Let tmp_prefix := path_join w (tmpdir w) "render-".

(** X16.  A video request without a (truthy) template is answered 400
    with [template is required], whatever else it carries.  The
    temporary directory exists by then and is removed; nothing else is
    called. *)
Theorem video_missing_template_is_400 (st : state) (tmpDir : string) :
  mkdtempSync w tmp_prefix = Normal tmpDir ->
  truthy template_ = false ->
  ensures (post_render_video w req_body st) (fun r st' =>
    r = Normal tt /\
    res st' = mkResponse 400 (Some "application/json")
                (Some (Json (Obj [("error", Str "template is required")]))) /\
    log st' = (log st ++ [EMkdtemp tmp_prefix; ERm tmpDir true true])%list /\
    browserPromise st' = browserPromise st).
Proof.
  subst tmp_prefix template_ request. intros Hmk Ht.
  unfold post_render_video, video_try.
  run_all; flatten_log; repeat split; reflexivity.
Qed.

(** The video handler, with the overlay render taken as one step. *)
Lemma video_success (st : state) (tmpDir : string) :
  mkdtempSync w tmp_prefix = Normal tmpDir ->
  content_type (res st) <> Some "video/mp4" ->
  ensures (post_render_video w req_body st) (fun r st' =>
    content_type (res st') = Some "video/mp4" ->
    exists bgPath fps dur dsf W H F D png mp4 out st0 st1,
      bgVideo = Str ("file://" ++ bgPath) /\
      normalizeInt (get options_ "fps") (Num (of_Z 30)) = Normal fps /\
      normalizeFloat (get options_ "durationSec") (Num (of_Z 6)) = Normal dur /\
      normalizeDpr (get options_ "deviceScaleFactor") (Num (of_Z 1)) = Normal dsf /\
      ToString width_ = Normal W /\
      ToString height_ = Normal H /\
      ToString fps = Normal F /\
      ToString dur = Normal D /\
      log st0 = (log st ++ [EMkdtemp tmp_prefix])%list /\
      browserPromise st0 = browserPromise st /\
      res st0 = res st /\
      renderPngBuffer w
        (mkArgs template_ width_ height_ (Bool true) data_ assets_
           (Obj (set_prop "deviceScaleFactor" dsf (own_props options_))) true)
        st0 = (Normal png, st1) /\
      await_run "ffmpeg"
        (ffmpegArgs bgPath
           (path_join w tmpDir ("overlay-" ++ randomHex w ++ ".png"))
           D F (video_filter W H) (is_true (get options_ "includeAudio"))
           (path_join w tmpDir ("out-" ++ randomHex w ++ ".mp4")))
        (Some composition_timeoutMs) (ffmpeg w) = Normal out /\
      readFileSync w = Normal mp4 /\
      res st' = mkResponse (status (res st1)) (Some "video/mp4") (Some (Raw mp4)) /\
      log st' =
        (log st1 ++
         [EWriteFile (path_join w tmpDir ("overlay-" ++ randomHex w ++ ".png")) png;
          ERun "ffmpeg"
            (ffmpegArgs bgPath
               (path_join w tmpDir ("overlay-" ++ randomHex w ++ ".png"))
               D F (video_filter W H) (is_true (get options_ "includeAudio"))
               (path_join w tmpDir ("out-" ++ randomHex w ++ ".mp4")))
            composition_timeoutMs;
          EReadFile (path_join w tmpDir ("out-" ++ randomHex w ++ ".mp4"));
          ERm tmpDir true true])%list).
Proof.
  subst tmp_prefix bgVideo template_ width_ height_ data_ assets_ options_ request.
  intros Hmk Hct.
  unfold post_render_video, video_try.
  run_all; intros Hsent; try discriminate Hsent; try contradiction.
  all: match goal with
       | Hs : ToString ?v = Normal ?s, Hp : startsWith "file://" ?s = true,
         Hb : bgVideo_path ?v = Normal ?p |- _ =>
           pose proof (bgVideo_prefix v s p Hs Hp Hb) as Hv
       end.
  all: match goal with
       | Hr : renderPngBuffer _ _ ?s0 = (Normal ?png, ?s1) |- _ =>
           do 11 eexists; exists s0, s1
       end.
  all: repeat (split; [first [eassumption | reflexivity]|]).
  all: flatten_log; reflexivity.
Qed.

(** X17.  When the video handler answers with content type video/mp4,
    everything before succeeded, and these are exactly the calls it
    made, in order: the temporary directory; the overlay render (launch
    only when no browser was cached; the context with the requested
    viewport and the normalized scale factor; the page; the payload with
    that same scale factor in its options; navigation; the style tag
    that hides the background; fonts; the ready flag; a transparent
    screenshot; both closes); the overlay written to its file; ffmpeg,
    which exited 0; the output file read; the directory removed.  The
    body is the bytes read, and the status is left as it was. *)
Theorem video_success_call_sequence (st : state) (tmpDir : string) :
  mkdtempSync w tmp_prefix = Normal tmpDir ->
  content_type (res st) <> Some "video/mp4" ->
  content_type (res (snd (post_render_video w req_body st))) = Some "video/mp4" ->
  exists name bgPath fps dur dsf W H F D png mp4 out,
    let overlayPath := path_join w tmpDir ("overlay-" ++ randomHex w ++ ".png") in
    let outPath := path_join w tmpDir ("out-" ++ randomHex w ++ ".mp4") in
    let args := ffmpegArgs bgPath overlayPath D F (video_filter W H)
                  (is_true (get options_ "includeAudio")) outPath in
    template_ = Str name /\
    bgVideo = Str ("file://" ++ bgPath) /\
    normalizeInt (get options_ "fps") (Num (of_Z 30)) = Normal fps /\
    normalizeFloat (get options_ "durationSec") (Num (of_Z 6)) = Normal dur /\
    normalizeDpr (get options_ "deviceScaleFactor") (Num (of_Z 1)) = Normal (Num dsf) /\
    usable dsf = true /\
    ToString width_ = Normal W /\
    ToString height_ = Normal H /\
    ToString fps = Normal F /\
    ToString dur = Normal D /\
    screenshot w = Normal png /\
    await_run "ffmpeg" args (Some composition_timeoutMs) (ffmpeg w) = Normal out /\
    readFileSync w = Normal mp4 /\
    res (snd (post_render_video w req_body st))
      = mkResponse (status (res st)) (Some "video/mp4") (Some (Raw mp4)) /\
    log (snd (post_render_video w req_body st)) =
      (log st ++
       [EMkdtemp tmp_prefix] ++
       (match browserPromise st with None => [ELaunch] | Some _ => [] end) ++
       [ENewContext width_ height_ (Num dsf);
        ENewPage;
        EAddInitScript data_ assets_
          (Obj (set_prop "deviceScaleFactor" (Num dsf) (own_props options_)));
        EGoto ("file://" ++
               path_join w (path_join w (TEMPLATES_ROOT w) name) "index.html")
              "domcontentloaded";
        EAddStyleTag hide_bg_css;
        EEvaluateFontsReady;
        EWaitForReady 20000;
        EScreenshot "png" (Bool true);
        EPageClose;
        EContextClose;
        EWriteFile overlayPath png;
        ERun "ffmpeg" args composition_timeoutMs;
        EReadFile outPath;
        ERm tmpDir true true])%list.
Proof.
  intros Hmk Hct Hsent.
  destruct (video_success st tmpDir Hmk Hct Hsent)
    as (bgPath & fps & dur & dsf & W & H & F & D & png & mp4 & out & st0 & st1 &
        Hbg & Hfps & Hdur & Hdsf & HW & HH & HF & HD & Hl0 & Hb0 & Hr0 & Hr &
        Hrun & Hread & Hres & Hlog).
  match type of Hr with
  | renderPngBuffer _ ?a _ = _ => pose proof (renderPngBuffer_success w a st0) as Hs
  end.
  unfold ensures in Hs. rewrite Hr in Hs. cbn [fst snd] in Hs.
  destruct (Hs png eq_refl) as (name & d & Ht & _ & Hd & Hshot & Hres1 & Hlog1).
  cbn [template width height transparent data assets options hideBg] in *.
  pose proof (normalizeDpr_of_page_options _ _ _ Hdsf Hd) as ->.
  destruct (normalizeDpr_usable _ _ (of_Z 1) eq_refl Hdsf) as (n & -> & Hn).
  exists name, bgPath, fps, dur, n, W, H, F, D, png, mp4, out. cbv zeta.
  repeat (split; [assumption|]).
  split.
  - now rewrite Hres, Hres1, Hr0.
  - rewrite Hlog, Hlog1, Hl0, Hb0. rewrite <- !app_assoc. reflexivity.
Qed.
(** X18.  When ffmpeg was started and did not exit with status 0, the
    answer is 500 with the code RENDER_VIDEO_FAILED and the message of
    the runner's error: for an exit status (or a null status, after a
    signal), [ffmpeg failed (code <status>). ] followed by what ffmpeg
    wrote to stderr, or to stdout when stderr stayed empty; for a spawn
    error, the message of that error. *)
Theorem video_ffmpeg_failure_is_500
    (st : state) (tmpDir c : string) (a : list string) (t : number) :
  mkdtempSync w tmp_prefix = Normal tmpDir ->
  In (ERun c a t) (log (snd (post_render_video w req_body st))) ->
  ~ In (ERun c a t) (log st) ->
  (forall pre post code,
      ffmpeg w = (pre ++ Close code :: post)%list ->
      forallb output_only pre = true ->
      code <> Some 0 ->
      res (snd (post_render_video w req_body st)) =
      mkResponse 500 (Some "application/json")
        (Some (Json (Obj [("error", Str "RENDER_VIDEO_FAILED");
                          ("message",
                           Str ("ffmpeg failed (code " ++ code_string code ++ "). "
                                ++ stderr_or_stdout (collect_stderr pre)
                                                    (collect_stdout pre)))])))) /\
  (forall pre post err,
      ffmpeg w = (pre ++ ProcError err :: post)%list ->
      forallb output_only pre = true ->
      res (snd (post_render_video w req_body st)) =
      mkResponse 500 (Some "application/json")
        (Some (Json (Obj [("error", Str "RENDER_VIDEO_FAILED");
                          ("message", Str (err_message err))])))).
Proof.
  intros Hmk Hin Hnot.
  destruct (video_run_event w req_body st tmpDir c a t Hmk Hnot Hin)
    as (bgPath & W & H & F & D & fps & dur &
        _ & _ & _ & _ & _ & _ & _ & Hc & Ht & _ & Hres).
  subst c. split.
  - intros pre post code Hff Hpre Hcode.
    apply (Hres (Error (failure_message "ffmpeg" code (collect_stderr pre)
                                        (collect_stdout pre)))).
    rewrite Hff, await_run_close by exact Hpre.
    destruct code as [[| |]|]; try reflexivity. now contradiction Hcode.
  - intros pre post err Hff Hpre.
    apply (Hres err). rewrite Hff. now apply await_run_error.
Qed.

(** X19.  A background locator that is not a string can pass the
    [file://] check through its string form (an array with one such
    string does).  The handler then goes on, and fails where it calls
    [bgVideo.replace]: the answer is 500, never 400, and ffmpeg is not
    started. *)
Theorem video_background_not_a_string_is_500
    (st : state) (tmpDir s : string) :
  mkdtempSync w tmp_prefix = Normal tmpDir ->
  truthy template_ = true ->
  truthy bgVideo = true ->
  (forall x, bgVideo <> Str x) ->
  ToString bgVideo = Normal s ->
  startsWith "file://" s = true ->
  ensures (post_render_video w req_body st) (fun r st' =>
    r = Normal tt /\
    status (res st') = 500 /\
    error_code_of (res st') = Some (Str "RENDER_VIDEO_FAILED") /\
    forall c a t, ~ In (ERun c a t) (log st) -> ~ In (ERun c a t) (log st')).
Proof.
  intros Hmk Ht Hb Hns Hs Hp.
  assert (Hrun : forall c a t,
             ~ In (ERun c a t) (log st) ->
             ~ In (ERun c a t) (log (snd (post_render_video w req_body st)))).
  { intros c a t Hno Hin.
    destruct (video_run_event w req_body st tmpDir c a t Hmk Hno Hin)
      as (bgPath & _ & _ & _ & _ & _ & _ & Hv & _).
    exact (Hns _ Hv). }
  assert (Hthrow : bgVideo_path bgVideo
                   = Throw (TypeError "bgVideo.replace is not a function")).
  { destruct bgVideo; try reflexivity. exfalso. now apply (Hns s0). }
  assert (H3 : ensures (post_render_video w req_body st) (fun r st' =>
                 r = Normal tt /\
                 status (res st') = 500 /\
                 error_code_of (res st') = Some (Str "RENDER_VIDEO_FAILED"))).
  { clear Hrun Hns. revert Hmk Ht Hb Hs Hp Hthrow.
    subst tmp_prefix bgVideo template_ assets_ request.
    intros Hmk Ht Hb Hs Hp Hthrow.
    unfold post_render_video, video_try.
    run_all; repeat split; reflexivity. }
  unfold ensures in *. destruct H3 as (A & B & C).
  split; [exact A | split; [exact B | split; [exact C | exact Hrun]]].
Qed.
End VideoAnswers.


Lemma video_missing_template_is_400_witness :
  ensures (post_render_video calm video_request_no_template initial) (fun r st' =>
    r = Normal tt /\
    res st' = mkResponse 400 (Some "application/json")
                (Some (Json (Obj [("error", Str "template is required")]))) /\
    log st' = [EMkdtemp "/tmp/render-"; ERm "/tmp/render-Xy12Zw" true true] /\
    browserPromise st' = None).
Proof.
  apply (video_missing_template_is_400 calm video_request_no_template initial
           "/tmp/render-Xy12Zw"); reflexivity.
Defined.

Lemma video_success_call_sequence_witness :
  exists name bgPath fps dur dsf W H F D png mp4 out,
    let overlayPath := "/tmp/render-Xy12Zw/overlay-0a1b2c3d4e5f.png" in
    let outPath := "/tmp/render-Xy12Zw/out-0a1b2c3d4e5f.mp4" in
    let args := ffmpegArgs bgPath overlayPath D F (video_filter W H) false outPath in
    Str "card" = Str name /\
    Str "file:///bg.mp4" = Str ("file://" ++ bgPath) /\
    normalizeInt (Num (of_Z 24)) (Num (of_Z 30)) = Normal fps /\
    normalizeFloat (Num (of_Z 2)) (Num (of_Z 6)) = Normal dur /\
    normalizeDpr Undefined (Num (of_Z 1)) = Normal (Num dsf) /\
    usable dsf = true /\
    ToString (Num (of_Z 2160)) = Normal W /\
    ToString (Num (of_Z 3840)) = Normal H /\
    ToString fps = Normal F /\
    ToString dur = Normal D /\
    screenshot calm = Normal png /\
    await_run "ffmpeg" args (Some composition_timeoutMs) (ffmpeg calm) = Normal out /\
    readFileSync calm = Normal mp4 /\
    res (snd (post_render_video calm video_request initial))
      = mkResponse 200 (Some "video/mp4") (Some (Raw mp4)) /\
    log (snd (post_render_video calm video_request initial)) =
      ([] ++
       [EMkdtemp "/tmp/render-"] ++
       [ELaunch] ++
       [ENewContext (Num (of_Z 2160)) (Num (of_Z 3840)) (Num dsf);
        ENewPage;
        EAddInitScript (Obj [])
          (Obj [("backgroundVideo", Str "file:///bg.mp4")])
          (Obj [("fps", Num (of_Z 24)); ("durationSec", Num (of_Z 2));
                ("deviceScaleFactor", Num dsf)]);
        EGoto ("file://" ++
               path_join calm (path_join calm (TEMPLATES_ROOT calm) name) "index.html")
              "domcontentloaded";
        EAddStyleTag hide_bg_css;
        EEvaluateFontsReady;
        EWaitForReady 20000;
        EScreenshot "png" (Bool true);
        EPageClose;
        EContextClose;
        EWriteFile overlayPath png;
        ERun "ffmpeg" args composition_timeoutMs;
        EReadFile outPath;
        ERm "/tmp/render-Xy12Zw" true true])%list.
Proof.
  apply (video_success_call_sequence calm video_request initial "/tmp/render-Xy12Zw").
  - reflexivity.
  - discriminate.
  - reflexivity.
Defined.

Lemma video_ffmpeg_failure_is_500_witness :
  res (snd (post_render_video ffmpeg_exits_1 video_request initial)) =
  mkResponse 500 (Some "application/json")
    (Some (Json (Obj [("error", Str "RENDER_VIDEO_FAILED");
                      ("message",
                       Str "ffmpeg failed (code 1). /bg.mp4: No such file or directory")]))).
Proof.
  destruct (video_ffmpeg_failure_is_500 ffmpeg_exits_1 video_request initial
              "/tmp/render-Xy12Zw" "ffmpeg"
              [ "-y"; "-stream_loop"; "-1"; "-i"; "/bg.mp4";
                "-i"; "/tmp/render-Xy12Zw/overlay-0a1b2c3d4e5f.png";
                "-t"; "2"; "-r"; "24";
                "-filter_complex";
                "[0:v]scale=2160:3840:force_original_aspect_ratio=increase,crop=2160:3840,setsar=1[bg];[bg][1:v]overlay=0:0:format=auto[v]";
                "-map"; "[v]"; "-an";
                "-c:v"; "libx264"; "-pix_fmt"; "yuv420p"; "-movflags"; "+faststart";
                "/tmp/render-Xy12Zw/out-0a1b2c3d4e5f.mp4" ]
              (of_Z 180000)) as [Hexit _].
  - reflexivity.
  - vm_compute. do 13 right. left. reflexivity.
  - simpl. intros [].
  - apply (Hexit [StderrData "/bg.mp4: No such file or directory"] [] (Some 1));
      [reflexivity | reflexivity | discriminate].
Defined.

Lemma video_background_not_a_string_is_500_witness :
  ensures (post_render_video calm video_request_array_bg initial) (fun r st' =>
    r = Normal tt /\
    status (res st') = 500 /\
    error_code_of (res st') = Some (Str "RENDER_VIDEO_FAILED") /\
    forall c a t, ~ In (ERun c a t) (log initial) -> ~ In (ERun c a t) (log st')).
Proof.
  apply (video_background_not_a_string_is_500 calm video_request_array_bg initial
           "/tmp/render-Xy12Zw" "file:///bg.mp4"); try reflexivity.
  intros x. discriminate.
Defined.


Section VideoOutcomes.
Variable w : world.
Variable req_body : value.

Let tmp_prefix := path_join w (tmpdir w) "render-".

(** X22.  [fs.mkdtempSync] is called before the handler's [try].  When
    it throws, the handler throws that error: no response is written,
    nothing is logged through [console.error], and there is no directory
    to remove. *)
Theorem video_handler_throws_without_tmpdir (st : state) (e : error) :
  mkdtempSync w tmp_prefix = Throw e ->
  ensures (post_render_video w req_body st) (fun r st' =>
    r = Throw e /\
    res st' = res st /\
    log st' = (log st ++ [EMkdtemp tmp_prefix])%list /\
    browserPromise st' = browserPromise st).
Proof.
  subst tmp_prefix. intros Hmk.
  rewrite (post_render_video_no_tmpdir w req_body st e Hmk).
  repeat split; reflexivity.
Qed.

(** X23.  Once the temporary directory exists, the video handler
    answers in one of three ways, and removing the directory is its
    last call in each.  A request that fails validation gets 400 with
    one of three messages, and nothing but the creation and the removal
    of the directory was called.  A failure anywhere later is caught,
    passed to [console.error], and answered 500 with the code
    RENDER_VIDEO_FAILED and the error's message.  Otherwise the content
    type is video/mp4 and the body is what was read from the output
    file. *)
Theorem video_handler_answers (st : state) (tmpDir : string) :
  mkdtempSync w tmp_prefix = Normal tmpDir ->
  ensures (post_render_video w req_body st) (fun r st' =>
    r = Normal tt /\
    ((exists msg,
        (msg = "template is required" \/
         msg = "assets.backgroundVideo is required for /render/video" \/
         msg = "assets.backgroundVideo must be a file:// URL for /render/video") /\
        res st' = mkResponse 400 (Some "application/json")
                    (Some (Json (Obj [("error", Str msg)]))) /\
        log st' = (log st ++ [EMkdtemp tmp_prefix; ERm tmpDir true true])%list /\
        browserPromise st' = browserPromise st) \/
     (exists e pre,
        res st' = mkResponse 500 (Some "application/json")
                    (Some (Json (Obj [("error", Str "RENDER_VIDEO_FAILED");
                                      ("message", Str (err_message e))]))) /\
        log st' = (pre ++ [EConsoleError e; ERm tmpDir true true])%list) \/
     (exists mp4 pre,
        readFileSync w = Normal mp4 /\
        content_type (res st') = Some "video/mp4" /\
        body (res st') = Some (Raw mp4) /\
        log st' = (pre ++ [ERm tmpDir true true])%list))).
Proof.
  subst tmp_prefix. intros Hmk.
  unfold post_render_video, video_try.
  run_all; (split; [reflexivity|]);
    first
      [ left; eexists; split; [left; reflexivity|];
        flatten_log; repeat split; reflexivity
      | left; eexists; split; [right; left; reflexivity|];
        flatten_log; repeat split; reflexivity
      | left; eexists; split; [right; right; reflexivity|];
        flatten_log; repeat split; reflexivity
      | right; left;
        match goal with
        | |- context [EConsoleError ?e] => exists e
        end;
        eexists; split; [reflexivity|];
        rewrite <- (app_assoc _ [EConsoleError _]); reflexivity
      | right; right; do 2 eexists;
        split; [first [eassumption | reflexivity]|];
        split; [reflexivity|]; split; reflexivity ].
Qed.
End VideoOutcomes.

Lemma video_handler_throws_without_tmpdir_witness :
  let enospc := mkError "Error" "ENOSPC: no space left on device, mkdtemp" (Some "ENOSPC") in
  let full_disk :=
    {| DATA_ROOT := DATA_ROOT calm;
       tmpdir := tmpdir calm;
       path_join := path_join calm;
       existsSync := existsSync calm;
       mkdtempSync := fun _ => Throw enospc;
       randomHex := randomHex calm;
       launch := launch calm;
       newContext := newContext calm;
       newPage := newPage calm;
       addInitScript := addInitScript calm;
       goto := goto calm;
       addStyleTag := addStyleTag calm;
       evaluate := evaluate calm;
       waitForFunction := waitForFunction calm;
       screenshot := screenshot calm;
       page_close := page_close calm;
       context_close := context_close calm;
       writeFileSync := writeFileSync calm;
       ffmpeg := ffmpeg calm;
       readFileSync := readFileSync calm;
       rmSync := rmSync calm |} in
  ensures (post_render_video full_disk video_request initial) (fun r st' =>
    r = Throw enospc /\
    res st' = fresh_response /\
    log st' = [EMkdtemp "/tmp/render-"] /\
    browserPromise st' = None).
Proof.
  cbv zeta.
  match goal with
  | |- ensures (post_render_video ?w _ _) _ =>
      apply (video_handler_throws_without_tmpdir w video_request initial
               (mkError "Error" "ENOSPC: no space left on device, mkdtemp"
                        (Some "ENOSPC")))
  end.
  reflexivity.
Defined.

Lemma video_handler_answers_witness :
  ensures (post_render_video calm video_request_remote_bg initial) (fun r st' =>
    r = Normal tt /\
    ((exists msg,
        (msg = "template is required" \/
         msg = "assets.backgroundVideo is required for /render/video" \/
         msg = "assets.backgroundVideo must be a file:// URL for /render/video") /\
        res st' = mkResponse 400 (Some "application/json")
                    (Some (Json (Obj [("error", Str msg)]))) /\
        log st' = [EMkdtemp "/tmp/render-"; ERm "/tmp/render-Xy12Zw" true true] /\
        browserPromise st' = None) \/
     (exists e pre,
        res st' = mkResponse 500 (Some "application/json")
                    (Some (Json (Obj [("error", Str "RENDER_VIDEO_FAILED");
                                      ("message", Str (err_message e))]))) /\
        log st' = (pre ++ [EConsoleError e; ERm "/tmp/render-Xy12Zw" true true])%list) \/
     (exists mp4 pre,
        readFileSync calm = Normal mp4 /\
        content_type (res st') = Some "video/mp4" /\
        body (res st') = Some (Raw mp4) /\
        log st' = (pre ++ [ERm "/tmp/render-Xy12Zw" true true])%list))).
Proof.
  apply (video_handler_answers calm video_request_remote_bg initial "/tmp/render-Xy12Zw").
  reflexivity.
Defined.


(** ** What ffmpeg is told about rate, duration and size *)

Section FfmpegNumbers.
Variable w : world.
Variable req_body : value.

Let request := if truthy req_body then req_body else Obj [].
Let options_ := or_default (get request "options") (Obj []).
Let width_ := or_default (get request "width") (Num (of_Z 2160)).
Let height_ := or_default (get request "height") (Num (of_Z 3840)).
Let tmp_prefix := path_join w (tmpdir w) "render-".

(** X20.  Numbers reach ffmpeg as decimal numerals.  In the argument
    vector of any ffmpeg run the handler starts: an [fps] that is a
    positive integer below [2^53] is the argument after [-r], written in
    decimal; an omitted [fps] gives [30], an omitted [durationSec] gives
    [6] after [-t]; and a width and a height that are such integers
    appear in decimal in the scale and crop of the filter graph. *)
Theorem ffmpeg_numbers_are_decimal_numerals
    (st : state) (tmpDir c : string) (a : list string) (t : number) :
  mkdtempSync w tmp_prefix = Normal tmpDir ->
  In (ERun c a t) (log (snd (post_render_video w req_body st))) ->
  ~ In (ERun c a t) (log st) ->
  nth 7 a EmptyString = "-t" /\
  nth 9 a EmptyString = "-r" /\
  nth 11 a EmptyString = "-filter_complex" /\
  (forall i, 1 <= i < 2 ^ 53 ->
     get options_ "fps" = Num (of_Z i) -> nth 10 a EmptyString = dec i) /\
  (get options_ "fps" = Undefined -> nth 10 a EmptyString = "30") /\
  (get options_ "durationSec" = Undefined -> nth 8 a EmptyString = "6") /\
  (forall i j, 1 <= i < 2 ^ 53 -> 1 <= j < 2 ^ 53 ->
     width_ = Num (of_Z i) -> height_ = Num (of_Z j) ->
     nth 12 a EmptyString =
     ("[0:v]scale=" ++ dec i ++ ":" ++ dec j ++
      ":force_original_aspect_ratio=increase,crop=" ++ dec i ++ ":" ++ dec j ++
      ",setsar=1[bg];[bg][1:v]overlay=0:0:format=auto[v]")%string).
Proof.
  intros Hmk Hin Hnot.
  destruct (video_run_event w req_body st tmpDir c a t Hmk Hnot Hin)
    as (bgPath & W & H & F & D & fps & dur &
        _ & HW & HH & Hfps & HF & Hdur & HD & _ & _ & -> & _).
  fold request in HW, HH, Hfps, Hdur. fold options_ in Hfps, Hdur.
  fold width_ in HW. fold height_ in HH.
  cbn [ffmpegArgs app nth].
  repeat split.
  - intros i Hi Ei. rewrite Ei in Hfps.
    assert (Hk : normalizeInt (Num (of_Z i)) (Num (of_Z 30)) = Normal (Num (of_Z i))).
    { rewrite (normalizeInt_parse (of_Z i) _ (of_Z i)).
      - now rewrite of_Z_small_usable.
      - rewrite NumberToString_of_Z by exact Hi.
        apply parseInt_string_dec_only. lia. }
    rewrite Hk in Hfps. injection Hfps as <-.
    cbn [ToString] in HF. rewrite NumberToString_of_Z in HF by exact Hi.
    now injection HF.
  - intros Ei. rewrite Ei in Hfps.
    assert (Hn : normalizeInt Undefined (Num (of_Z 30)) = Normal (Num (of_Z 30)))
      by (vm_compute; reflexivity).
    assert (Hs : ToString (Num (of_Z 30)) = Normal "30")
      by (vm_compute; reflexivity).
    congruence.
  - intros Ei. rewrite Ei in Hdur.
    assert (Hn : normalizeFloat Undefined (Num (of_Z 6)) = Normal (Num (of_Z 6)))
      by (vm_compute; reflexivity).
    assert (Hs : ToString (Num (of_Z 6)) = Normal "6")
      by (vm_compute; reflexivity).
    congruence.
  - intros i j Hi Hj Ei Ej. rewrite Ei in HW. rewrite Ej in HH.
    cbn [ToString] in HW, HH.
    rewrite NumberToString_of_Z in HW, HH by assumption.
    injection HW as <-. injection HH as <-. reflexivity.
Qed.
End FfmpegNumbers.


Lemma ffmpeg_numbers_are_decimal_numerals_witness :
  let a := [ "-y"; "-stream_loop"; "-1"; "-i"; "/bg.mp4";
             "-i"; "/tmp/render-Xy12Zw/overlay-0a1b2c3d4e5f.png";
             "-t"; "6"; "-r"; "30";
             "-filter_complex";
             "[0:v]scale=1080:1920:force_original_aspect_ratio=increase,crop=1080:1920,setsar=1[bg];[bg][1:v]overlay=0:0:format=auto[v]";
             "-map"; "[v]"; "-an";
             "-c:v"; "libx264"; "-pix_fmt"; "yuv420p"; "-movflags"; "+faststart";
             "/tmp/render-Xy12Zw/out-0a1b2c3d4e5f.mp4" ] in
  In (ERun "ffmpeg" a (of_Z 180000))
     (log (snd (post_render_video calm video_request_sized initial))) /\
  nth 10 a EmptyString = "30" /\
  nth 8 a EmptyString = "6" /\
  nth 12 a EmptyString =
    ("[0:v]scale=" ++ dec 1080 ++ ":" ++ dec 1920 ++
     ":force_original_aspect_ratio=increase,crop=" ++ dec 1080 ++ ":" ++ dec 1920 ++
     ",setsar=1[bg];[bg][1:v]overlay=0:0:format=auto[v]")%string.
Proof.
  cbv zeta.
  assert (Hin : In (ERun "ffmpeg"
                  [ "-y"; "-stream_loop"; "-1"; "-i"; "/bg.mp4";
                    "-i"; "/tmp/render-Xy12Zw/overlay-0a1b2c3d4e5f.png";
                    "-t"; "6"; "-r"; "30";
                    "-filter_complex";
                    "[0:v]scale=1080:1920:force_original_aspect_ratio=increase,crop=1080:1920,setsar=1[bg];[bg][1:v]overlay=0:0:format=auto[v]";
                    "-map"; "[v]"; "-an";
                    "-c:v"; "libx264"; "-pix_fmt"; "yuv420p"; "-movflags"; "+faststart";
                    "/tmp/render-Xy12Zw/out-0a1b2c3d4e5f.mp4" ]
                  (of_Z 180000))
               (log (snd (post_render_video calm video_request_sized initial)))).
  { vm_compute. do 13 right. left. reflexivity. }
  split; [exact Hin|].
  destruct (ffmpeg_numbers_are_decimal_numerals calm video_request_sized initial
              "/tmp/render-Xy12Zw" "ffmpeg" _ (of_Z 180000) eq_refl Hin
              (fun H : In _ (log initial) => H))
    as (_ & _ & _ & _ & Hfps & Hdur & Hsize).
  split; [apply Hfps; reflexivity|].
  split; [apply Hdur; reflexivity|].
  apply (Hsize 1080 1920); try reflexivity; split; first [lia | reflexivity].
Defined.
